(** * generate_test_data.py: a shallow embedding and its verification

    The script builds a tree of package fixtures: a root directory [pkgs],
    one directory per package with a manifest and a [files] subdirectory of
    random payloads, and an index file [packages.txt].

    The embedding threads a world (file system and the positions of the two
    random sources) through a small exception monad.  Python exceptions keep
    the state reached when they are raised, so a computation returns an
    outcome together with the world. *)

From Stdlib Require Import ZArith Lia Ascii String.
From stdpp Require Import gmap strings list fin_maps pretty.

Open Scope Z_scope.

(** ** Characters and strings *)

(** The two characters that a Rocq string literal cannot hold directly. *)
Definition dquote : string := String "034"%char EmptyString.
Definition newline : string := String "010"%char EmptyString.
Definition slash : ascii := "/"%char.

(** [str(i)] and the [{i}] replacement field: decimal, with a leading minus
    sign for negative numbers. *)
Definition str_int (i : Z) : string := pretty i.

Fixpoint zeros (n : nat) : string :=
  match n with
  | O => EmptyString
  | S n' => String "0"%char (zeros n')
  end.

(** The format specification [0wd]: sign-aware zero padding to a minimum
    total width [w]; longer renderings are kept whole. *)
Definition format_0wd (w : nat) (i : Z) : string :=
  let sign := if i <? 0 then "-" else "" in
  let digits := str_int (Z.abs i) in
  sign +:+ zeros (w - String.length sign - String.length digits) +:+ digits.

Definition starts_with_slash (s : string) : bool :=
  match s with
  | String c _ => bool_decide (c = slash)
  | EmptyString => false
  end.

Fixpoint ends_with_slash (s : string) : bool :=
  match s with
  | EmptyString => false
  | String c EmptyString => bool_decide (c = slash)
  | String _ r => ends_with_slash r
  end.

(** [os.path.join(a, b)] of posixpath, for two arguments. *)
Definition os_path_join (a b : string) : string :=
  if starts_with_slash b then b
  else if bool_decide (a = EmptyString) || ends_with_slash a then a +:+ b
  else a +:+ "/" +:+ b.

(** ** Paths as the operating system sees them *)

(** Splitting at every slash. *)
Fixpoint path_components (s : string) : list string :=
  match s with
  | EmptyString => [EmptyString]
  | String c r =>
      if bool_decide (c = slash) then EmptyString :: path_components r
      else match path_components r with
           | x :: xs => String c x :: xs
           | [] => [String c EmptyString]
           end
  end.

(** Path resolution relative to the working directory: empty components and
    [.] are skipped.  The script builds no path with [..], which is left as
    an ordinary component. *)
Definition resolve (s : string) : list string :=
  filter (λ c, c ≠ EmptyString ∧ c ≠ ".") (path_components s).

(** ** The file system *)

(** An entry is a directory or a regular file with its content.  Symbolic
    links, and entries the process may not read or write, are outside the
    model. *)
Inductive node :=
  | Dir
  | File (data : string).

Global Instance node_eq_dec : EqDecision node.
Proof. solve_decision. Defined.

Definition is_dir (o : option node) : bool :=
  match o with Some Dir => true | _ => false end.

Definition is_file (o : option node) : bool :=
  match o with Some (File _) => true | _ => false end.

(** What is found at a resolved path; the working directory itself is the
    empty path and is always a directory. *)
Definition node_at (fs : gmap (list string) node) (p : list string) : option node :=
  match p with
  | [] => Some Dir
  | _ => fs !! p
  end.

Definition parent (p : list string) : list string := take (length p - 1) p.

(** Every entry sits in a directory. *)
Definition fs_wf (fs : gmap (list string) node) : Prop :=
  ∀ p n, fs !! p = Some n → p ≠ [] ∧ node_at fs (parent p) = Some Dir.

(** [os.listdir]: the names of the entries of a directory. *)
Definition child_name (d p : list string) : option string :=
  if bool_decide (parent p = d ∧ p ≠ []) then last p else None.

Definition os_listdir (fs : gmap (list string) node) (d : list string) : gset string :=
  list_to_set (omap (child_name d) (elements (dom fs))).

(** ** Worlds, exceptions and the monad *)

(** The sources of randomness.  [randint_src k a b] is what the [k]-th call
    of [random.randint] answers to the bounds [a] and [b]; [urandom_src k n]
    is byte [n] of the [k]-th call of [os.urandom]. *)
Record entropy := Entropy {
  randint_src : nat → Z → Z → Z;
  urandom_src : nat → nat → ascii;
}.

(** [random.randint(a, b)] answers within its bounds. *)
Definition entropy_ok (E : entropy) : Prop :=
  ∀ k a b, a ≤ b → a ≤ randint_src E k a b ≤ b.

Record world := World {
  w_fs : gmap (list string) node;
  w_randint_calls : nat;
  w_urandom_calls : nat;
}.

(** The exceptions the modelled calls raise on such a file system.  The
    [OSError]s of the environment (no permission, no space left) are
    outside the model. *)
Inductive exn :=
  | FileExistsError
  | FileNotFoundError
  | NotADirectoryError
  | IsADirectoryError
  | ValueError.

Global Instance exn_eq_dec : EqDecision exn.
Proof. solve_decision. Defined.

Definition is_OSError (e : exn) : bool :=
  match e with ValueError => false | _ => true end.

Inductive outcome (A : Type) :=
  | Returned (a : A)
  | Raised (e : exn).
Global Arguments Returned {A} a.
Global Arguments Raised {A} e.

Definition py (A : Type) : Type := world → outcome A * world.

Definition ret {A} (a : A) : py A := λ w, (Returned a, w).
Definition raise {A} (e : exn) : py A := λ w, (Raised e, w).
Definition bind {A B} (m : py A) (k : A → py B) : py B :=
  λ w, match m w with
       | (Returned a, w') => k a w'
       | (Raised e, w') => (Raised e, w')
       end.

Notation "'let*' x ':=' m 'in' k" := (bind m (λ x, k))
  (at level 10, x name, m at level 100, k at level 200, only parsing).
Notation "m ';;' k" := (bind m (λ _, k))
  (at level 100, k at level 200, right associativity, only parsing).

(** [try: m  except <handled>: h]. *)
Definition try_except {A} (m : py A) (handled : exn → bool) (h : exn → py A) : py A :=
  λ w, match m w with
       | (Raised e, w') => if handled e then h e w' else (Raised e, w')
       | r => r
       end.

(** [for x in l: body x]. *)
Fixpoint for_each {A} (l : list A) (body : A → py unit) : py unit :=
  match l with
  | [] => ret tt
  | x :: l' => body x ;; for_each l' body
  end.

(** [range(lo, hi)]. *)
Definition range (lo hi : Z) : list Z := seqZ lo (hi - lo).

Definition get_fs : py (gmap (list string) node) := λ w, (Returned (w_fs w), w).
Definition put_fs (fs : gmap (list string) node) : py unit :=
  λ w, (Returned tt, World fs (w_randint_calls w) (w_urandom_calls w)).

(** ** The library calls the script makes *)

Definition os_path_exists (s : string) : py bool :=
  let* fs := get_fs in
  ret (bool_decide (is_Some (node_at fs (resolve s)))).

Definition os_path_isdir_at (p : list string) : py bool :=
  let* fs := get_fs in
  ret (is_dir (node_at fs p)).

(** [os.mkdir] on a resolved path. *)
Definition mkdir_at (p : list string) : py unit :=
  let* fs := get_fs in
  match node_at fs p with
  | Some _ => raise FileExistsError
  | None =>
      match node_at fs (parent p) with
      | Some Dir => put_fs (<[p := Dir]> fs)
      | Some (File _) => raise NotADirectoryError
      | None => raise FileNotFoundError
      end
  end.

(** The successive [os.path.split] heads of a path, nearest first. *)
Definition heads (p : list string) : list (list string) :=
  (λ n, take n p) <$> reverse (seq 1 (length p - 1)).

(** [os.makedirs(name, exist_ok)]: the recursion of CPython over the heads of
    [name].  A missing head is created first, a [FileExistsError] from that
    recursive call is passed over; then the leaf is made, and an [OSError]
    there is raised again unless [exist_ok] holds and the leaf is a
    directory. *)
Fixpoint makedirs_chain (name : list string) (hs : list (list string))
    (exist_ok : bool) : py unit :=
  match hs with
  | [] => ret tt
  | head :: hs' =>
      let* fs := get_fs in
      if bool_decide (is_Some (node_at fs head)) then ret tt
      else try_except (makedirs_chain head hs' exist_ok)
             (λ e, bool_decide (e = FileExistsError)) (λ _, ret tt)
  end ;;
  try_except (mkdir_at name) is_OSError
    (λ e, let* d := os_path_isdir_at name in
          if negb exist_ok || negb d then raise e else ret tt).

Definition os_makedirs (name : string) (exist_ok : bool) : py unit :=
  makedirs_chain (resolve name) (heads (resolve name)) exist_ok.

(** [open(name, "w")] and [open(name, "wb")]: the file is created or
    truncated; the handle is the resolved path. *)
Definition open_w (name : string) : py (list string) :=
  let p := resolve name in
  let* fs := get_fs in
  match node_at fs p with
  | Some Dir => raise IsADirectoryError
  | Some (File _) => put_fs (<[p := File EmptyString]> fs) ;; ret p
  | None =>
      match node_at fs (parent p) with
      | Some Dir => put_fs (<[p := File EmptyString]> fs) ;; ret p
      | Some (File _) => raise NotADirectoryError
      | None => raise FileNotFoundError
      end
  end.

(** [handle.write(data)]: the data goes after what the file holds. *)
Definition file_write (handle : list string) (data : string) : py unit :=
  let* fs := get_fs in
  match fs !! handle with
  | Some (File old) => put_fs (<[handle := File (old +:+ data)]> fs)
  | _ => raise ValueError
  end.

(** [with open(name, mode) as handle: body handle]; closing changes nothing
    that the file system shows, on either way out. *)
Definition with_open_w {A} (name : string) (body : list string → py A) : py A :=
  let* handle := open_w name in
  body handle.

(** [random.randint(a, b)]. *)
Definition random_randint (E : entropy) (a b : Z) : py Z :=
  λ w, if b <? a then (Raised ValueError, w)
       else (Returned (randint_src E (w_randint_calls w) a b),
             World (w_fs w) (S (w_randint_calls w)) (w_urandom_calls w)).

(** [os.urandom(size)]. *)
Definition os_urandom (E : entropy) (size : Z) : py string :=
  λ w, if size <? 0 then (Raised ValueError, w)
       else (Returned (string_of_list_ascii
                         (urandom_src E (w_urandom_calls w) <$> seq 0 (Z.to_nat size))),
             World (w_fs w) (w_randint_calls w) (S (w_urandom_calls w))).

(** ** The script *)

Definition pkg_name (i : Z) : string := "pkg" +:+ format_0wd 3 i.
Definition pkg_dir (i : Z) : string := os_path_join "pkgs" (pkg_name i).
Definition files_dir (i : Z) : string := os_path_join (pkg_dir i) "files".
Definition file_name (j : Z) : string := "f" +:+ str_int j +:+ ".bin".
Definition file_path (i j : Z) : string := os_path_join (files_dir i) (file_name j).
Definition manifest_path (i : Z) : string := os_path_join (pkg_dir i) "manifest.json".

Definition manifest_text (i : Z) : string :=
  "{" +:+ dquote +:+ "name" +:+ dquote +:+ ":" +:+ dquote +:+ pkg_name i +:+ dquote
  +:+ "," +:+ dquote +:+ "version" +:+ dquote +:+ ":" +:+ dquote +:+ "1.0.0" +:+ dquote
  +:+ "}" +:+ newline.

Definition index_line (i : Z) : string := pkg_dir i +:+ newline.

(** Lines 18 to 23: one payload file. *)
Definition write_payload (E : entropy) (i j : Z) : py unit :=
  with_open_w (file_path i j) (λ bin_file,
    let* r := random_randint E 0 4096 in
    let size := 1024 + r in
    let* bytes := os_urandom E size in
    file_write bin_file bytes).

(** Lines 10 to 25: one package. *)
Definition write_package (E : entropy) (num_files_per_package : Z)
    (f : list string) (i : Z) : py unit :=
  os_makedirs (files_dir i) true ;;
  with_open_w (manifest_path i) (λ manifest,
    file_write manifest (manifest_text i)) ;;
  for_each (range 1 (num_files_per_package + 1)) (write_payload E i) ;;
  file_write f (index_line i).

Definition generate_test_data (E : entropy)
    (num_packages num_files_per_package : Z) : py unit :=
  let* present := os_path_exists "pkgs" in
  (if negb present then os_makedirs "pkgs" false else ret tt) ;;
  with_open_w "packages.txt" (λ f,
    for_each (range 1 (num_packages + 1))
      (write_package E num_files_per_package f)).

(** Lines 27 and 28: the module run as a script, or imported. *)
Definition script (E : entropy) (dunder_name : string) : py unit :=
  if bool_decide (dunder_name = "__main__") then generate_test_data E 100 20
  else ret tt.

(** A starting world over a given file system. *)
Definition start (fs : gmap (list string) node) : world := World fs 0 0.

(** An entropy source that always draws [d] and fills with the byte [c]. *)
Definition const_entropy (d : Z) (c : ascii) : entropy :=
  Entropy (λ _ a b, Z.max a (Z.min b d)) (λ _ _, c).


(** ** Predicates on strings used by the proofs *)

Fixpoint string_forall (P : ascii → bool) (s : string) : bool :=
  match s with
  | EmptyString => true
  | String c r => P c && string_forall P r
  end.

Definition is_digit (c : ascii) : bool :=
  (48 <=? nat_of_ascii c)%nat && (nat_of_ascii c <=? 57)%nat.

(** Digits and the minus sign: what a rendered integer is made of. *)
Definition is_numeral (c : ascii) : bool :=
  is_digit c || bool_decide (c = "-"%char).

(** A character that neither separates path components nor ends a line. *)
Definition is_plain (c : ascii) : bool :=
  negb (bool_decide (c = slash)) && negb (bool_decide (c = "010"%char)).

(** Reading a decimal numeral back, by Horner's rule. *)
Definition digit_value (c : ascii) : Z := Z.of_nat (nat_of_ascii c) - 48.

Fixpoint parse_decimal_from (acc : Z) (s : string) : Z :=
  match s with
  | EmptyString => acc
  | String c r => parse_decimal_from (10 * acc + digit_value c) r
  end.

Definition parse_decimal (s : string) : Z := parse_decimal_from 0 s.

(** [str.splitlines] for text whose lines all end in a newline. *)
Fixpoint lines_from (cur : string) (s : string) : list string :=
  match s with
  | EmptyString => if bool_decide (cur = EmptyString) then [] else [cur]
  | String c r =>
      if bool_decide (c = "010"%char) then cur :: lines_from EmptyString r
      else lines_from (cur +:+ String c EmptyString) r
  end.

Definition splitlines (s : string) : list string := lines_from EmptyString s.


(** ** Definitions used by the statements and the proofs *)

(** The digits of a natural number, most significant first; empty for zero. *)
Definition digits_of (x : N) : string := pretty_N_go x "".

Definition pkgs_p : list string := ["pkgs"].

Definition index_p : list string := ["packages.txt"].

Definition pkg_p (i : Z) : list string := ["pkgs"; pkg_name i].

Definition files_p (i : Z) : list string := ["pkgs"; pkg_name i; "files"].

Definition manifest_p (i : Z) : list string := ["pkgs"; pkg_name i; "manifest.json"].

Definition payload_p (i j : Z) : list string :=
  ["pkgs"; pkg_name i; "files"; file_name j].

(** A path component that resolution keeps as it is. *)
Definition good_name (s : string) : Prop :=
  string_forall is_plain s = true ∧ s ≠ "" ∧ s ≠ ".".

(** [p] is a non-empty initial segment of [name]. *)
Definition prefix_of (name p : list string) : Prop :=
  ∃ k, (1 ≤ k ≤ length name)%nat ∧ p = take k name.

(** The leaf step of [os.makedirs] with [exist_ok=True]. *)
Definition makedirs_leaf (name : list string) : py unit :=
  try_except (mkdir_at name) is_OSError
    (λ e, let* d := os_path_isdir_at name in
          if negb true || negb d then raise e else ret tt).

(** What [os.makedirs(name, exist_ok=True)] leaves behind. *)
Definition makedirs_post (name : list string) (w : world) (r : outcome unit)
    (w' : world) : Prop :=
  w_randint_calls w' = w_randint_calls w ∧
  w_urandom_calls w' = w_urandom_calls w ∧
  fs_wf (w_fs w') ∧
  (∀ p, w_fs w' !! p = w_fs w !! p
        ∨ (w_fs w !! p = None ∧ w_fs w' !! p = Some Dir ∧ prefix_of name p)) ∧
  match r with
  | Returned _ => ∀ p, prefix_of name p → w_fs w' !! p = Some Dir
  | Raised e =>
      (∃ p, prefix_of name p ∧ is_file (w_fs w !! p) = true) ∧
      (e = FileExistsError → is_file (w_fs w !! name) = true)
  end.

(** The bytes of the payload written when [random.randint] has been called
    [rc] times and [os.urandom] [uc] times before. *)
Definition payload_size (E : entropy) (rc : nat) : Z :=
  1024 + randint_src E rc 0 4096.

Definition payload_bytes (E : entropy) (rc uc : nat) : string :=
  string_of_list_ascii (urandom_src E uc <$> seq 0 (Z.to_nat (payload_size E rc))).

(** The payload loop of one package. *)
Definition payloads_done (E : entropy) (i M : Z) (w w' : world) (k : nat) : Prop :=
  w_randint_calls w' = (w_randint_calls w + k)%nat ∧
  w_urandom_calls w' = (w_urandom_calls w + k)%nat ∧
  fs_wf (w_fs w') ∧
  (∀ j, 1 ≤ j ≤ Z.of_nat k →
     w_fs w' !! payload_p i j
     = Some (File (payload_bytes E (w_randint_calls w + Z.to_nat (j - 1))
                                   (w_urandom_calls w + Z.to_nat (j - 1)))) ∧
     0 ≤ payload_size E (w_randint_calls w + Z.to_nat (j - 1))) ∧
  (∀ p, (∀ j, 1 ≤ j ≤ Z.of_nat k → p ≠ payload_p i j) →
     w_fs w' !! p = w_fs w !! p).

(** The paths one package owns, and all the paths a run writes. *)
Definition package_paths (M i : Z) : list (list string) :=
  [pkg_p i; files_p i; manifest_p i] ++ (payload_p i <$> range 1 (M + 1)).

Definition created_paths (N M : Z) : list (list string) :=
  pkgs_p :: index_p :: mjoin (package_paths M <$> range 1 (N + 1)).

(** What one round of the package loop leaves behind. *)
Definition package_done (E : entropy) (M i : Z) (w w' : world) : Prop :=
  w_randint_calls w' = (w_randint_calls w + Z.to_nat M)%nat ∧
  w_urandom_calls w' = (w_urandom_calls w + Z.to_nat M)%nat ∧
  fs_wf (w_fs w') ∧
  w_fs w' !! pkgs_p = Some Dir ∧
  (w_fs w !! pkgs_p = None ∨ w_fs w !! pkgs_p = Some Dir) ∧
  w_fs w' !! pkg_p i = Some Dir ∧
  w_fs w' !! files_p i = Some Dir ∧
  w_fs w' !! manifest_p i = Some (File (manifest_text i)) ∧
  (∀ j, 1 ≤ j ≤ M →
     w_fs w' !! payload_p i j
     = Some (File (payload_bytes E (w_randint_calls w + Z.to_nat (j - 1))
                                   (w_urandom_calls w + Z.to_nat (j - 1)))) ∧
     0 ≤ payload_size E (w_randint_calls w + Z.to_nat (j - 1))) ∧
  (∃ old, w_fs w !! index_p = Some (File old) ∧
          w_fs w' !! index_p = Some (File (old +:+ index_line i))) ∧
  (∀ p, p ∉ package_paths M i → p ≠ index_p → p ≠ pkgs_p →
     w_fs w' !! p = w_fs w !! p).

(** How many payloads have been drawn before payload [j] of package [i]. *)
Definition payload_index (M i j : Z) : nat :=
  (Z.to_nat (i - 1) * Z.to_nat M + Z.to_nat (j - 1))%nat.

(** The index file after the packages [1] to [N]. *)
Definition index_text (N : Z) : string :=
  foldr (λ i acc, index_line i +:+ acc) "" (range 1 (N + 1)).

(** The state after [k] rounds of the package loop started in [w]. *)
Definition packages_done (E : entropy) (M : Z) (w w' : world) (k : nat) : Prop :=
  w_randint_calls w' = (w_randint_calls w + k * Z.to_nat M)%nat ∧
  w_urandom_calls w' = (w_urandom_calls w + k * Z.to_nat M)%nat ∧
  fs_wf (w_fs w') ∧
  w_fs w' !! index_p = Some (File (index_text (Z.of_nat k))) ∧
  ((1 ≤ k)%nat → w_fs w' !! pkgs_p = Some Dir) ∧
  (w_fs w' !! pkgs_p = w_fs w !! pkgs_p
   ∨ (w_fs w !! pkgs_p = None ∧ w_fs w' !! pkgs_p = Some Dir)) ∧
  (∀ i, 1 ≤ i ≤ Z.of_nat k →
     w_fs w' !! pkg_p i = Some Dir ∧
     w_fs w' !! files_p i = Some Dir ∧
     w_fs w' !! manifest_p i = Some (File (manifest_text i)) ∧
     ∀ j, 1 ≤ j ≤ M →
       w_fs w' !! payload_p i j
       = Some (File (payload_bytes E (w_randint_calls w + payload_index M i j)
                                     (w_urandom_calls w + payload_index M i j))) ∧
       0 ≤ payload_size E (w_randint_calls w + payload_index M i j)) ∧
  (∀ p, (∀ i, 1 ≤ i ≤ Z.of_nat k → p ∉ package_paths M i) →
     p ≠ index_p → p ≠ pkgs_p → w_fs w' !! p = w_fs w !! p).

(** The file system once [pkgs] is there and the index file is open. *)
Definition opened (fs : gmap (list string) node) : gmap (list string) node :=
  <[index_p := File ""]>
    (if bool_decide (is_Some (fs !! pkgs_p)) then fs else <[pkgs_p := Dir]> fs).

(** What a run that returns leaves behind. *)
Definition generated (E : entropy) (N M : Z) (w w' : world) : Prop :=
  w_randint_calls w' = (w_randint_calls w + Z.to_nat N * Z.to_nat M)%nat ∧
  w_urandom_calls w' = (w_urandom_calls w + Z.to_nat N * Z.to_nat M)%nat ∧
  fs_wf (w_fs w') ∧
  w_fs w' !! index_p = Some (File (index_text N)) ∧
  w_fs w' !! pkgs_p = Some (default Dir (w_fs w !! pkgs_p)) ∧
  (1 ≤ N → w_fs w' !! pkgs_p = Some Dir) ∧
  is_dir (w_fs w !! index_p) = false ∧
  (∀ i, 1 ≤ i ≤ N →
     w_fs w' !! pkg_p i = Some Dir ∧
     w_fs w' !! files_p i = Some Dir ∧
     w_fs w' !! manifest_p i = Some (File (manifest_text i)) ∧
     ∀ j, 1 ≤ j ≤ M →
       w_fs w' !! payload_p i j
       = Some (File (payload_bytes E (w_randint_calls w + payload_index M i j)
                                     (w_urandom_calls w + payload_index M i j))) ∧
       0 ≤ payload_size E (w_randint_calls w + payload_index M i j)) ∧
  (∀ p, p ∉ created_paths N M → w_fs w' !! p = w_fs w !! p).

(** A file system in which nothing stands in the way of a run: no file where
    a directory is to be, no directory where a file is to be. *)
Definition compatible (N M : Z) (fs : gmap (list string) node) : Prop :=
  is_dir (fs !! index_p) = false ∧
  (1 ≤ N → is_file (fs !! pkgs_p) = false) ∧
  (∀ i, 1 ≤ i ≤ N →
     is_file (fs !! pkg_p i) = false ∧
     is_file (fs !! files_p i) = false ∧
     is_dir (fs !! manifest_p i) = false ∧
     ∀ j, 1 ≤ j ≤ M → is_dir (fs !! payload_p i j) = false).

Definition no_newline (c : ascii) : bool := negb (bool_decide (c = "010"%char)).

(** Zero padding in the words of the specification: the decimal digits,
    with zeros in front up to the width. *)
Definition spec_zero_pad (width : nat) (digits : string) : string :=
  zeros (width - String.length digits) +:+ digits.

(** The manifest in the words of the specification. *)
Definition spec_manifest (name : string) : string :=
  "{" +:+ dquote +:+ "name" +:+ dquote +:+ ":" +:+ dquote +:+ name +:+ dquote
  +:+ "," +:+ dquote +:+ "version" +:+ dquote +:+ ":" +:+ dquote +:+ "1.0.0"
  +:+ dquote +:+ "}" +:+ newline.

(** An entropy source outside the contract of [random.randint]: every
    payload it sizes is empty. *)
Definition empty_payload_entropy : entropy :=
  Entropy (λ _ _ _, -1024) (λ _ _, "x"%char).

(** The answers of [random.randint(0, 4096)] that give a payload of [s]
    bytes. *)
Definition draws_giving (s : Z) : list Z :=
  filter (λ d, 1024 + d = s) (range 0 4097).

(** The claim C1 as it is written: below [pkgs] there are exactly [N]
    entries, all directories; each holds [manifest.json], a file, and
    [files], a directory, and nothing else; and [files] holds exactly [M]
    entries, all files. *)
Definition packages_exactly (N M : Z) (fs : gmap (list string) node) : Prop :=
  size (os_listdir fs pkgs_p) = Z.to_nat N ∧
  ∀ name, name ∈ os_listdir fs pkgs_p →
    fs !! ["pkgs"; name] = Some Dir ∧
    os_listdir fs ["pkgs"; name] = {[ "manifest.json"; "files" ]} ∧
    is_file (fs !! ["pkgs"; name; "manifest.json"]) = true ∧
    fs !! ["pkgs"; name; "files"] = Some Dir ∧
    size (os_listdir fs ["pkgs"; name; "files"]) = Z.to_nat M ∧
    ∀ f, f ∈ os_listdir fs ["pkgs"; name; "files"] →
         is_file (fs !! ["pkgs"; name; "files"; f]) = true.

(** Nothing lies below [pkgs] but what a run with these counts writes. *)
Definition stale_free (N M : Z) (fs : gmap (list string) node) : Prop :=
  ∀ p, is_Some (fs !! p) → (2 ≤ length p)%nat → p !! 0%nat = Some "pkgs" →
       p ∈ created_paths N M.


(** Every entry of [fs] is still there in [fs'], a directory if it was a
    directory and a file if it was a file. *)
Definition keeps_entries (fs fs' : gmap (list string) node) : Prop :=
  ∀ p n, fs !! p = Some n →
    ∃ n', fs' !! p = Some n' ∧ is_dir (Some n') = is_dir (Some n).

(** A call that, on either way out, leaves the file system well-formed,
    keeps its entries and changes no path outside [S]. *)
Definition confined {A} (S : list string → Prop) (m : py A) : Prop :=
  ∀ w r w', fs_wf (w_fs w) → m w = (r, w') →
    fs_wf (w_fs w') ∧ keeps_entries (w_fs w) (w_fs w') ∧
    ∀ p, ¬ S p → w_fs w' !! p = w_fs w !! p.

(** * Facts about strings *)

Section strings.
Implicit Types (a b s : string) (c : ascii) (P Q : ascii → bool).

Lemma append_cons c a b : String c a +:+ b = String c (a +:+ b).
Proof. done. Qed.

Lemma append_nil_l a : "" +:+ a = a.
Proof. done. Qed.

Lemma length_append a b :
  String.length (a +:+ b) = (String.length a + String.length b)%nat.
Proof.
  induction a as [|c a IH]; [done|]. rewrite append_cons. simpl. by rewrite IH.
Qed.

Lemma append_nil_r a : a +:+ "" = a.
Proof. induction a as [|c a IH]; [done|]. by rewrite append_cons, IH. Qed.

Lemma append_assoc a b s : (a +:+ b) +:+ s = a +:+ (b +:+ s).
Proof. induction a as [|c a IH]; [done|]. by rewrite !append_cons, IH. Qed.

Lemma append_inv_tail a b s : a +:+ s = b +:+ s → a = b.
Proof.
  revert b. induction a as [|c a IH]; intros [|c' b] H;
    rewrite ?append_cons, ?append_nil_l in H.
  - done.
  - apply (f_equal String.length) in H. simpl in H.
    rewrite length_append in H. lia.
  - apply (f_equal String.length) in H. simpl in H.
    rewrite length_append in H. lia.
  - injection H as -> H. f_equal. by apply IH.
Qed.

Lemma length_string_of_list_ascii (l : list ascii) :
  String.length (string_of_list_ascii l) = length l.
Proof. induction l as [|c l IH]; simpl; [done|]. by rewrite IH. Qed.

Lemma string_forall_append P a b :
  string_forall P (a +:+ b) = string_forall P a && string_forall P b.
Proof.
  induction a as [|c a IH]; [done|]. rewrite append_cons. simpl.
  rewrite IH. by rewrite andb_assoc.
Qed.

Lemma string_forall_impl P Q s :
  (∀ c, P c = true → Q c = true) →
  string_forall P s = true → string_forall Q s = true.
Proof.
  intros HPQ. induction s as [|c s IH]; simpl; [done|].
  rewrite !andb_true_iff. intros [? ?]. auto.
Qed.

Lemma length_zeros n : String.length (zeros n) = n.
Proof. induction n as [|n IH]; simpl; [done|]. by rewrite IH. Qed.

Lemma string_forall_zeros P n :
  P "0"%char = true → string_forall P (zeros n) = true.
Proof. intros HP. induction n as [|n IH]; simpl; [done|]. by rewrite HP, IH. Qed.

Lemma parse_decimal_from_append acc a b :
  parse_decimal_from acc (a +:+ b) = parse_decimal_from (parse_decimal_from acc a) b.
Proof.
  revert acc. induction a as [|c a IH]; intros acc; [done|].
  rewrite append_cons. simpl. apply IH.
Qed.

Lemma parse_decimal_from_zeros n : parse_decimal_from 0 (zeros n) = 0.
Proof. induction n as [|n IH]; simpl; [done|]. apply IH. Qed.

Lemma is_digit_numeral c : is_digit c = true → is_numeral c = true.
Proof. unfold is_numeral. intros ->. done. Qed.

Lemma is_numeral_plain c : is_numeral c = true → is_plain c = true.
Proof.
  unfold is_numeral, is_plain, is_digit, slash.
  rewrite orb_true_iff, !andb_true_iff, !negb_true_iff, !bool_decide_eq_false.
  rewrite bool_decide_eq_true.
  intros [[H1 H2]| ->]; [|by split].
  split; intros ->; vm_compute in H1; discriminate.
Qed.
End strings.

(** ** Decimal rendering *)

Section decimal.

Lemma pretty_N_go_append x s : pretty_N_go x s = digits_of x +:+ s.
Proof.
  unfold digits_of. revert s.
  induction (N.lt_wf_0 x) as [x _ IH]; intros s.
  destruct (decide (x = 0%N)) as [->|Hx]; [done|].
  assert (x `div` 10 < x)%N as Hlt by (apply N.div_lt; lia).
  rewrite !(pretty_N_go_step x) by lia.
  rewrite (IH _ Hlt (String _ s)), (IH _ Hlt (String _ "")).
  by rewrite append_assoc.
Qed.

Lemma digits_of_step x :
  (0 < x)%N →
  digits_of x = digits_of (x `div` 10)%N +:+ String (pretty_N_char (x `mod` 10)%N) "".
Proof.
  intros Hx. unfold digits_of at 1. rewrite pretty_N_go_step by done.
  apply pretty_N_go_append.
Qed.

Lemma pretty_N_char_digit x : is_digit (pretty_N_char x) = true.
Proof. unfold pretty_N_char. by repeat case_match. Qed.

Lemma digit_value_pretty_N_char x :
  (x < 10)%N → digit_value (pretty_N_char x) = Z.of_N x.
Proof.
  intros Hx.
  assert (x = 0 ∨ x = 1 ∨ x = 2 ∨ x = 3 ∨ x = 4 ∨ x = 5 ∨ x = 6 ∨ x = 7
          ∨ x = 8 ∨ x = 9)%N as Hc by lia.
  repeat (destruct Hc as [->|Hc]; [done|]). by subst.
Qed.

Lemma digits_of_digits x : string_forall is_digit (digits_of x) = true.
Proof.
  induction (N.lt_wf_0 x) as [x _ IH].
  destruct (decide (x = 0%N)) as [->|Hx]; [done|].
  rewrite digits_of_step by lia. rewrite string_forall_append. simpl.
  rewrite IH by (apply N.div_lt; lia). by rewrite pretty_N_char_digit.
Qed.

Lemma parse_digits_of x : parse_decimal (digits_of x) = Z.of_N x.
Proof.
  unfold parse_decimal.
  induction (N.lt_wf_0 x) as [x _ IH].
  destruct (decide (x = 0%N)) as [->|Hx]; [done|].
  rewrite digits_of_step by lia. rewrite parse_decimal_from_append. simpl.
  rewrite IH by (apply N.div_lt; lia).
  rewrite digit_value_pretty_N_char by (apply N.mod_lt; lia).
  rewrite (N.div_mod x 10) at 3 by done. lia.
Qed.

(** A numeral of [n] digits denotes a number below [10 ^ n], and one
    without a leading zero a number from [10 ^ (n - 1)] on. *)
Lemma digits_of_bounds x :
  (0 < x)%N →
  10 ^ (Z.of_nat (String.length (digits_of x)) - 1) ≤ Z.of_N x
    < 10 ^ Z.of_nat (String.length (digits_of x)).
Proof.
  induction (N.lt_wf_0 x) as [x _ IH]. intros Hx.
  rewrite digits_of_step by lia. rewrite length_append. simpl.
  destruct (decide (x `div` 10 = 0)%N) as [H0|H0].
  - rewrite H0. simpl.
    assert (x < 10)%N by (apply N.div_small_iff in H0; lia).
    change (10 ^ (Z.of_nat 1 - 1)) with 1. change (10 ^ Z.of_nat 1) with 10. lia.
  - specialize (IH (x `div` 10)%N). 
    destruct IH as [IH1 IH2];
      [apply N.div_lt; lia|by apply N.neq_0_lt_0|].
    set (n := String.length (digits_of (x `div` 10)%N)) in *.
    assert (0 < n)%nat.
    { destruct n; [|lia]. simpl in IH2. lia. }
    replace (Z.of_nat (n + 1) - 1) with (Z.succ (Z.of_nat n - 1)) by lia.
    replace (Z.of_nat (n + 1)) with (Z.succ (Z.of_nat n)) by lia.
    rewrite !Z.pow_succ_r by lia.
    rewrite N2Z.inj_div in IH1, IH2. simpl in IH1, IH2.
    pose proof (Z.div_mod (Z.of_N x) 10 ltac:(lia)).
    pose proof (Z.mod_pos_bound (Z.of_N x) 10 ltac:(lia)). lia.
Qed.

Lemma pretty_N_digits_of (x : N) :
  pretty x = if decide (x = 0%N) then "0" else digits_of x.
Proof. done. Qed.
End decimal.

Section rendering.
Implicit Types (i j : Z).

Lemma str_int_pos i : 0 < i → str_int i = digits_of (Z.to_N i).
Proof. destruct i as [|p|p]; try lia. intros _. done. Qed.

Lemma str_int_zero : str_int 0 = "0".
Proof. done. Qed.

Lemma str_int_digits i : 0 ≤ i → string_forall is_digit (str_int i) = true.
Proof.
  intros Hi. destruct (decide (i = 0)) as [->|Hne]; [done|].
  rewrite str_int_pos by lia. apply digits_of_digits.
Qed.

Lemma str_int_numeral i : string_forall is_numeral (str_int i) = true.
Proof.
  destruct i as [|p|p].
  - done.
  - apply string_forall_impl with is_digit; [apply is_digit_numeral|].
    apply (str_int_digits (Z.pos p)). lia.
  - change (str_int (Z.neg p)) with ("-" +:+ str_int (Z.pos p)).
    rewrite string_forall_append. apply andb_true_iff. split; [done|].
    apply string_forall_impl with is_digit; [apply is_digit_numeral|].
    apply (str_int_digits (Z.pos p)). lia.
Qed.

Lemma parse_str_int i : 0 ≤ i → parse_decimal (str_int i) = i.
Proof.
  intros Hi. destruct (decide (i = 0)) as [->|Hne]; [done|].
  rewrite str_int_pos by lia. rewrite parse_digits_of. lia.
Qed.

Lemma str_int_bounds i :
  0 < i →
  10 ^ (Z.of_nat (String.length (str_int i)) - 1) ≤ i
    < 10 ^ Z.of_nat (String.length (str_int i)).
Proof.
  intros Hi. rewrite str_int_pos by done.
  pose proof (digits_of_bounds (Z.to_N i)) as H. rewrite Z2N.id in H by lia.
  apply H. lia.
Qed.

Lemma str_int_nonempty i : str_int i ≠ "".
Proof.
  destruct i as [|p|p]; [done| |done].
  pose proof (str_int_bounds (Z.pos p)) as H. intros Heq. rewrite Heq in H.
  simpl in H. lia.
Qed.

Lemma str_int_inj i j : str_int i = str_int j → i = j.
Proof. apply (inj (pretty : Z → string)). Qed.

Lemma format_0wd_nonneg w i :
  0 ≤ i →
  format_0wd w i = zeros (w - String.length (str_int i)) +:+ str_int i.
Proof.
  intros Hi. unfold format_0wd.
  replace (i <? 0) with false by (symmetry; by apply Z.ltb_ge).
  rewrite Z.abs_eq by done. rewrite append_nil_l. simpl.
  by rewrite Nat.sub_0_r.
Qed.

Lemma format_0wd_numeral w i : string_forall is_numeral (format_0wd w i) = true.
Proof.
  unfold format_0wd. rewrite !string_forall_append.
  rewrite string_forall_zeros by done. rewrite str_int_numeral.
  by destruct (i <? 0).
Qed.

Lemma format_0wd_digits w i :
  0 ≤ i → string_forall is_digit (format_0wd w i) = true.
Proof.
  intros Hi. rewrite format_0wd_nonneg by done. rewrite string_forall_append.
  rewrite string_forall_zeros by done. by rewrite str_int_digits.
Qed.

Lemma parse_format_0wd w i : 0 ≤ i → parse_decimal (format_0wd w i) = i.
Proof.
  intros Hi. rewrite format_0wd_nonneg by done. unfold parse_decimal.
  rewrite parse_decimal_from_append, parse_decimal_from_zeros.
  by apply parse_str_int.
Qed.

Lemma length_format_0wd w i :
  0 ≤ i →
  String.length (format_0wd w i) = (w `max` String.length (str_int i))%nat.
Proof.
  intros Hi. rewrite format_0wd_nonneg by done.
  rewrite length_append, length_zeros. lia.
Qed.

Lemma format_0wd_nonempty w i : format_0wd w i ≠ "".
Proof.
  unfold format_0wd. intros H. apply (f_equal String.length) in H.
  rewrite !length_append in H. simpl in H.
  pose proof (str_int_nonempty (Z.abs i)) as Hne.
  destruct (str_int (Z.abs i)); [done|]. simpl in H. lia.
Qed.

Lemma pkg_name_inj i j : 0 ≤ i → 0 ≤ j → pkg_name i = pkg_name j → i = j.
Proof.
  unfold pkg_name. intros Hi Hj H. apply (inj (String.app "pkg")) in H.
  rewrite <-(parse_format_0wd 3 i), <-(parse_format_0wd 3 j) by done.
  by rewrite H.
Qed.

Lemma file_name_inj i j : file_name i = file_name j → i = j.
Proof.
  unfold file_name. intros H. apply (inj (String.app "f")) in H.
  apply append_inv_tail in H. by apply str_int_inj.
Qed.

Lemma pkg_name_plain i : string_forall is_plain (pkg_name i) = true.
Proof.
  unfold pkg_name. rewrite string_forall_append. apply andb_true_iff.
  split; [done|].
  apply string_forall_impl with is_numeral; [apply is_numeral_plain|].
  apply format_0wd_numeral.
Qed.

Lemma file_name_plain j : string_forall is_plain (file_name j) = true.
Proof.
  unfold file_name. rewrite !string_forall_append.
  rewrite (string_forall_impl is_numeral is_plain (str_int j) is_numeral_plain)
    by apply str_int_numeral.
  done.
Qed.
End rendering.

(** ** The paths of the script, resolved *)

Section paths.
Implicit Types (a b r : string) (i j : Z).

Lemma plain_not_slash c : is_plain c = true → bool_decide (c = slash) = false.
Proof.
  unfold is_plain. rewrite andb_true_iff, negb_true_iff. by intros [? _].
Qed.

Lemma path_components_join a r :
  string_forall is_plain a = true →
  path_components (a +:+ String slash r) = a :: path_components r.
Proof.
  induction a as [|c a IH]; intros Ha.
  - done.
  - simpl in Ha. apply andb_true_iff in Ha as [Hc Ha].
    rewrite append_cons. simpl. rewrite (plain_not_slash c Hc).
    by rewrite (IH Ha).
Qed.

Lemma path_components_plain a :
  string_forall is_plain a = true → path_components a = [a].
Proof.
  induction a as [|c a IH]; intros Ha.
  - done.
  - simpl in Ha. apply andb_true_iff in Ha as [Hc Ha].
    simpl. rewrite (plain_not_slash c Hc). by rewrite (IH Ha).
Qed.

Lemma resolve_good a : good_name a → resolve a = [a].
Proof.
  intros (Ha & Hne & Hdot). unfold resolve.
  rewrite path_components_plain by done.
  by rewrite filter_cons_True.
Qed.

Lemma resolve_join a r :
  good_name a → resolve (a +:+ "/" +:+ r) = a :: resolve r.
Proof.
  intros (Ha & Hne & Hdot). unfold resolve.
  change ("/" +:+ r) with (String slash r).
  rewrite path_components_join by done.
  by rewrite filter_cons_True.
Qed.

Lemma ends_with_slash_append a b :
  b ≠ "" → ends_with_slash (a +:+ b) = ends_with_slash b.
Proof.
  intros Hb. induction a as [|c a IH]; [done|].
  rewrite append_cons. simpl. rewrite IH.
  destruct (a +:+ b) eqn:Hab; [|done].
  apply (f_equal String.length) in Hab. rewrite length_append in Hab.
  destruct b; [done|]. simpl in Hab. lia.
Qed.

Lemma ends_with_slash_plain a :
  string_forall is_plain a = true → ends_with_slash a = false.
Proof.
  induction a as [|c a IH]; [done|]. simpl.
  intros [Hc Ha]%andb_true_iff. destruct a; [by apply plain_not_slash|].
  by apply IH.
Qed.

Lemma os_path_join_plain a b :
  a ≠ "" → ends_with_slash a = false → starts_with_slash b = false →
  os_path_join a b = a +:+ "/" +:+ b.
Proof.
  intros Ha Hend Hstart. unfold os_path_join. rewrite Hstart, Hend.
  by rewrite bool_decide_eq_false_2.
Qed.

Lemma pkg_name_good i : good_name (pkg_name i).
Proof. split; [apply pkg_name_plain|]. by split. Qed.

Lemma file_name_good j : good_name (file_name j).
Proof. split; [apply file_name_plain|]. by split. Qed.

Lemma pkg_dir_eq i : pkg_dir i = "pkgs/" +:+ pkg_name i.
Proof. done. Qed.

Lemma pkg_dir_plain_end i : ends_with_slash (pkg_dir i) = false.
Proof.
  rewrite pkg_dir_eq. rewrite ends_with_slash_append by done.
  apply ends_with_slash_plain, pkg_name_plain.
Qed.

Lemma files_dir_eq i : files_dir i = pkg_dir i +:+ "/files".
Proof.
  unfold files_dir. rewrite os_path_join_plain; [done|done| |done].
  apply pkg_dir_plain_end.
Qed.

Lemma manifest_path_eq i : manifest_path i = pkg_dir i +:+ "/manifest.json".
Proof.
  unfold manifest_path. rewrite os_path_join_plain; [done|done| |done].
  apply pkg_dir_plain_end.
Qed.

Lemma file_path_eq i j : file_path i j = files_dir i +:+ "/" +:+ file_name j.
Proof.
  unfold file_path. rewrite os_path_join_plain; [done| | |done].
  - rewrite files_dir_eq, pkg_dir_eq. done.
  - rewrite files_dir_eq. by rewrite ends_with_slash_append.
Qed.

Lemma resolve_pkgs : resolve "pkgs" = pkgs_p.
Proof. done. Qed.

Lemma resolve_index : resolve "packages.txt" = index_p.
Proof. done. Qed.

Lemma resolve_pkg_dir i : resolve (pkg_dir i) = pkg_p i.
Proof.
  rewrite pkg_dir_eq. change ("pkgs/" +:+ pkg_name i) with ("pkgs" +:+ "/" +:+ pkg_name i).
  rewrite resolve_join by done. by rewrite (resolve_good _ (pkg_name_good i)).
Qed.

Lemma files_dir_norm i :
  files_dir i = "pkgs" +:+ "/" +:+ pkg_name i +:+ "/" +:+ "files".
Proof. rewrite files_dir_eq, pkg_dir_eq. by rewrite !append_assoc. Qed.

Lemma manifest_path_norm i :
  manifest_path i = "pkgs" +:+ "/" +:+ pkg_name i +:+ "/" +:+ "manifest.json".
Proof. rewrite manifest_path_eq, pkg_dir_eq. by rewrite !append_assoc. Qed.

Lemma file_path_norm i j :
  file_path i j
  = "pkgs" +:+ "/" +:+ pkg_name i +:+ "/" +:+ "files" +:+ "/" +:+ file_name j.
Proof. rewrite file_path_eq, files_dir_norm. by rewrite !append_assoc. Qed.

Lemma resolve_files_dir i : resolve (files_dir i) = files_p i.
Proof.
  rewrite files_dir_norm.
  rewrite resolve_join by done. rewrite resolve_join by apply pkg_name_good.
  done.
Qed.

Lemma resolve_manifest_path i : resolve (manifest_path i) = manifest_p i.
Proof.
  rewrite manifest_path_norm.
  rewrite resolve_join by done. rewrite resolve_join by apply pkg_name_good.
  done.
Qed.

Lemma resolve_file_path i j : resolve (file_path i j) = payload_p i j.
Proof.
  rewrite file_path_norm.
  rewrite resolve_join by done. rewrite resolve_join by apply pkg_name_good.
  rewrite resolve_join by done.
  by rewrite (resolve_good _ (file_name_good j)).
Qed.
End paths.

(** * Facts about the file system *)

Section filesystem.
Implicit Types (fs : gmap (list string) node) (p q : list string) (x : string) (n : node).

Lemma parent_snoc q x : parent (q ++ [x]) = q.
Proof.
  unfold parent. rewrite length_app. simpl.
  replace (length q + 1 - 1)%nat with (length q) by lia.
  by rewrite take_app_length.
Qed.

Lemma node_at_snoc fs q x : node_at fs (q ++ [x]) = fs !! (q ++ [x]).
Proof. by destruct q. Qed.

Lemma node_at_nonempty fs p : p ≠ [] → node_at fs p = fs !! p.
Proof. by destruct p. Qed.

Lemma fs_wf_empty : fs_wf ∅.
Proof. intros p n H. by rewrite lookup_empty in H. Qed.

Lemma fs_wf_parent fs q x n :
  fs_wf fs → fs !! (q ++ [x]) = Some n → node_at fs q = Some Dir.
Proof. intros Hwf H. apply Hwf in H as [_ H]. by rewrite parent_snoc in H. Qed.

(** Everything above an entry is a directory. *)
Lemma fs_wf_above fs p k :
  fs_wf fs → is_Some (fs !! p) → (1 ≤ k ≤ length p)%nat →
  (k < length p)%nat → fs !! take k p = Some Dir.
Proof.
  intros Hwf. revert k. induction p as [|x q IH] using rev_ind; intros k.
  - simpl. lia.
  - intros [n Hn] Hk Hlt. rewrite length_app in Hk, Hlt. simpl in Hk, Hlt.
    pose proof (fs_wf_parent _ _ _ _ Hwf Hn) as Hq.
    assert (q ≠ []) as Hne by (intros ->; simpl in *; lia).
    rewrite node_at_nonempty in Hq by done.
    rewrite take_app_le by lia.
    destruct (decide (k = length q)) as [->|Hkq].
    + by rewrite firstn_all.
    + apply IH; [by eexists|lia|lia].
Qed.

Lemma fs_wf_insert_new fs p n :
  fs_wf fs → p ≠ [] → fs !! p = None → node_at fs (parent p) = Some Dir →
  fs_wf (<[p := n]> fs).
Proof.
  intros Hwf Hp Hnone Hpar p' n' H.
  assert (∀ q, node_at fs q = Some Dir → node_at (<[p := n]> fs) q = Some Dir) as Hmono.
  { intros [|y q] Hq; [done|]. simpl in *.
    rewrite lookup_insert_ne; [done|]. intros ->. congruence. }
  destruct (decide (p = p')) as [<-|Hne].
  - split; [done|]. by apply Hmono.
  - rewrite lookup_insert_ne in H by done. apply Hwf in H as [? ?].
    split; [done|]. by apply Hmono.
Qed.

Lemma fs_wf_insert_file fs p d d' :
  fs_wf fs → fs !! p = Some (File d) → fs_wf (<[p := File d']> fs).
Proof.
  intros Hwf Hfile p' n' H.
  assert (∀ q, node_at fs q = Some Dir → node_at (<[p := File d']> fs) q = Some Dir)
    as Hmono.
  { intros [|y q] Hq; [done|]. simpl in *.
    rewrite lookup_insert_ne; [done|]. intros ->. congruence. }
  destruct (decide (p = p')) as [<-|Hne].
  - apply Hwf in Hfile as [? ?]. split; [done|]. by apply Hmono.
  - rewrite lookup_insert_ne in H by done. apply Hwf in H as [? ?].
    split; [done|]. by apply Hmono.
Qed.

Lemma heads_single x : heads [x] = [].
Proof. done. Qed.

Lemma heads_snoc q x : q ≠ [] → heads (q ++ [x]) = q :: heads q.
Proof.
  intros Hq. unfold heads. rewrite length_app. simpl.
  replace (length q + 1 - 1)%nat with (S (length q - 1)).
  2:{ destruct q; [done|]. simpl. lia. }
  rewrite seq_S, reverse_app. simpl.
  replace (S (length q - 1))%nat with (length q).
  2:{ destruct q; [done|]. simpl. lia. }
  rewrite take_app_length. f_equal.
  apply list_fmap_ext. intros i k Hk.
  apply list_elem_of_lookup_2 in Hk. rewrite elem_of_reverse, elem_of_seq in Hk.
  apply take_app_le. lia.
Qed.
End filesystem.

(** * Facts about the monad and the library calls *)

Section monad.
Context {A B : Type}.

Lemma bind_inv (m : py A) (k : A → py B) w r w'' :
  bind m k w = (r, w'') →
  (∃ a w', m w = (Returned a, w') ∧ k a w' = (r, w''))
  ∨ (∃ e, m w = (Raised e, w'') ∧ r = Raised e).
Proof.
  unfold bind. destruct (m w) as [[a|e] w'] eqn:Hm; intros H.
  - left. by exists a, w'.
  - right. exists e. by inversion H.
Qed.

Lemma bind_returned (m : py A) (k : A → py B) w a w' :
  m w = (Returned a, w') → bind m k w = k a w'.
Proof. unfold bind. by intros ->. Qed.

Lemma bind_raised (m : py A) (k : A → py B) w e w' :
  m w = (Raised e, w') → bind m k w = (Raised e, w').
Proof. unfold bind. by intros ->. Qed.
End monad.

Section makedirs.
Implicit Types (w : world) (p q name : list string) (x : string).

Lemma mkdir_at_eq q x w :
  mkdir_at (q ++ [x]) w =
  match w_fs w !! (q ++ [x]) with
  | Some _ => (Raised FileExistsError, w)
  | None =>
      match node_at (w_fs w) q with
      | Some Dir => (Returned tt,
                     World (<[q ++ [x] := Dir]> (w_fs w))
                           (w_randint_calls w) (w_urandom_calls w))
      | Some (File _) => (Raised NotADirectoryError, w)
      | None => (Raised FileNotFoundError, w)
      end
  end.
Proof.
  unfold mkdir_at, bind, get_fs. rewrite node_at_snoc, parent_snoc.
  destruct (w_fs w !! (q ++ [x])); [done|].
  by destruct (node_at (w_fs w) q) as [[|d]|].
Qed.

Lemma makedirs_leaf_spec q x w r w' :
  fs_wf (w_fs w) →
  makedirs_leaf (q ++ [x]) w = (r, w') →
  w_randint_calls w' = w_randint_calls w ∧
  w_urandom_calls w' = w_urandom_calls w ∧
  fs_wf (w_fs w') ∧
  match r with
  | Returned _ =>
      w_fs w' = <[q ++ [x] := Dir]> (w_fs w) ∧
      node_at (w_fs w) q = Some Dir ∧
      (w_fs w !! (q ++ [x]) = None ∨ w_fs w !! (q ++ [x]) = Some Dir)
  | Raised e =>
      w' = w ∧
      (is_file (w_fs w !! (q ++ [x])) = true
       ∨ (w_fs w !! (q ++ [x]) = None ∧ is_dir (node_at (w_fs w) q) = false)) ∧
      (e = FileExistsError → is_file (w_fs w !! (q ++ [x])) = true)
  end.
Proof.
  intros Hwf. unfold makedirs_leaf, try_except. rewrite mkdir_at_eq.
  unfold bind, os_path_isdir_at, get_fs, ret, raise, bind.
  destruct (w_fs w !! (q ++ [x])) as [n|] eqn:Hn.
  - simpl. rewrite node_at_snoc, Hn. destruct n as [|d]; simpl; intros [= <- <-].
    + split_and!; try done.
      * by rewrite insert_id.
      * by eapply fs_wf_parent.
      * by right.
    + split_and!; try done. by left.
  - destruct (node_at (w_fs w) q) as [[|d]|] eqn:Hq; simpl;
      rewrite ?node_at_snoc, ?Hn; simpl; intros [= <- <-]; simpl.
    + split_and!; try done; [|by left].
      apply fs_wf_insert_new; [done|by destruct q|done|by rewrite parent_snoc].
    + split_and!; try done. by right.
    + split_and!; try done. by right.
Qed.
Lemma prefix_of_self name : name ≠ [] → prefix_of name name.
Proof.
  intros Hne. exists (length name). split; [|by rewrite firstn_all].
  destruct name; [done|]. simpl. lia.
Qed.

Lemma prefix_of_snoc q x p :
  prefix_of (q ++ [x]) p ↔ p = q ++ [x] ∨ prefix_of q p.
Proof.
  unfold prefix_of. rewrite length_app. simpl. split.
  - intros (k & Hk & ->). destruct (decide (k = length q + 1)%nat) as [->|Hne].
    + left. rewrite take_ge; [done|]. rewrite length_app. simpl. lia.
    + right. exists k. split; [lia|]. apply take_app_le. lia.
  - intros [->|(k & Hk & ->)].
    + exists (length q + 1)%nat. split; [lia|].
      rewrite take_ge; [done|]. rewrite length_app. simpl. lia.
    + exists k. split; [lia|]. symmetry. apply take_app_le. lia.
Qed.

Lemma prefix_of_nonempty name p : prefix_of name p → p ≠ [] ∧ name ≠ [].
Proof.
  intros (k & Hk & ->). destruct name as [|y name]; simpl in *; [lia|].
  destruct k; [lia|]. done.
Qed.

(** In a well-formed file system, everything down to a directory is one. *)
Lemma fs_wf_prefix_dirs fs q p :
  fs_wf fs → fs !! q = Some Dir → prefix_of q p → fs !! p = Some Dir.
Proof.
  intros Hwf Hq (k & Hk & ->).
  destruct (decide (k = length q)) as [->|Hne]; [by rewrite firstn_all|].
  apply fs_wf_above; [done|by eexists|done|lia].
Qed.

Lemma makedirs_chain_single x :
  makedirs_chain [x] [] true = (ret tt ;; makedirs_leaf [x]).
Proof. done. Qed.

Lemma makedirs_chain_cons name head hs :
  makedirs_chain name (head :: hs) true =
  ((let* fs := get_fs in
    if bool_decide (is_Some (node_at fs head)) then ret tt
    else try_except (makedirs_chain head hs true)
           (λ e, bool_decide (e = FileExistsError)) (λ _, ret tt)) ;;
   makedirs_leaf name).
Proof. done. Qed.

(** The leaf step after the heads have been seen to. *)
Lemma makedirs_finish q x w w1 r w' :
  w_randint_calls w1 = w_randint_calls w →
  w_urandom_calls w1 = w_urandom_calls w →
  fs_wf (w_fs w1) →
  (∀ p, w_fs w1 !! p = w_fs w !! p
        ∨ (w_fs w !! p = None ∧ w_fs w1 !! p = Some Dir ∧ prefix_of q p)) →
  is_Some (node_at (w_fs w1) q) →
  makedirs_leaf (q ++ [x]) w1 = (r, w') →
  makedirs_post (q ++ [x]) w r w'.
Proof.
  intros Hr Hu Hwf Hframe Hq Hleaf.
  apply makedirs_leaf_spec in Hleaf as (Hr' & Hu' & Hwf' & Hpost); [|done].
  unfold makedirs_post. split_and!; [congruence|congruence|done|..].
  - destruct r as [[]|e].
    + destruct Hpost as (Hfs & Hdir & Hname). rewrite Hfs. intros p.
      destruct (decide (p = q ++ [x])) as [->|Hne].
      * rewrite lookup_insert_eq.
        destruct (Hframe (q ++ [x])) as [Heq|(Hnone & _ & _)].
        -- rewrite <-Heq. destruct Hname as [Hname|Hname]; rewrite Hname.
           ++ right. split_and!; try done. apply prefix_of_self. by destruct q.
           ++ by left.
        -- right. split_and!; try done. apply prefix_of_self. by destruct q.
      * rewrite lookup_insert_ne by done.
        destruct (Hframe p) as [Heq|(Hnone & Hd & Hpre)]; [by left|].
        right. split_and!; try done. apply prefix_of_snoc. by right.
    + destruct Hpost as (-> & _). intros p.
      destruct (Hframe p) as [Heq|(Hnone & Hd & Hpre)]; [by left|].
      right. split_and!; try done. apply prefix_of_snoc. by right.
  - destruct r as [[]|e].
    + destruct Hpost as (Hfs & Hdir & Hname). rewrite Hfs.
      intros p [->|Hpre]%prefix_of_snoc; [by rewrite lookup_insert_eq|].
      rewrite lookup_insert_ne.
      2:{ intros <-. destruct Hpre as (k & Hk & Hp).
          apply (f_equal length) in Hp. rewrite length_take, length_app in Hp.
          simpl in Hp. lia. }
      destruct (prefix_of_nonempty _ _ Hpre) as [_ Hqne].
      rewrite node_at_nonempty in Hdir by done.
      by eapply fs_wf_prefix_dirs.
    + destruct Hpost as (-> & Hcases & Hexists).
      assert (∀ p, is_file (w_fs w1 !! p) = true → is_file (w_fs w !! p) = true)
        as Hfile.
      { intros p Hp. destruct (Hframe p) as [<-|(_ & Hd & _)]; [done|].
        by rewrite Hd in Hp. }
      split; [|by auto].
      destruct Hcases as [Hf|[Hnone Hnd]].
      * exists (q ++ [x]). split; [|by auto]. apply prefix_of_self. by destruct q.
      * destruct q as [|y q]; [done|]. simpl in Hq, Hnd.
        exists (y :: q). split.
        -- apply prefix_of_snoc. right. by apply prefix_of_self.
        -- apply Hfile. destruct Hq as [[|d] Hq]; rewrite Hq in Hnd |- *; done.
Qed.

Lemma makedirs_chain_spec q : ∀ x w r w',
  fs_wf (w_fs w) →
  makedirs_chain (q ++ [x]) (heads (q ++ [x])) true w = (r, w') →
  makedirs_post (q ++ [x]) w r w'.
Proof.
  induction q as [|y q IH] using rev_ind; intros x w r w' Hwf Hrun.
  - change (makedirs_chain ([] ++ [x]) (heads ([] ++ [x])) true w)
      with (makedirs_leaf ([] ++ [x]) w) in Hrun.
    eapply makedirs_finish; [done|done|done|by left|by eexists|done].
  - rewrite heads_snoc in Hrun by (by destruct q).
    rewrite makedirs_chain_cons in Hrun.
    apply bind_inv in Hrun as [(? & w1 & Hheads & Hleaf)|(e & Hheads & ->)].
    + unfold bind, get_fs in Hheads. case_bool_decide as Hex.
      * inversion Hheads; subst w1.
        eapply makedirs_finish; [done|done|done|by left|done|done].
      * unfold try_except in Hheads.
        destruct (makedirs_chain (q ++ [y]) (heads (q ++ [y])) true w)
          as [[[]|e1] w2] eqn:Hrec.
        -- inversion Hheads; subst w2.
           apply IH in Hrec as (? & ? & ? & Hframe & Hdirs); [|done].
           eapply makedirs_finish; [done|done|done|done| |done].
           rewrite node_at_snoc. exists Dir. apply Hdirs.
           apply prefix_of_self. by destruct q.
        -- apply IH in Hrec as (? & ? & ? & Hframe & Hfile & Hexists); [|done].
           case_bool_decide as He; [|done]. exfalso. apply Hex.
           rewrite node_at_snoc. specialize (Hexists He).
           destruct (w_fs w !! (q ++ [y])) as [[|d]|]; done.
    + unfold bind, get_fs in Hheads. case_bool_decide as Hex; [done|].
      unfold try_except in Hheads.
      destruct (makedirs_chain (q ++ [y]) (heads (q ++ [y])) true w)
        as [[[]|e1] w2] eqn:Hrec; [done|].
      case_bool_decide as He; [done|]. inversion Hheads; subst e1 w2.
      apply IH in Hrec as (? & ? & ? & Hframe & (p & Hpre & Hfile) & Hexists);
        [|done].
      unfold makedirs_post. split_and!; try done.
      * intros p'. destruct (Hframe p') as [Heq|(Hnone & Hd & Hp')]; [by left|].
        right. split_and!; try done. apply prefix_of_snoc. by right.
      * exists p. split; [|done]. apply prefix_of_snoc. by right.
Qed.
End makedirs.

Section calls.
Implicit Types (w : world) (p q : list string) (x : string) (E : entropy).

Lemma makedirs_chain_returns q x w :
  fs_wf (w_fs w) →
  (∀ p, prefix_of (q ++ [x]) p → is_file (w_fs w !! p) = false) →
  ∃ w', makedirs_chain (q ++ [x]) (heads (q ++ [x])) true w = (Returned tt, w').
Proof.
  intros Hwf Hnofile.
  destruct (makedirs_chain (q ++ [x]) (heads (q ++ [x])) true w)
    as [[[]|e] w'] eqn:Hrun; [by eexists|].
  apply makedirs_chain_spec in Hrun as (_ & _ & _ & _ & (p & Hp & Hfile) & _);
    [|done].
  rewrite Hnofile in Hfile; done.
Qed.

Lemma open_w_eq name q x w :
  resolve name = q ++ [x] →
  open_w name w =
  match w_fs w !! (q ++ [x]) with
  | Some Dir => (Raised IsADirectoryError, w)
  | Some (File _) =>
      (Returned (q ++ [x]),
       World (<[q ++ [x] := File ""]> (w_fs w)) (w_randint_calls w) (w_urandom_calls w))
  | None =>
      match node_at (w_fs w) q with
      | Some Dir =>
          (Returned (q ++ [x]),
           World (<[q ++ [x] := File ""]> (w_fs w))
                 (w_randint_calls w) (w_urandom_calls w))
      | Some (File _) => (Raised NotADirectoryError, w)
      | None => (Raised FileNotFoundError, w)
      end
  end.
Proof.
  intros Hres. unfold open_w. rewrite Hres.
  unfold bind, get_fs, put_fs, ret, raise. rewrite node_at_snoc, parent_snoc.
  destruct (w_fs w !! (q ++ [x])) as [[|d]|]; [done|done|].
  by destruct (node_at (w_fs w) q) as [[|d]|].
Qed.

Lemma open_w_spec name q x w r w' :
  resolve name = q ++ [x] →
  fs_wf (w_fs w) →
  open_w name w = (r, w') →
  w_randint_calls w' = w_randint_calls w ∧
  w_urandom_calls w' = w_urandom_calls w ∧
  fs_wf (w_fs w') ∧
  match r with
  | Returned h =>
      h = q ++ [x] ∧
      w_fs w' = <[q ++ [x] := File ""]> (w_fs w) ∧
      node_at (w_fs w) q = Some Dir ∧
      is_dir (w_fs w !! (q ++ [x])) = false
  | Raised e =>
      w' = w ∧
      (is_dir (w_fs w !! (q ++ [x])) = true
       ∨ is_dir (node_at (w_fs w) q) = false)
  end.
Proof.
  intros Hres Hwf. rewrite (open_w_eq _ _ _ _ Hres).
  destruct (w_fs w !! (q ++ [x])) as [[|d]|] eqn:Hp.
  - intros [= <- <-]. split_and!; try done. by left.
  - intros [= <- <-]. simpl. split_and!; try done.
    + by eapply fs_wf_insert_file.
    + by eapply fs_wf_parent.
  - destruct (node_at (w_fs w) q) as [[|d]|] eqn:Hq; intros [= <- <-]; simpl.
    + split_and!; try done.
      apply fs_wf_insert_new; [done|by destruct q|done|by rewrite parent_snoc].
    + split_and!; try done. by right.
    + split_and!; try done. by right.
Qed.

Lemma file_write_eq h data w :
  file_write h data w =
  match w_fs w !! h with
  | Some (File old) =>
      (Returned tt,
       World (<[h := File (old +:+ data)]> (w_fs w))
             (w_randint_calls w) (w_urandom_calls w))
  | _ => (Raised ValueError, w)
  end.
Proof.
  unfold file_write, bind, get_fs, put_fs, raise.
  by destruct (w_fs w !! h) as [[|d]|].
Qed.

Lemma random_randint_eq E a b w :
  a ≤ b →
  random_randint E a b w =
  (Returned (randint_src E (w_randint_calls w) a b),
   World (w_fs w) (S (w_randint_calls w)) (w_urandom_calls w)).
Proof.
  intros Hab. unfold random_randint.
  by replace (b <? a) with false by (symmetry; by apply Z.ltb_ge).
Qed.

(** One payload file: the outcome in full. *)
Lemma write_payload_eq E i j w :
  write_payload E i j w =
  match open_w (file_path i j) w with
  | (Returned h, w1) =>
      if payload_size E (w_randint_calls w) <? 0
      then (Raised ValueError,
            World (w_fs w1) (S (w_randint_calls w)) (w_urandom_calls w))
      else (Returned tt,
            World (<[payload_p i j :=
                       File (payload_bytes E (w_randint_calls w) (w_urandom_calls w))]>
                     (w_fs w))
                  (S (w_randint_calls w)) (S (w_urandom_calls w)))
  | (Raised e, w1) => (Raised e, w1)
  end.
Proof.
  unfold write_payload, with_open_w.
  assert (resolve (file_path i j) = files_p i ++ [file_name j]) as Hres
    by apply resolve_file_path.
  destruct (open_w (file_path i j) w) as [[h|e] w1] eqn:Hopen.
  - rewrite (bind_returned _ _ _ _ _ Hopen).
    rewrite (open_w_eq _ _ _ _ Hres) in Hopen.
    assert (h = payload_p i j ∧
            w1 = World (<[payload_p i j := File ""]> (w_fs w))
                       (w_randint_calls w) (w_urandom_calls w)) as [-> ->].
    { destruct (w_fs w !! (files_p i ++ [file_name j])) as [[|d]|];
        [done|by inversion Hopen|].
      destruct (node_at (w_fs w) (files_p i)) as [[|d]|]; by inversion Hopen. }
    unfold bind at 1. rewrite random_randint_eq by lia. simpl.
    unfold bind, os_urandom. simpl. fold (payload_size E (w_randint_calls w)).
    destruct (payload_size E (w_randint_calls w) <? 0); [done|].
    rewrite file_write_eq. simpl. rewrite lookup_insert_eq.
    by rewrite insert_insert_eq.
  - by rewrite (bind_raised _ _ _ _ _ Hopen).
Qed.
End calls.

Section loops.
Context {A : Type}.
Implicit Types (l : list A) (body : A → py unit) (I : nat → world → Prop).

Lemma for_each_nil body w : for_each [] body w = (Returned tt, w).
Proof. done. Qed.

Lemma for_each_cons x l body :
  for_each (x :: l) body = (body x ;; for_each l body).
Proof. done. Qed.

(** Partial correctness: an invariant indexed by the number of rounds done. *)
Lemma for_each_inv I l body w w' :
  I O w →
  (∀ k x w1 w2, l !! k = Some x → I k w1 →
     body x w1 = (Returned tt, w2) → I (S k) w2) →
  for_each l body w = (Returned tt, w') →
  I (length l) w'.
Proof.
  revert I w. induction l as [|x l IH]; intros I w H0 Hstep Hrun.
  - rewrite for_each_nil in Hrun. by injection Hrun as <-.
  - rewrite for_each_cons in Hrun.
    apply bind_inv in Hrun as [([] & w1 & Hx & Hrest)|(e & _ & ?)]; [|done].
    apply (IH (λ k, I (S k)) w1); [|by eauto|done].
    by apply (Hstep O x w w1).
Qed.

(** Total correctness: every round returns and keeps the invariant. *)
Lemma for_each_returns I l body w :
  I O w →
  (∀ k x w1, l !! k = Some x → I k w1 →
     ∃ w2, body x w1 = (Returned tt, w2) ∧ I (S k) w2) →
  ∃ w', for_each l body w = (Returned tt, w') ∧ I (length l) w'.
Proof.
  revert I w. induction l as [|x l IH]; intros I w H0 Hstep.
  - by exists w.
  - destruct (Hstep O x w eq_refl H0) as (w1 & Hx & H1).
    destruct (IH (λ k, I (S k)) w1 H1) as (w' & Hrest & Hlen); [by eauto|].
    exists w'. split; [|done].
    rewrite for_each_cons. by rewrite (bind_returned _ _ _ _ _ Hx).
Qed.
End loops.

Section payloads.
Implicit Types (w : world) (p : list string) (E : entropy) (i j M : Z).

Lemma fs_wf_insert_leaf fs p d :
  fs_wf fs → p ≠ [] → node_at fs (parent p) = Some Dir →
  is_dir (fs !! p) = false → fs_wf (<[p := File d]> fs).
Proof.
  intros Hwf Hp Hpar Hnd. destruct (fs !! p) as [[|d0]|] eqn:Hl; [done|..].
  - by eapply fs_wf_insert_file.
  - by apply fs_wf_insert_new.
Qed.

Lemma payload_p_snoc i j : payload_p i j = files_p i ++ [file_name j].
Proof. done. Qed.

Lemma write_payload_spec E i j w w' :
  fs_wf (w_fs w) →
  write_payload E i j w = (Returned tt, w') →
  w' = World (<[payload_p i j :=
                  File (payload_bytes E (w_randint_calls w) (w_urandom_calls w))]>
                (w_fs w))
             (S (w_randint_calls w)) (S (w_urandom_calls w)) ∧
  fs_wf (w_fs w') ∧
  w_fs w !! files_p i = Some Dir ∧
  is_dir (w_fs w !! payload_p i j) = false ∧
  0 ≤ payload_size E (w_randint_calls w).
Proof.
  intros Hwf. rewrite write_payload_eq.
  destruct (open_w (file_path i j) w) as [[h|e] w1] eqn:Hopen; [|done].
  apply (open_w_spec _ (files_p i) (file_name j)) in Hopen
    as (_ & _ & _ & _ & _ & Hdir & Hnd); [|apply resolve_file_path|done].
  destruct (payload_size E (w_randint_calls w) <? 0) eqn:Hsize; [done|].
  intros [= <-]. simpl. split_and!; try done.
  - by apply fs_wf_insert_leaf.
  - by apply Z.ltb_ge.
Qed.

Lemma write_payload_returns E i j w :
  w_fs w !! files_p i = Some Dir →
  is_dir (w_fs w !! payload_p i j) = false →
  0 ≤ payload_size E (w_randint_calls w) →
  ∃ w', write_payload E i j w = (Returned tt, w').
Proof.
  intros Hdir Hnd Hsize. rewrite write_payload_eq.
  rewrite (open_w_eq _ (files_p i) (file_name j)) by apply resolve_file_path.
  rewrite <-payload_p_snoc.
  replace (payload_size E (w_randint_calls w) <? 0) with false
    by (symmetry; by apply Z.ltb_ge).
  destruct (w_fs w !! payload_p i j) as [[|d]|]; [done|by eexists|].
  change (node_at (w_fs w) (files_p i)) with (w_fs w !! files_p i).
  rewrite Hdir. by eexists.
Qed.

Lemma payload_p_inj i j j' : payload_p i j = payload_p i j' → j = j'.
Proof.
  unfold payload_p. intros H. apply file_name_inj.
  by eapply (inj (cons _)), (inj (cons _)), (inj (cons _)), (inj (λ x, [x])) in H.
Qed.

Lemma lookup_range lo hi (k : nat) x :
  range lo hi !! k = Some x ↔ x = lo + Z.of_nat k ∧ Z.of_nat k < hi - lo.
Proof. apply lookup_seqZ. Qed.

Lemma length_range lo hi : length (range lo hi) = Z.to_nat (hi - lo).
Proof. apply length_seqZ. Qed.

Lemma payloads_step E i M w w1 w2 (k : nat) :
  payloads_done E i M w w1 k →
  write_payload E i (1 + Z.of_nat k) w1 = (Returned tt, w2) →
  payloads_done E i M w w2 (S k).
Proof.
  intros (Hr & Hu & Hwf & Hfiles & Hframe) Hrun.
  apply write_payload_spec in Hrun as (-> & Hwf2 & _ & _ & Hsize); [|done].
  unfold payloads_done. simpl in *. split_and!; [lia|lia|done|..].
  - intros j Hj. destruct (decide (j = 1 + Z.of_nat k)) as [->|Hne].
    + rewrite lookup_insert_eq. rewrite Hr, Hu in *.
      replace (Z.to_nat (1 + Z.of_nat k - 1)) with k by lia. done.
    + rewrite lookup_insert_ne by (intros ?%payload_p_inj; lia).
      apply Hfiles. lia.
  - intros p Hp. rewrite lookup_insert_ne.
    + apply Hframe. intros j Hj. apply Hp. lia.
    + intros <-. apply (Hp (1 + Z.of_nat k)); [lia|done].
Qed.

Lemma payloads_start E i M w : fs_wf (w_fs w) → payloads_done E i M w w O.
Proof.
  intros Hwf. unfold payloads_done. split_and!; [lia|lia|done|..].
  - intros j Hj. simpl in Hj. lia.
  - done.
Qed.

Lemma payloads_spec E i M w w' :
  fs_wf (w_fs w) →
  for_each (range 1 (M + 1)) (write_payload E i) w = (Returned tt, w') →
  payloads_done E i M w w' (Z.to_nat M).
Proof.
  intros Hwf Hrun.
  pose proof (for_each_inv (λ k w1, payloads_done E i M w w1 k)
                (range 1 (M + 1)) (write_payload E i) w w') as H.
  rewrite length_range in H. replace (M + 1 - 1) with M in H by lia.
  apply H; [by apply payloads_start| |done].
  intros k x w1 w2 [-> _]%lookup_range HI Hx. by eapply payloads_step.
Qed.

Lemma payloads_returns E i M w :
  entropy_ok E →
  fs_wf (w_fs w) →
  w_fs w !! files_p i = Some Dir →
  (∀ j, 1 ≤ j ≤ M → is_dir (w_fs w !! payload_p i j) = false) →
  ∃ w', for_each (range 1 (M + 1)) (write_payload E i) w = (Returned tt, w').
Proof.
  intros HE Hwf Hdir Hnd.
  destruct (for_each_returns (λ k w1, payloads_done E i M w w1 k)
              (range 1 (M + 1)) (write_payload E i) w) as (w' & Hrun & _);
    [by apply payloads_start| |by eexists].
  intros k x w1 [-> Hk]%lookup_range HI.
  destruct (write_payload_returns E i (1 + Z.of_nat k) w1) as [w2 Hw2].
  - destruct HI as (_ & _ & _ & _ & Hframe). rewrite Hframe; [done|].
    intros j Hj. done.
  - destruct HI as (_ & _ & _ & _ & Hframe). rewrite Hframe.
    + apply Hnd. lia.
    + intros j Hj ?%payload_p_inj. lia.
  - unfold payload_size. specialize (HE (w_randint_calls w1) 0 4096). lia.
  - exists w2. split; [done|]. by eapply payloads_step.
Qed.
End payloads.

Section package.
Implicit Types (w : world) (p : list string) (E : entropy) (i j M : Z).

Lemma prefix_of_files_p i p :
  prefix_of (files_p i) p ↔ p = pkgs_p ∨ p = pkg_p i ∨ p = files_p i.
Proof.
  change (files_p i) with (pkg_p i ++ ["files"]). rewrite prefix_of_snoc.
  change (pkg_p i) with (pkgs_p ++ [pkg_name i]) at 2. rewrite prefix_of_snoc.
  split.
  - intros [-> | [-> | (k & Hk & ->)]]; [by right; right|by right; left|].
    left. simpl in Hk. by replace k with 1%nat by lia.
  - intros [-> | [-> | ->]]; [|by right; left|by left].
    right. right. by apply prefix_of_self.
Qed.

Lemma os_makedirs_files_dir i :
  os_makedirs (files_dir i) true
  = makedirs_chain (pkg_p i ++ ["files"]) (heads (pkg_p i ++ ["files"])) true.
Proof. unfold os_makedirs. by rewrite resolve_files_dir. Qed.

Lemma write_manifest_eq i w :
  with_open_w (manifest_path i)
    (λ manifest, file_write manifest (manifest_text i)) w =
  match open_w (manifest_path i) w with
  | (Returned h, w1) =>
      (Returned tt,
       World (<[manifest_p i := File (manifest_text i)]> (w_fs w))
             (w_randint_calls w) (w_urandom_calls w))
  | (Raised e, w1) => (Raised e, w1)
  end.
Proof.
  unfold with_open_w.
  assert (resolve (manifest_path i) = pkg_p i ++ ["manifest.json"]) as Hres
    by apply resolve_manifest_path.
  destruct (open_w (manifest_path i) w) as [[h|e] w1] eqn:Hopen.
  - rewrite (bind_returned _ _ _ _ _ Hopen).
    rewrite (open_w_eq _ _ _ _ Hres) in Hopen.
    assert (h = manifest_p i ∧
            w1 = World (<[manifest_p i := File ""]> (w_fs w))
                       (w_randint_calls w) (w_urandom_calls w)) as [-> ->].
    { destruct (w_fs w !! (pkg_p i ++ ["manifest.json"])) as [[|d]|];
        [done|by inversion Hopen|].
      destruct (node_at (w_fs w) (pkg_p i)) as [[|d]|]; by inversion Hopen. }
    rewrite file_write_eq. simpl. rewrite lookup_insert_eq.
    by rewrite insert_insert_eq.
  - by rewrite (bind_raised _ _ _ _ _ Hopen).
Qed.

Lemma package_paths_elem M i p :
  p ∈ package_paths M i ↔
  p = pkg_p i ∨ p = files_p i ∨ p = manifest_p i
  ∨ ∃ j, 1 ≤ j ≤ M ∧ p = payload_p i j.
Proof.
  unfold package_paths. rewrite elem_of_app, !elem_of_cons, elem_of_nil.
  rewrite list_elem_of_fmap. unfold range. setoid_rewrite elem_of_seqZ.
  split.
  - intros [[-> | [-> | [-> | []]]] | (j & -> & Hj)]; [by auto..|].
    right. right. right. exists j. split; [lia|done].
  - intros [-> | [-> | [-> | (j & Hj & ->)]]]; [by auto..|].
    right. exists j. split; [done|lia].
Qed.

Lemma write_package_spec E M i w w' :
  fs_wf (w_fs w) →
  write_package E M index_p i w = (Returned tt, w') →
  package_done E M i w w'.
Proof.
  intros Hwf Hrun. unfold write_package in Hrun.
  rewrite os_makedirs_files_dir in Hrun.
  apply bind_inv in Hrun as [([] & w1 & Hdirs & Hrun)|(? & _ & ?)]; [|done].
  apply makedirs_chain_spec in Hdirs as (Hr1 & Hu1 & Hwf1 & Hframe1 & Hdirs);
    [|done].
  apply bind_inv in Hrun as [([] & w2 & Hman & Hrun)|(? & _ & ?)]; [|done].
  rewrite write_manifest_eq in Hman.
  destruct (open_w (manifest_path i) w1) as [[h|e] w1'] eqn:Hopen; [|done].
  apply (open_w_spec _ (pkg_p i) "manifest.json") in Hopen
    as (_ & _ & _ & _ & _ & Hpkg & Hnd); [|apply resolve_manifest_path|done].
  injection Hman as <-.
  apply bind_inv in Hrun as [([] & w3 & Hpay & Hrun)|(? & _ & ?)]; [|done].
  apply payloads_spec in Hpay as (Hr3 & Hu3 & Hwf3 & Hfiles & Hframe3).
  2:{ simpl. by apply fs_wf_insert_leaf. }
  simpl in Hr3, Hu3, Hfiles, Hframe3.
  rewrite file_write_eq in Hrun.
  destruct (w_fs w3 !! index_p) as [[|old]|] eqn:Hidx; try done.
  injection Hrun as <-.
  (* the lookups of the intermediate states *)
  assert (∀ p, p ≠ manifest_p i → (∀ j, 1 ≤ j ≤ M → p ≠ payload_p i j) →
               w_fs w3 !! p = w_fs w1 !! p) as Hframe31.
  { intros p Hp1 Hp2. rewrite Hframe3.
    - by rewrite lookup_insert_ne.
    - intros j Hj. apply Hp2. lia. }
  assert (∀ p, ¬ prefix_of (files_p i) p → w_fs w1 !! p = w_fs w !! p) as Hframe10.
  { intros p Hp. destruct (Hframe1 p) as [?|(_ & _ & ?)]; done. }
  unfold package_done. simpl. split_and!.
  - lia.
  - lia.
  - by eapply fs_wf_insert_file.
  - rewrite lookup_insert_ne by done. rewrite Hframe31 by done.
    apply Hdirs, prefix_of_files_p. by left.
  - destruct (Hframe1 pkgs_p) as [<-|(? & _)]; [|by left].
    right. apply Hdirs, prefix_of_files_p. by left.
  - rewrite lookup_insert_ne by done. rewrite Hframe31 by done.
    apply Hdirs, prefix_of_files_p. by right; left.
  - rewrite lookup_insert_ne by done. rewrite Hframe31 by done.
    apply Hdirs, prefix_of_files_p. by right; right.
  - rewrite lookup_insert_ne by done. rewrite Hframe3.
    + by rewrite lookup_insert_eq.
    + intros j Hj. done.
  - intros j Hj. rewrite lookup_insert_ne by done.
    rewrite Hr1, Hu1 in Hfiles. apply Hfiles. lia.
  - exists old. rewrite lookup_insert_eq. split; [|done].
    rewrite <-Hidx. rewrite Hframe31 by done. symmetry. apply Hframe10.
    rewrite prefix_of_files_p. by intros [?|[?|?]].
  - intros p Hp Hidxp Hpkgs. rewrite lookup_insert_ne by done.
    rewrite package_paths_elem in Hp.
    rewrite Hframe31.
    + apply Hframe10. rewrite prefix_of_files_p.
      intros [?|[?|?]]; [done|apply Hp; auto..].
    + intros ->. apply Hp. auto.
    + intros j Hj ->. apply Hp. right. right. right. by exists j.
Qed.
End package.

Section packages.
Implicit Types (w : world) (p : list string) (E : entropy) (i j M N : Z).

Lemma write_package_returns E M i w :
  entropy_ok E →
  fs_wf (w_fs w) →
  is_file (w_fs w !! pkgs_p) = false →
  is_file (w_fs w !! pkg_p i) = false →
  is_file (w_fs w !! files_p i) = false →
  is_dir (w_fs w !! manifest_p i) = false →
  (∀ j, 1 ≤ j ≤ M → is_dir (w_fs w !! payload_p i j) = false) →
  is_file (w_fs w !! index_p) = true →
  ∃ w', write_package E M index_p i w = (Returned tt, w').
Proof.
  intros HE Hwf Hpkgs Hpkg Hfiles Hman Hpay Hidx. unfold write_package.
  rewrite os_makedirs_files_dir.
  destruct (makedirs_chain_returns (pkg_p i) "files" w Hwf) as [w1 Hdirs].
  { intros p [-> | [-> | ->]]%prefix_of_files_p; done. }
  rewrite (bind_returned _ _ _ _ _ Hdirs).
  apply makedirs_chain_spec in Hdirs as (Hr1 & Hu1 & Hwf1 & Hframe1 & Hdirs);
    [|done].
  assert (∀ p, ¬ prefix_of (files_p i) p → w_fs w1 !! p = w_fs w !! p) as Hframe10.
  { intros p Hp. destruct (Hframe1 p) as [?|(_ & _ & ?)]; done. }
  assert (w_fs w1 !! pkg_p i = Some Dir) as Hpkg1.
  { apply Hdirs, prefix_of_files_p. auto. }
  assert (w_fs w1 !! files_p i = Some Dir) as Hfiles1.
  { apply Hdirs, prefix_of_files_p. auto. }
  assert (with_open_w (manifest_path i)
            (λ manifest, file_write manifest (manifest_text i)) w1
          = (Returned tt,
             World (<[manifest_p i := File (manifest_text i)]> (w_fs w1))
                   (w_randint_calls w1) (w_urandom_calls w1))) as Hmanifest.
  { rewrite write_manifest_eq.
    rewrite (open_w_eq _ (pkg_p i) "manifest.json") by apply resolve_manifest_path.
    change (pkg_p i ++ ["manifest.json"]) with (manifest_p i).
    change (node_at (w_fs w1) (pkg_p i)) with (w_fs w1 !! pkg_p i).
    rewrite Hpkg1. rewrite Hframe10.
    2:{ rewrite prefix_of_files_p. by intros [?|[?|?]]. }
    by destruct (w_fs w !! manifest_p i) as [[|d]|]. }
  rewrite (bind_returned _ _ _ _ _ Hmanifest).
  set (w2 := World _ _ _) in *.
  assert (fs_wf (w_fs w2)) as Hwf2.
  { apply fs_wf_insert_leaf; [done|done|done|].
    rewrite Hframe10; [done|]. rewrite prefix_of_files_p. by intros [?|[?|?]]. }
  destruct (payloads_returns E i M w2 HE Hwf2) as [w3 Hpayloads].
  { simpl. by rewrite lookup_insert_ne. }
  { intros j Hj. simpl. rewrite lookup_insert_ne by done.
    rewrite Hframe10; [by apply Hpay|].
    rewrite prefix_of_files_p. by intros [?|[?|?]]. }
  rewrite (bind_returned _ _ _ _ _ Hpayloads).
  apply payloads_spec in Hpayloads as (_ & _ & _ & _ & Hframe3); [|done].
  rewrite file_write_eq. rewrite Hframe3 by done. simpl.
  rewrite lookup_insert_ne by done. rewrite Hframe10.
  2:{ rewrite prefix_of_files_p. by intros [?|[?|?]]. }
  destruct (w_fs w !! index_p) as [[|old]|]; try done. by eexists.
Qed.

Lemma package_paths_second M i p :
  p ∈ package_paths M i → p !! 1%nat = Some (pkg_name i).
Proof.
  rewrite package_paths_elem. by intros [-> | [-> | [-> | (j & _ & ->)]]].
Qed.

Lemma package_paths_disjoint M i i' p :
  0 ≤ i → 0 ≤ i' → p ∈ package_paths M i → p ∈ package_paths M i' → i = i'.
Proof.
  intros Hi Hi' H1%package_paths_second H2%package_paths_second.
  apply pkg_name_inj; [done|done|congruence].
Qed.

Lemma index_text_0 : index_text 0 = "".
Proof. done. Qed.

Lemma index_text_S (k : nat) :
  index_text (Z.of_nat (S k))
  = index_text (Z.of_nat k) +:+ index_line (1 + Z.of_nat k).
Proof.
  unfold index_text, range.
  replace (Z.of_nat (S k) + 1 - 1) with (Z.of_nat (S k)) by lia.
  replace (Z.of_nat k + 1 - 1) with (Z.of_nat k) by lia.
  rewrite seqZ_S, foldr_app. simpl. generalize (seqZ 1 (Z.of_nat k)).
  intros l. induction l as [|x l IH]; simpl.
  - by rewrite append_nil_r.
  - by rewrite IH, append_assoc.
Qed.

Lemma packages_start E M w :
  fs_wf (w_fs w) → w_fs w !! index_p = Some (File "") →
  packages_done E M w w O.
Proof.
  intros Hwf Hidx. unfold packages_done. split_and!; try done; try lia.
  by left.
Qed.

Lemma packages_step E M w w1 w2 (k : nat) :
  packages_done E M w w1 k →
  write_package E M index_p (1 + Z.of_nat k) w1 = (Returned tt, w2) →
  packages_done E M w w2 (S k).
Proof.
  intros (Hr & Hu & Hwf & Hidx & Hpkgs1 & Hpkgs & Hdone & Hframe) Hrun.
  apply write_package_spec in Hrun
    as (Hr2 & Hu2 & Hwf2 & Hroot & Hroot0 & Hpkg & Hfiles & Hman & Hpay
        & (old & Hold & Hidx2) & Hframe2); [|done].
  assert (∀ i p, 1 ≤ i ≤ Z.of_nat k → p ∈ package_paths M i →
                 w_fs w2 !! p = w_fs w1 !! p) as Hkeep.
  { intros i p Hi Hp. apply Hframe2.
    - intros Hp'.
      assert (i = 1 + Z.of_nat k); [|lia].
      apply (package_paths_disjoint M i (1 + Z.of_nat k) p); [lia|lia|done|done].
    - intros ->. by apply package_paths_second in Hp.
    - intros ->. by apply package_paths_second in Hp. }
  unfold packages_done. split_and!.
  - lia.
  - lia.
  - done.
  - rewrite Hidx2. rewrite Hidx in Hold. injection Hold as <-.
    by rewrite index_text_S.
  - done.
  - rewrite Hroot. destruct Hpkgs as [<-|[Hnone _]]; [|by right].
    destruct Hroot0 as [->| ->]; [by right|by left].
  - intros i Hi. destruct (decide (i = 1 + Z.of_nat k)) as [->|Hne].
    + split_and!; try done. intros j Hj. unfold payload_index.
      replace (Z.to_nat (1 + Z.of_nat k - 1)) with k by lia.
      rewrite Hr, Hu in Hpay. rewrite !Nat.add_assoc. by apply Hpay.
    + assert (1 ≤ i ≤ Z.of_nat k) as Hik by lia.
      destruct (Hdone i Hik) as (H1 & H2 & H3 & H4).
      rewrite !(Hkeep i) by (try done; apply package_paths_elem; auto).
      split_and!; try done. intros j Hj.
      rewrite (Hkeep i) by (try done; apply package_paths_elem; eauto 6).
      by apply H4.
  - intros p Hp Hpi Hpr. rewrite Hframe2; [|apply Hp; lia|done|done].
    apply Hframe; [|done|done]. intros i Hi. apply Hp. lia.
Qed.
End packages.

Section generate.
Implicit Types (w : world) (p : list string) (E : entropy) (i j M N : Z).

Lemma created_paths_elem N M p :
  p ∈ created_paths N M ↔
  p = pkgs_p ∨ p = index_p ∨ ∃ i, 1 ≤ i ≤ N ∧ p ∈ package_paths M i.
Proof.
  unfold created_paths. rewrite !elem_of_cons, list_elem_of_join.
  setoid_rewrite list_elem_of_fmap. unfold range. setoid_rewrite elem_of_seqZ.
  split.
  - intros [->|[->|(l & Hp & i & -> & Hi)]]; [by auto..|].
    right. right. exists i. split; [lia|done].
  - intros [->|[->|(i & Hi & Hp)]]; [by auto..|].
    right. right. exists (package_paths M i). split; [done|].
    exists i. split; [done|lia].
Qed.

Lemma index_text_to_nat N : index_text (Z.of_nat (Z.to_nat N)) = index_text N.
Proof.
  destruct (decide (0 ≤ N)); [by rewrite Z2Nat.id|].
  unfold index_text, range. rewrite !seqZ_nil by lia. done.
Qed.

Lemma os_makedirs_pkgs w :
  w_fs w !! pkgs_p = None →
  os_makedirs "pkgs" false w
  = (Returned tt,
     World (<[pkgs_p := Dir]> (w_fs w)) (w_randint_calls w) (w_urandom_calls w)).
Proof.
  intros Hnone. unfold os_makedirs. rewrite resolve_pkgs.
  change (heads pkgs_p) with (@nil (list string)).
  unfold makedirs_chain, bind, ret, try_except.
  change pkgs_p with ([] ++ ["pkgs"]) at 1. rewrite mkdir_at_eq.
  change ([] ++ ["pkgs"]) with pkgs_p. by rewrite Hnone.
Qed.

(** The script without its prologue: the package loop on the opened
    file system, unless the index file cannot be opened. *)
Lemma generate_test_data_eq E N M w :
  generate_test_data E N M w =
  let w1 := if bool_decide (is_Some (w_fs w !! pkgs_p)) then w
            else World (<[pkgs_p := Dir]> (w_fs w))
                       (w_randint_calls w) (w_urandom_calls w) in
  if is_dir (w_fs w !! index_p) then (Raised IsADirectoryError, w1)
  else for_each (range 1 (N + 1)) (write_package E M index_p)
         (World (opened (w_fs w)) (w_randint_calls w) (w_urandom_calls w)).
Proof.
  unfold generate_test_data, os_path_exists, with_open_w.
  unfold bind at 1. unfold bind at 1. unfold get_fs at 1. unfold ret at 1.
  rewrite resolve_pkgs. change (node_at (w_fs w) pkgs_p) with (w_fs w !! pkgs_p).
  unfold opened.
  case_bool_decide as Hex; simpl.
  - rewrite (bind_returned _ _ _ tt w) by done. unfold bind at 1.
    rewrite (open_w_eq _ [] "packages.txt") by done.
    change ([] ++ ["packages.txt"]) with index_p.
    by destruct (w_fs w !! index_p) as [[|d]|].
  - rewrite (bind_returned _ _ _ _ _ (os_makedirs_pkgs w ltac:(
      destruct (w_fs w !! pkgs_p); [destruct Hex; by eexists|done]))).
    unfold bind at 1.
    rewrite (open_w_eq _ [] "packages.txt") by done.
    change ([] ++ ["packages.txt"]) with index_p. simpl.
    rewrite lookup_insert_ne by done.
    by destruct (w_fs w !! index_p) as [[|d]|].
Qed.

Lemma fs_wf_opened fs :
  fs_wf fs → is_dir (fs !! index_p) = false → fs_wf (opened fs).
Proof.
  intros Hwf Hidx. unfold opened. apply fs_wf_insert_leaf; [|done|done|].
  - case_bool_decide as Hex; [done|].
    apply fs_wf_insert_new; [done|done| |done].
    destruct (fs !! pkgs_p); [|done]. destruct Hex. by eexists.
  - case_bool_decide; [done|]. by rewrite lookup_insert_ne.
Qed.

Lemma opened_pkgs fs :
  opened fs !! pkgs_p = Some (default Dir (fs !! pkgs_p)).
Proof.
  unfold opened. rewrite lookup_insert_ne by done.
  case_bool_decide as Hex.
  - by destruct Hex as [n ->].
  - rewrite lookup_insert_eq. destruct (fs !! pkgs_p); [|done].
    destruct Hex. by eexists.
Qed.

Lemma opened_other fs p :
  p ≠ index_p → p ≠ pkgs_p → opened fs !! p = fs !! p.
Proof.
  intros Hi Hp. unfold opened. rewrite lookup_insert_ne by done.
  case_bool_decide; [done|]. by rewrite lookup_insert_ne.
Qed.

Lemma packages_done_generated E N M w w' :
  is_dir (w_fs w !! index_p) = false →
  packages_done E M
    (World (opened (w_fs w)) (w_randint_calls w) (w_urandom_calls w)) w'
    (Z.to_nat N) →
  generated E N M w w'.
Proof.
  intros Hidx (Hr & Hu & Hwf & Hindex & Hroot1 & Hroot & Hpk & Hframe).
  simpl in *. unfold generated. split_and!; try done.
  - by rewrite <-index_text_to_nat.
  - rewrite opened_pkgs in Hroot. destruct Hroot as [->|[? _]]; done.
  - intros HN. apply Hroot1. lia.
  - intros i Hi. apply Hpk. lia.
  - intros p Hp. rewrite created_paths_elem in Hp.
    rewrite Hframe.
    + apply opened_other; intros ->; apply Hp; auto.
    + intros i Hi Hpi. apply Hp. right. right. exists i. split; [lia|done].
    + intros ->. apply Hp. auto.
    + intros ->. apply Hp. auto.
Qed.

(** Partial correctness of the script. *)
Lemma generate_test_data_spec E N M w w' :
  fs_wf (w_fs w) →
  generate_test_data E N M w = (Returned tt, w') →
  generated E N M w w'.
Proof.
  intros Hwf. rewrite generate_test_data_eq. simpl.
  destruct (is_dir (w_fs w !! index_p)) eqn:Hidx; [done|]. intros Hrun.
  apply packages_done_generated; [done|].
  set (w1 := World _ _ _) in *.
  pose proof (for_each_inv (λ k w2, packages_done E M w1 w2 k)
                (range 1 (N + 1)) (write_package E M index_p) w1 w') as H.
  rewrite length_range in H. replace (N + 1 - 1) with N in H by lia.
  apply H; [|intros k x w2 w3 [-> _]%lookup_range; apply packages_step|done].
  apply packages_start; [by apply fs_wf_opened|]. apply lookup_insert_eq.
Qed.

(** The script returns on every compatible file system. *)
Lemma generate_test_data_returns E N M w :
  entropy_ok E →
  fs_wf (w_fs w) →
  compatible N M (w_fs w) →
  ∃ w', generate_test_data E N M w = (Returned tt, w').
Proof.
  intros HE Hwf (Hidx & Hroot & Hcompat). rewrite generate_test_data_eq. simpl.
  rewrite Hidx. set (w1 := World _ _ _).
  destruct (for_each_returns (λ k w2, packages_done E M w1 w2 k)
              (range 1 (N + 1)) (write_package E M index_p) w1)
    as (w' & Hrun & _); [| |by eexists].
  { apply packages_start; [by apply fs_wf_opened|]. apply lookup_insert_eq. }
  intros k x w2 [-> Hk]%lookup_range HI.
  assert (1 ≤ 1 + Z.of_nat k ≤ N) as Hi by lia.
  destruct (Hcompat _ Hi) as (Hc1 & Hc2 & Hc3 & Hc4).
  destruct HI as (Hr & Hu & Hwf2 & Hindex & Hroot1 & Hroot2 & Hpk & Hframe).
  assert (∀ p, p ∈ package_paths M (1 + Z.of_nat k) →
               w_fs w2 !! p = w_fs w !! p) as Hsame.
  { intros p Hp.
    assert (p ≠ index_p) by (intros ->; by apply package_paths_second in Hp).
    assert (p ≠ pkgs_p) by (intros ->; by apply package_paths_second in Hp).
    rewrite Hframe; [by apply opened_other| |done|done].
    intros i Hi' Hp'.
    assert (i = 1 + Z.of_nat k); [|lia].
    apply (package_paths_disjoint M i (1 + Z.of_nat k) p); [lia|lia|done|done]. }
  destruct (write_package_returns E M (1 + Z.of_nat k) w2) as [w3 Hw3];
    try done.
  - simpl in Hroot2. rewrite opened_pkgs in Hroot2.
    destruct Hroot2 as [->|[_ ->]]; [|done].
    specialize (Hroot ltac:(lia)). by destruct (w_fs w !! pkgs_p) as [[|d]|].
  - rewrite Hsame; [done|]. apply package_paths_elem. auto.
  - rewrite Hsame; [done|]. apply package_paths_elem. auto.
  - rewrite Hsame; [done|]. apply package_paths_elem. auto.
  - intros j Hj. rewrite Hsame; [by apply Hc4|]. apply package_paths_elem.
    eauto 6.
  - by rewrite Hindex.
  - exists w3. split; [done|]. eapply packages_step; [|done].
    unfold packages_done. by split_and!.
Qed.
End generate.

(** * Directory listings and the lines of the index file *)

Section listings.
Implicit Types (fs : gmap (list string) node) (d p : list string) (x : string).

Lemma child_name_Some d p x : child_name d p = Some x ↔ p = d ++ [x].
Proof.
  unfold child_name. split.
  - case_bool_decide as H; [|done]. destruct H as [<- Hne]. intros Hlast.
    destruct p as [|y p] using rev_ind; [done|].
    rewrite last_snoc in Hlast. injection Hlast as ->.
    by rewrite parent_snoc.
  - intros ->. rewrite bool_decide_eq_true_2.
    + by rewrite last_snoc.
    + split; [apply parent_snoc|by destruct d].
Qed.

Lemma elem_of_os_listdir fs d x :
  x ∈ os_listdir fs d ↔ is_Some (fs !! (d ++ [x])).
Proof.
  unfold os_listdir. rewrite elem_of_list_to_set, list_elem_of_omap.
  setoid_rewrite elem_of_elements. setoid_rewrite elem_of_dom.
  setoid_rewrite child_name_Some. split.
  - by intros (p & Hp & ->).
  - intros Hx. by exists (d ++ [x]).
Qed.
End listings.

Section lines.
Implicit Types (a cur rest : string) (i N : Z).

Lemma lines_from_line cur a rest :
  string_forall no_newline a = true →
  lines_from cur (a +:+ newline +:+ rest) = (cur +:+ a) :: lines_from "" rest.
Proof.
  revert cur. induction a as [|c a IH]; intros cur Ha.
  - rewrite append_nil_l, append_nil_r. done.
  - simpl in Ha. apply andb_true_iff in Ha as [Hc Ha].
    rewrite append_cons. simpl.
    unfold no_newline in Hc. apply negb_true_iff in Hc. rewrite Hc.
    rewrite IH by done. by rewrite append_assoc.
Qed.

Lemma is_plain_no_newline c : is_plain c = true → no_newline c = true.
Proof. unfold is_plain, no_newline. by intros [_ ?]%andb_true_iff. Qed.

Lemma pkg_dir_no_newline i : string_forall no_newline (pkg_dir i) = true.
Proof.
  rewrite pkg_dir_eq, string_forall_append. apply andb_true_iff. split; [done|].
  apply string_forall_impl with is_plain; [apply is_plain_no_newline|].
  apply pkg_name_plain.
Qed.

Lemma splitlines_index_lines (l : list Z) :
  splitlines (foldr (λ i acc, index_line i +:+ acc) "" l) = pkg_dir <$> l.
Proof.
  unfold splitlines. induction l as [|i l IH]; [done|]. cbn [foldr fmap list_fmap].
  unfold index_line at 1. rewrite append_assoc.
  rewrite lines_from_line by apply pkg_dir_no_newline.
  by rewrite IH.
Qed.

Lemma splitlines_index_text N :
  splitlines (index_text N) = pkg_dir <$> range 1 (N + 1).
Proof. apply splitlines_index_lines. Qed.

Lemma pkg_dir_inj i i' : 0 ≤ i → 0 ≤ i' → pkg_dir i = pkg_dir i' → i = i'.
Proof.
  intros Hi Hi'. rewrite !pkg_dir_eq. intros H%(inj (String.app "pkgs/")).
  by apply pkg_name_inj.
Qed.
End lines.

(** * The claims *)

Section claims.
Implicit Types (w : world) (p : list string) (E : entropy) (i j M N : Z).

(** A computation whose outcome is seen to be a return has returned. *)
Lemma returned_eq (x : outcome unit * world) :
  x.1 = Returned tt → x = (Returned tt, x.2).
Proof. destruct x as [r w]. simpl. by intros ->. Qed.

Lemma const_entropy_ok d c : entropy_ok (const_entropy d c).
Proof. intros k a b Hab. simpl. lia. Qed.

Lemma str_int_length_small i : 1 ≤ i ≤ 999 → (String.length (str_int i) ≤ 3)%nat.
Proof.
  intros Hi. pose proof (str_int_bounds i ltac:(lia)) as [Hlo _].
  destruct (decide (String.length (str_int i) ≤ 3)%nat) as [|Hgt]; [done|].
  exfalso.
  assert (10 ^ 3 ≤ 10 ^ (Z.of_nat (String.length (str_int i)) - 1)).
  { apply Z.pow_le_mono_r; lia. }
  change (10 ^ 3) with 1000 in *. lia.
Qed.

Lemma str_int_length_large i : 999 < i → (3 < String.length (str_int i))%nat.
Proof.
  intros Hi. pose proof (str_int_bounds i ltac:(lia)) as [_ Hhi].
  destruct (decide (3 < String.length (str_int i))%nat) as [|Hle]; [done|].
  exfalso.
  assert (10 ^ Z.of_nat (String.length (str_int i)) ≤ 10 ^ 3).
  { apply Z.pow_le_mono_r; lia. }
  change (10 ^ 3) with 1000 in *. lia.
Qed.

(** C6. For every package index [i >= 1] the package name is [pkg]
    followed by [i] in decimal, zero-padded to three digits: the suffix is
    made of digits only and reads back as [i]; up to 999 it has exactly
    three digits, beyond 999 it is the plain decimal rendering with more
    than three digits, nothing cut off; so [pkg001], [pkg100], [pkg1000]. *)
Theorem pkg_name_zero_padded i :
  1 ≤ i →
  ∃ suffix,
    pkg_name i = "pkg" +:+ suffix ∧
    suffix = spec_zero_pad 3 (str_int i) ∧
    string_forall is_digit suffix = true ∧
    parse_decimal suffix = i ∧
    (i ≤ 999 → String.length suffix = 3%nat) ∧
    (999 < i → suffix = str_int i ∧ (3 < String.length suffix)%nat) ∧
    pkg_name 1 = "pkg001" ∧ pkg_name 100 = "pkg100" ∧ pkg_name 1000 = "pkg1000".
Proof.
  intros Hi. exists (format_0wd 3 i). split_and!; try done.
  - apply format_0wd_nonneg. lia.
  - apply format_0wd_digits. lia.
  - apply parse_format_0wd. lia.
  - intros Hsmall. rewrite length_format_0wd by lia.
    pose proof (str_int_length_small i ltac:(lia)). lia.
  - intros Hlarge. pose proof (str_int_length_large i Hlarge) as Hlen. split.
    + rewrite format_0wd_nonneg by lia.
      replace (3 - String.length (str_int i))%nat with O by lia. done.
    + rewrite length_format_0wd by lia. lia.
Qed.

Lemma pkg_name_zero_padded_witness :
  ∃ suffix,
    pkg_name 12345 = "pkg" +:+ suffix ∧
    suffix = spec_zero_pad 3 (str_int 12345) ∧
    string_forall is_digit suffix = true ∧
    parse_decimal suffix = 12345 ∧
    (12345 ≤ 999 → String.length suffix = 3%nat) ∧
    (999 < 12345 → suffix = str_int 12345 ∧ (3 < String.length suffix)%nat) ∧
    pkg_name 1 = "pkg001" ∧ pkg_name 100 = "pkg100" ∧ pkg_name 1000 = "pkg1000".
Proof. apply (pkg_name_zero_padded 12345). lia. Defined.

(** C3. After a run that returns, the manifest of every package [i] holds
    exactly the text [{"name":"<pkg_name>","version":"1.0.0"}] and a
    newline, with the zero-padded package name, and nothing else. *)
Theorem manifest_content E N M w w' i :
  fs_wf (w_fs w) →
  generate_test_data E N M w = (Returned tt, w') →
  1 ≤ i ≤ N →
  w_fs w' !! resolve (os_path_join (pkg_dir i) "manifest.json")
  = Some (File (spec_manifest ("pkg" +:+ spec_zero_pad 3 (str_int i)))).
Proof.
  intros Hwf Hrun Hi.
  apply generate_test_data_spec in Hrun as (_ & _ & _ & _ & _ & _ & _ & Hpk & _);
    [|done].
  destruct (Hpk i Hi) as (_ & _ & Hman & _).
  fold (manifest_path i). rewrite resolve_manifest_path, Hman.
  unfold manifest_text, spec_manifest, pkg_name, spec_zero_pad.
  by rewrite format_0wd_nonneg by lia.
Qed.

Lemma manifest_content_witness :
  let run := generate_test_data empty_payload_entropy 2 1 (start ∅) in
  run.1 = Returned tt ∧
  w_fs run.2 !! resolve (os_path_join (pkg_dir 2) "manifest.json")
  = Some (File (spec_manifest ("pkg" +:+ spec_zero_pad 3 (str_int 2)))).
Proof.
  intros run.
  assert (run.1 = Returned tt) as Hrun by (vm_compute; reflexivity).
  split; [exact Hrun|].
  apply (manifest_content empty_payload_entropy 2 1 (start ∅) run.2);
    [apply fs_wf_empty|by apply returned_eq|lia].
Defined.

(** C2. After a run that returns, the index file [packages.txt] has
    exactly [N] lines; line [k] is the path of package directory [k], a
    directory that exists; the lines are in ascending package order,
    without duplicates and without omissions. *)
Theorem index_file_lines E N M w w' :
  fs_wf (w_fs w) →
  generate_test_data E N M w = (Returned tt, w') →
  ∃ text,
    w_fs w' !! resolve "packages.txt" = Some (File text) ∧
    splitlines text = pkg_dir <$> range 1 (N + 1) ∧
    length (splitlines text) = Z.to_nat N ∧
    NoDup (splitlines text) ∧
    (∀ (k : nat) line, splitlines text !! k = Some line →
       line = os_path_join "pkgs" (pkg_name (1 + Z.of_nat k)) ∧
       w_fs w' !! resolve line = Some Dir) ∧
    (∀ i, 1 ≤ i ≤ N → splitlines text !! Z.to_nat (i - 1) = Some (pkg_dir i)).
Proof.
  intros Hwf Hrun.
  apply generate_test_data_spec in Hrun
    as (_ & _ & _ & Hidx & _ & _ & _ & Hpk & _); [|done].
  exists (index_text N). rewrite resolve_index, splitlines_index_text.
  split_and!; try done.
  - rewrite length_fmap, length_range. f_equal. lia.
  - apply NoDup_fmap_2_strong; [|apply NoDup_seqZ].
    intros i i' Hi Hi' Heq. unfold range in Hi, Hi'.
    apply elem_of_seqZ in Hi, Hi'. apply pkg_dir_inj; [lia|lia|done].
  - intros k line Hline. rewrite list_lookup_fmap in Hline.
    destruct (range 1 (N + 1) !! k) as [i|] eqn:Hk; [|done].
    injection Hline as <-. apply lookup_range in Hk as [-> Hk].
    split; [done|]. rewrite resolve_pkg_dir. apply Hpk. lia.
  - intros i Hi. rewrite list_lookup_fmap.
    replace (range 1 (N + 1) !! Z.to_nat (i - 1)) with (Some i); [done|].
    symmetry. apply lookup_range. lia.
Qed.

Lemma index_file_lines_witness :
  let run := generate_test_data empty_payload_entropy 3 0 (start ∅) in
  run.1 = Returned tt ∧
  ∃ text,
    w_fs run.2 !! resolve "packages.txt" = Some (File text) ∧
    splitlines text = ["pkgs/pkg001"; "pkgs/pkg002"; "pkgs/pkg003"].
Proof.
  intros run.
  assert (run.1 = Returned tt) as Hrun by (vm_compute; reflexivity).
  split; [exact Hrun|].
  destruct (index_file_lines empty_payload_entropy 3 0 (start ∅) run.2
              fs_wf_empty (returned_eq _ Hrun)) as (text & Htext & Hlines & _).
  exists text. split; [exact Htext|exact Hlines].
Defined.
End claims.

(** ** Comparing the file systems of runs *)

Section agreement.
Implicit Types (w : world) (p : list string) (E : entropy) (i j M N : Z).

Lemma length_payload_bytes E rc uc :
  String.length (payload_bytes E rc uc) = Z.to_nat (payload_size E rc).
Proof.
  unfold payload_bytes.
  by rewrite length_string_of_list_ascii, length_fmap, length_seq.
Qed.

Lemma payload_size_bounds E rc :
  entropy_ok E → 1024 ≤ payload_size E rc ≤ 5120.
Proof. intros HE. unfold payload_size. specialize (HE rc 0 4096). lia. Qed.

Lemma compatible_empty N M : compatible N M ∅.
Proof.
  split_and!; [done|done|]. intros i Hi. split_and!; try done.
Qed.

(** Where a path written by a run lies, and what the run left there. *)
Lemma generated_created E N M w w' p :
  generated E N M w w' →
  p ∈ created_paths N M →
  (p = pkgs_p ∧ w_fs w' !! p = Some (default Dir (w_fs w !! pkgs_p)))
  ∨ (p = index_p ∧ w_fs w' !! p = Some (File (index_text N)))
  ∨ (∃ i, 1 ≤ i ≤ N ∧ (p = pkg_p i ∨ p = files_p i) ∧ w_fs w' !! p = Some Dir)
  ∨ (∃ i, 1 ≤ i ≤ N ∧ p = manifest_p i
          ∧ w_fs w' !! p = Some (File (manifest_text i)))
  ∨ (∃ i j, 1 ≤ i ≤ N ∧ 1 ≤ j ≤ M ∧ p = payload_p i j
            ∧ w_fs w' !! p
              = Some (File (payload_bytes E
                              (w_randint_calls w + payload_index M i j)
                              (w_urandom_calls w + payload_index M i j)))).
Proof.
  intros (_ & _ & _ & Hidx & Hroot & _ & _ & Hpk & _).
  rewrite created_paths_elem.
  intros [-> | [-> | (i & Hi & Hp)]]; [by left|by right; left|].
  destruct (Hpk i Hi) as (H1 & H2 & H3 & H4).
  apply package_paths_elem in Hp as [-> | [-> | [-> | (j & Hj & ->)]]].
  - right. right. left. exists i. by auto.
  - right. right. left. exists i. by auto.
  - right. right. right. left. exists i. by auto.
  - right. right. right. right. exists i, j.
    split; [done|split; [done|split; [done|by apply H4]]].
Qed.

(** A file system that a run has left is one a run can start from. *)
Lemma generated_compatible E N M w w' :
  generated E N M w w' → compatible N M (w_fs w').
Proof.
  intros (_ & _ & _ & Hidx & _ & Hroot & _ & Hpk & _).
  split_and!.
  - by rewrite Hidx.
  - intros HN. by rewrite Hroot.
  - intros i Hi. destruct (Hpk i Hi) as (H1 & H2 & H3 & H4).
    rewrite H1, H2, H3. split_and!; try done.
    intros j Hj. destruct (H4 j Hj) as [-> _]. done.
Qed.

(** Two runs with the same counts from the same file system differ at
    most in the contents of the payload files. *)
Lemma generated_agree E1 E2 N M w1 w2 w1' w2' p :
  w_fs w1 = w_fs w2 →
  generated E1 N M w1 w1' →
  generated E2 N M w2 w2' →
  w_fs w1' !! p = w_fs w2' !! p
  ∨ ∃ i j, 1 ≤ i ≤ N ∧ 1 ≤ j ≤ M ∧ p = payload_p i j
           ∧ is_file (w_fs w1' !! p) = true ∧ is_file (w_fs w2' !! p) = true.
Proof.
  intros Hfs H1 H2.
  destruct (decide (p ∈ created_paths N M)) as [Hin|Hout].
  - destruct (generated_created _ _ _ _ _ _ H1 Hin)
      as [[-> Ha] | [[-> Ha] | [(i & Hi & Hp & Ha) | [(i & Hi & -> & Ha)
          | (i & j & Hi & Hj & -> & Ha)]]]].
    + left. rewrite Ha, Hfs.
      destruct H2 as (_ & _ & _ & _ & -> & _). done.
    + left. rewrite Ha. destruct H2 as (_ & _ & _ & -> & _). done.
    + left. rewrite Ha. destruct H2 as (_ & _ & _ & _ & _ & _ & _ & Hpk & _).
      destruct (Hpk i Hi) as (Hb1 & Hb2 & _). by destruct Hp as [-> | ->].
    + left. rewrite Ha. destruct H2 as (_ & _ & _ & _ & _ & _ & _ & Hpk & _).
      destruct (Hpk i Hi) as (_ & _ & -> & _). done.
    + right. exists i, j. rewrite Ha.
      destruct H2 as (_ & _ & _ & _ & _ & _ & _ & Hpk & _).
      destruct (Hpk i Hi) as (_ & _ & _ & Hb). destruct (Hb j Hj) as [-> _].
      done.
  - left. destruct H1 as (_ & _ & _ & _ & _ & _ & _ & _ & ->); [|done].
    destruct H2 as (_ & _ & _ & _ & _ & _ & _ & _ & ->); [|done].
    by rewrite Hfs.
Qed.

Lemma agree_dom (fs1 fs2 : gmap (list string) node) :
  (∀ p, is_Some (fs1 !! p) ↔ is_Some (fs2 !! p)) → dom fs1 = dom fs2.
Proof. intros H. apply set_eq. intros p. by rewrite !elem_of_dom. Qed.
End agreement.

Section claims_runs.
Implicit Types (w : world) (p : list string) (E : entropy) (i j M N : Z).

(** C10. Two runs with the same counts from the same file system, whatever
    the two sources of randomness answer, leave the same set of paths,
    the same directories, the same manifests and the same index file; the
    two file systems differ, if at all, only in what payload files hold. *)
Theorem randomness_only_in_payloads E1 E2 N M w1 w2 w1' w2' :
  fs_wf (w_fs w1) →
  w_fs w1 = w_fs w2 →
  generate_test_data E1 N M w1 = (Returned tt, w1') →
  generate_test_data E2 N M w2 = (Returned tt, w2') →
  dom (w_fs w1') = dom (w_fs w2') ∧
  (∀ p, is_dir (w_fs w1' !! p) = is_dir (w_fs w2' !! p)) ∧
  (∀ i, 1 ≤ i ≤ N →
     w_fs w1' !! resolve (manifest_path i) = w_fs w2' !! resolve (manifest_path i)) ∧
  w_fs w1' !! resolve "packages.txt" = w_fs w2' !! resolve "packages.txt" ∧
  (∀ p, w_fs w1' !! p ≠ w_fs w2' !! p →
     ∃ i j, 1 ≤ i ≤ N ∧ 1 ≤ j ≤ M ∧ p = resolve (file_path i j)
            ∧ is_file (w_fs w1' !! p) = true ∧ is_file (w_fs w2' !! p) = true).
Proof.
  intros Hwf Hfs Hrun1 Hrun2.
  apply generate_test_data_spec in Hrun1; [|done].
  apply generate_test_data_spec in Hrun2; [|by rewrite <-Hfs].
  pose proof (λ p, generated_agree E1 E2 N M w1 w2 w1' w2' p Hfs Hrun1 Hrun2)
    as Hagree.
  split_and!.
  - apply agree_dom. intros p.
    destruct (Hagree p) as [->|(i & j & _ & _ & _ & Hf1 & Hf2)]; [done|].
    destruct (w_fs w1' !! p), (w_fs w2' !! p); try done; by split; eexists.
  - intros p. destruct (Hagree p) as [->|(i & j & _ & _ & _ & Hf1 & Hf2)]; [done|].
    by destruct (w_fs w1' !! p) as [[|?]|], (w_fs w2' !! p) as [[|?]|].
  - intros i Hi. rewrite resolve_manifest_path.
    destruct Hrun1 as (_ & _ & _ & _ & _ & _ & _ & Hpk1 & _).
    destruct Hrun2 as (_ & _ & _ & _ & _ & _ & _ & Hpk2 & _).
    destruct (Hpk1 i Hi) as (_ & _ & -> & _).
    destruct (Hpk2 i Hi) as (_ & _ & -> & _). done.
  - rewrite resolve_index.
    destruct Hrun1 as (_ & _ & _ & -> & _).
    destruct Hrun2 as (_ & _ & _ & -> & _). done.
  - intros p Hne. destruct (Hagree p) as [?|(i & j & Hi & Hj & -> & Hf)]; [done|].
    exists i, j. by rewrite resolve_file_path.
Qed.

Lemma randomness_only_in_payloads_witness :
  let run1 := generate_test_data (const_entropy 0 "a"%char) 1 1 (start ∅) in
  let run2 := generate_test_data (const_entropy 7 "b"%char) 1 1 (start ∅) in
  run1.1 = Returned tt ∧ run2.1 = Returned tt ∧
  dom (w_fs run1.2) = dom (w_fs run2.2) ∧
  w_fs run1.2 !! resolve "packages.txt" = w_fs run2.2 !! resolve "packages.txt".
Proof.
  intros run1 run2.
  assert (run1.1 = Returned tt) as H1 by (vm_compute; reflexivity).
  assert (run2.1 = Returned tt) as H2 by (vm_compute; reflexivity).
  split; [exact H1|]. split; [exact H2|].
  destruct (randomness_only_in_payloads
              (const_entropy 0 "a"%char) (const_entropy 7 "b"%char) 1 1
              (start ∅) (start ∅) run1.2 run2.2 fs_wf_empty eq_refl
              (returned_eq _ H1) (returned_eq _ H2)) as (Hdom & _ & _ & Hidx & _).
  split; [exact Hdom|exact Hidx].
Defined.

(** C5. A second run with the same counts on what a first run left
    returns: directories that exist raise no error.  It leaves the same
    paths with the same kinds; every entry except the payload files is as
    it was; every payload file holds exactly the bytes drawn by the second
    run, in place of the old ones and not after them. *)
Theorem rerun_same_structure E1 E2 N M w w1 rc uc :
  fs_wf (w_fs w) →
  entropy_ok E2 →
  generate_test_data E1 N M w = (Returned tt, w1) →
  ∃ w2,
    generate_test_data E2 N M (World (w_fs w1) rc uc) = (Returned tt, w2) ∧
    dom (w_fs w2) = dom (w_fs w1) ∧
    (∀ p, is_dir (w_fs w2 !! p) = is_dir (w_fs w1 !! p)) ∧
    (∀ p, (∀ i j, 1 ≤ i ≤ N → 1 ≤ j ≤ M → p ≠ resolve (file_path i j)) →
       w_fs w2 !! p = w_fs w1 !! p) ∧
    (∀ i j, 1 ≤ i ≤ N → 1 ≤ j ≤ M →
       w_fs w2 !! resolve (file_path i j)
       = Some (File (payload_bytes E2 (rc + payload_index M i j)
                                      (uc + payload_index M i j)))).
Proof.
  intros Hwf HE Hrun1.
  apply generate_test_data_spec in Hrun1 as Hgen1; [|done].
  assert (fs_wf (w_fs w1)) as Hwf1 by (by destruct Hgen1 as (_ & _ & ? & _)).
  destruct (generate_test_data_returns E2 N M (World (w_fs w1) rc uc) HE Hwf1)
    as [w2 Hrun2]; [exact (generated_compatible _ _ _ _ _ Hgen1)|].
  exists w2. split; [done|].
  apply generate_test_data_spec in Hrun2 as Hgen2; [|done].
  assert (∀ p, w_fs w2 !! p = w_fs w1 !! p
               ∨ ∃ i j, 1 ≤ i ≤ N ∧ 1 ≤ j ≤ M ∧ p = payload_p i j
                        ∧ is_file (w_fs w2 !! p) = true
                        ∧ is_file (w_fs w1 !! p) = true) as Hagree.
  { intros p. destruct (decide (p ∈ created_paths N M)) as [Hin|Hout].
    - destruct (generated_created _ _ _ _ _ _ Hgen1 Hin)
        as [[-> Ha] | [[-> Ha] | [(i & Hi & Hp & Ha) | [(i & Hi & -> & Ha)
            | (i & j & Hi & Hj & -> & Ha)]]]].
      + left. destruct Hgen2 as (_ & _ & _ & _ & -> & _). simpl.
        by rewrite Ha.
      + left. rewrite Ha. by destruct Hgen2 as (_ & _ & _ & -> & _).
      + left. rewrite Ha. destruct Hgen2 as (_ & _ & _ & _ & _ & _ & _ & Hpk & _).
        destruct (Hpk i Hi) as (Hb1 & Hb2 & _). by destruct Hp as [-> | ->].
      + left. rewrite Ha. destruct Hgen2 as (_ & _ & _ & _ & _ & _ & _ & Hpk & _).
        by destruct (Hpk i Hi) as (_ & _ & -> & _).
      + right. exists i, j. rewrite Ha.
        destruct Hgen2 as (_ & _ & _ & _ & _ & _ & _ & Hpk & _).
        destruct (Hpk i Hi) as (_ & _ & _ & Hb). by destruct (Hb j Hj) as [-> _].
    - left. by destruct Hgen2 as (_ & _ & _ & _ & _ & _ & _ & _ & ->). }
  split_and!.
  - apply agree_dom. intros p.
    destruct (Hagree p) as [->|(i & j & _ & _ & _ & Hf1 & Hf2)]; [done|].
    destruct (w_fs w1 !! p), (w_fs w2 !! p); try done; by split; eexists.
  - intros p. destruct (Hagree p) as [->|(i & j & _ & _ & _ & Hf1 & Hf2)]; [done|].
    by destruct (w_fs w1 !! p) as [[|?]|], (w_fs w2 !! p) as [[|?]|].
  - intros p Hp. destruct (Hagree p) as [?|(i & j & Hi & Hj & -> & _)]; [done|].
    destruct (Hp i j Hi Hj). by rewrite resolve_file_path.
  - intros i j Hi Hj. rewrite resolve_file_path.
    destruct Hgen2 as (_ & _ & _ & _ & _ & _ & _ & Hpk & _).
    destruct (Hpk i Hi) as (_ & _ & _ & Hb). by destruct (Hb j Hj) as [-> _].
Qed.

Lemma rerun_same_structure_witness :
  let run1 := generate_test_data empty_payload_entropy 2 1 (start ∅) in
  run1.1 = Returned tt ∧
  ∃ w2,
    generate_test_data (const_entropy 0 "x"%char) 2 1 (World (w_fs run1.2) 0 0)
    = (Returned tt, w2) ∧
    dom (w_fs w2) = dom (w_fs run1.2).
Proof.
  intros run1.
  assert (run1.1 = Returned tt) as H1 by (vm_compute; reflexivity).
  split; [exact H1|].
  destruct (rerun_same_structure empty_payload_entropy (const_entropy 0 "x"%char)
              2 1 (start ∅) run1.2 0 0 fs_wf_empty (const_entropy_ok _ _)
              (returned_eq _ H1)) as (w2 & Hrun2 & Hdom & _).
  exists w2. split; [exact Hrun2|exact Hdom].
Defined.

(** C7. The call [generate_test_data(2, 1)] returns on every file system
    that has nothing in its way, an empty one among them; and when it has
    returned, both manifests hold their one line, both [f1.bin] hold
    between 1024 and 5120 bytes, and [packages.txt] holds the two lines
    [pkgs/pkg001] and [pkgs/pkg002]. *)
Theorem generate_2_1 E w :
  fs_wf (w_fs w) →
  entropy_ok E →
  (compatible 2 1 (w_fs w) → ∃ w', generate_test_data E 2 1 w = (Returned tt, w')) ∧
  (∀ w', generate_test_data E 2 1 w = (Returned tt, w') →
     w_fs w' !! resolve "pkgs/pkg001/manifest.json"
     = Some (File (spec_manifest "pkg001")) ∧
     w_fs w' !! resolve "pkgs/pkg002/manifest.json"
     = Some (File (spec_manifest "pkg002")) ∧
     (∃ bytes, w_fs w' !! resolve "pkgs/pkg001/files/f1.bin" = Some (File bytes)
               ∧ 1024 ≤ Z.of_nat (String.length bytes) ≤ 5120) ∧
     (∃ bytes, w_fs w' !! resolve "pkgs/pkg002/files/f1.bin" = Some (File bytes)
               ∧ 1024 ≤ Z.of_nat (String.length bytes) ≤ 5120) ∧
     (∃ text, w_fs w' !! resolve "packages.txt" = Some (File text)
              ∧ splitlines text = ["pkgs/pkg001"; "pkgs/pkg002"])).
Proof.
  intros Hwf HE. split; [by apply generate_test_data_returns|].
  intros w' Hrun.
  apply generate_test_data_spec in Hrun
    as (_ & _ & _ & Hidx & _ & _ & _ & Hpk & _); [|done].
  destruct (Hpk 1 ltac:(lia)) as (_ & _ & Hm1 & Hp1).
  destruct (Hpk 2 ltac:(lia)) as (_ & _ & Hm2 & Hp2).
  destruct (Hp1 1 ltac:(lia)) as [Hf1 _]. destruct (Hp2 1 ltac:(lia)) as [Hf2 _].
  split_and!.
  - exact Hm1.
  - exact Hm2.
  - eexists. split; [exact Hf1|]. rewrite length_payload_bytes.
    pose proof (payload_size_bounds E (w_randint_calls w + payload_index 1 1 1) HE).
    lia.
  - eexists. split; [exact Hf2|]. rewrite length_payload_bytes.
    pose proof (payload_size_bounds E (w_randint_calls w + payload_index 1 2 1) HE).
    lia.
  - exists (index_text 2). split; [exact Hidx|]. by rewrite splitlines_index_text.
Qed.

Lemma generate_2_1_witness :
  ∃ w', generate_test_data (const_entropy 0 "x"%char) 2 1 (start ∅) = (Returned tt, w')
        ∧ ∃ text, w_fs w' !! resolve "packages.txt" = Some (File text)
                  ∧ splitlines text = ["pkgs/pkg001"; "pkgs/pkg002"].
Proof.
  destruct (generate_2_1 (const_entropy 0 "x"%char) (start ∅) fs_wf_empty
              (const_entropy_ok _ _)) as [Hreturns Hpost].
  destruct (Hreturns (compatible_empty 2 1)) as [w' Hrun].
  exists w'. split; [exact Hrun|].
  destruct (Hpost w' Hrun) as (_ & _ & _ & _ & Hidx). exact Hidx.
Defined.
End claims_runs.

Section claims_counts.
Implicit Types (w : world) (p : list string) (E : entropy) (i j M N : Z).









End claims_counts.

(** ** What a run that returns tells about the file system it started on *)

Section necessity.
Implicit Types (w : world) (p : list string) (E : entropy) (i j M N : Z).

Lemma payloads_pre E i M w w' :
  fs_wf (w_fs w) →
  for_each (range 1 (M + 1)) (write_payload E i) w = (Returned tt, w') →
  ∀ j, 1 ≤ j ≤ M → is_dir (w_fs w !! payload_p i j) = false.
Proof.
  intros Hwf Hrun.
  pose proof (for_each_inv
                (λ k w1, payloads_done E i M w w1 k ∧
                         ∀ j, 1 ≤ j ≤ Z.of_nat k →
                              is_dir (w_fs w !! payload_p i j) = false)
                (range 1 (M + 1)) (write_payload E i) w w') as H.
  rewrite length_range in H. replace (M + 1 - 1) with M in H by lia.
  enough (payloads_done E i M w w' (Z.to_nat M) ∧
          ∀ j, 1 ≤ j ≤ Z.of_nat (Z.to_nat M) →
               is_dir (w_fs w !! payload_p i j) = false) as [_ Hfinal]
    by (intros j Hj; apply Hfinal; lia).
  refine (H _ _ Hrun).
  - split; [by apply payloads_start|]. intros j Hj. simpl in Hj. lia.
  - intros k x w1 w2 [-> _]%lookup_range [HI Hpre] Hx.
    split; [by eapply payloads_step|]. intros j Hj.
    destruct (decide (j = 1 + Z.of_nat k)) as [->|Hne]; [|apply Hpre; lia].
    destruct HI as (_ & _ & Hwf1 & _ & Hframe).
    apply write_payload_spec in Hx as (_ & _ & _ & Hnd & _); [|done].
    rewrite <-Hframe; [done|]. intros j Hj' ?%payload_p_inj. lia.
Qed.

Lemma write_package_pre E M i w w' :
  fs_wf (w_fs w) →
  write_package E M index_p i w = (Returned tt, w') →
  is_file (w_fs w !! pkgs_p) = false ∧
  is_file (w_fs w !! pkg_p i) = false ∧
  is_file (w_fs w !! files_p i) = false ∧
  is_dir (w_fs w !! manifest_p i) = false ∧
  (∀ j, 1 ≤ j ≤ M → is_dir (w_fs w !! payload_p i j) = false) ∧
  is_file (w_fs w !! index_p) = true.
Proof.
  intros Hwf Hrun.
  pose proof (write_package_spec _ _ _ _ _ Hwf Hrun)
    as (_ & _ & _ & _ & _ & _ & _ & _ & _ & (old & Hold & _) & _).
  unfold write_package in Hrun. rewrite os_makedirs_files_dir in Hrun.
  apply bind_inv in Hrun as [([] & w1 & Hdirs & Hrun)|(? & _ & ?)]; [|done].
  apply makedirs_chain_spec in Hdirs as (_ & _ & Hwf1 & Hframe1 & Hdirs);
    [|done].
  assert (∀ p, prefix_of (files_p i) p → is_file (w_fs w !! p) = false) as Hpre.
  { intros p Hp. destruct (Hframe1 p) as [<-|(-> & _)]; [|done].
    by rewrite (Hdirs p Hp). }
  assert (∀ p, ¬ prefix_of (files_p i) p → w_fs w1 !! p = w_fs w !! p) as Hframe10.
  { intros p Hp. destruct (Hframe1 p) as [?|(_ & _ & ?)]; done. }
  apply bind_inv in Hrun as [([] & w2 & Hman & Hrun)|(? & _ & ?)]; [|done].
  rewrite write_manifest_eq in Hman.
  destruct (open_w (manifest_path i) w1) as [[h|e] w1'] eqn:Hopen; [|done].
  apply (open_w_spec _ (pkg_p i) "manifest.json") in Hopen
    as (_ & _ & _ & _ & _ & Hpkg & Hnd); [|apply resolve_manifest_path|done].
  injection Hman as <-.
  apply bind_inv in Hrun as [([] & w3 & Hpay & _)|(? & _ & ?)]; [|done].
  assert (fs_wf (<[manifest_p i := File (manifest_text i)]> (w_fs w1))) as Hwf2
    by (by apply fs_wf_insert_leaf).
  pose proof (payloads_pre E i M (World _ _ _) w3 Hwf2 Hpay) as Hpay'.
  simpl in Hpay'. clear Hpay. rename Hpay' into Hpay. split_and!.
  - apply Hpre, prefix_of_files_p. auto.
  - apply Hpre, prefix_of_files_p. auto.
  - apply Hpre, prefix_of_files_p. auto.
  - rewrite <-Hframe10; [done|]. rewrite prefix_of_files_p. by intros [?|[?|?]].
  - intros j Hj. specialize (Hpay j Hj). rewrite lookup_insert_ne in Hpay by done.
    rewrite <-Hframe10; [done|]. rewrite prefix_of_files_p. by intros [?|[?|?]].
  - by rewrite Hold.
Qed.

Lemma packages_pre E N M w w' :
  fs_wf (w_fs w) →
  w_fs w !! index_p = Some (File "") →
  for_each (range 1 (N + 1)) (write_package E M index_p) w = (Returned tt, w') →
  (1 ≤ N → is_file (w_fs w !! pkgs_p) = false) ∧
  ∀ i, 1 ≤ i ≤ N →
    is_file (w_fs w !! pkg_p i) = false ∧
    is_file (w_fs w !! files_p i) = false ∧
    is_dir (w_fs w !! manifest_p i) = false ∧
    ∀ j, 1 ≤ j ≤ M → is_dir (w_fs w !! payload_p i j) = false.
Proof.
  intros Hwf Hidx Hrun.
  pose proof (for_each_inv
                (λ k w1, packages_done E M w w1 k ∧
                         ((1 ≤ k)%nat → is_file (w_fs w !! pkgs_p) = false) ∧
                         ∀ i, 1 ≤ i ≤ Z.of_nat k →
                           is_file (w_fs w !! pkg_p i) = false ∧
                           is_file (w_fs w !! files_p i) = false ∧
                           is_dir (w_fs w !! manifest_p i) = false ∧
                           ∀ j, 1 ≤ j ≤ M →
                                is_dir (w_fs w !! payload_p i j) = false)
                (range 1 (N + 1)) (write_package E M index_p) w w') as H.
  rewrite length_range in H. replace (N + 1 - 1) with N in H by lia.
  enough (packages_done E M w w' (Z.to_nat N) ∧
          ((1 ≤ Z.to_nat N)%nat → is_file (w_fs w !! pkgs_p) = false) ∧
          ∀ i, 1 ≤ i ≤ Z.of_nat (Z.to_nat N) →
            is_file (w_fs w !! pkg_p i) = false ∧
            is_file (w_fs w !! files_p i) = false ∧
            is_dir (w_fs w !! manifest_p i) = false ∧
            ∀ j, 1 ≤ j ≤ M → is_dir (w_fs w !! payload_p i j) = false)
    as (_ & Hroot & Hpk).
  { split; [intros HN; apply Hroot; lia|]. intros i Hi. apply Hpk. lia. }
  refine (H _ _ Hrun).
  - split; [by apply packages_start|]. split; [lia|].
    intros i Hi. simpl in Hi. lia.
  - intros k x w1 w2 [-> _]%lookup_range (HI & Hroot & Hpk) Hx.
    split; [by eapply packages_step|].
    destruct HI as (_ & _ & Hwf1 & _ & _ & Hroot1 & _ & Hframe).
    apply write_package_pre in Hx as (Hx0 & Hx1 & Hx2 & Hx3 & Hx4 & _); [|done].
    assert (∀ p, p ∈ package_paths M (1 + Z.of_nat k) →
                 w_fs w1 !! p = w_fs w !! p) as Hsame.
    { intros p Hp. apply Hframe.
      - intros i Hi Hp'.
        assert (i = 1 + Z.of_nat k); [|lia].
        apply (package_paths_disjoint M i (1 + Z.of_nat k) p); [lia|lia|done|done].
      - intros ->. by apply package_paths_second in Hp.
      - intros ->. by apply package_paths_second in Hp. }
    split.
    + intros _. destruct Hroot1 as [<-|[-> _]]; done.
    + intros i Hi. destruct (decide (i = 1 + Z.of_nat k)) as [->|Hne];
        [|apply Hpk; lia].
      rewrite <-!Hsame by (apply package_paths_elem; auto).
      split_and!; try done. intros j Hj.
      rewrite <-Hsame by (apply package_paths_elem; eauto 6). by apply Hx4.
Qed.

(** A run returns only on a compatible file system. *)
Lemma generate_test_data_pre E N M w w' :
  fs_wf (w_fs w) →
  generate_test_data E N M w = (Returned tt, w') →
  compatible N M (w_fs w).
Proof.
  intros Hwf. rewrite generate_test_data_eq. simpl.
  destruct (is_dir (w_fs w !! index_p)) eqn:Hidx; [done|]. intros Hrun.
  apply packages_pre in Hrun as [Hroot Hpk];
    [|by apply fs_wf_opened|apply lookup_insert_eq].
  simpl in Hroot, Hpk. split_and!; [done| |].
  - intros HN. specialize (Hroot HN). rewrite opened_pkgs in Hroot.
    by destruct (w_fs w !! pkgs_p) as [[|d]|].
  - intros i Hi. destruct (Hpk i Hi) as (H1 & H2 & H3 & H4).
    rewrite !opened_other in H1, H2, H3 by done. split_and!; try done.
    intros j Hj. specialize (H4 j Hj). by rewrite opened_other in H4.
Qed.
End necessity.

Section claims_sizes.
Implicit Types (w : world) (p : list string) (E : entropy) (i j M N s : Z).

Lemma NoDup_singleton_list {A} (l : list A) a :
  NoDup l → (∀ x, x ∈ l ↔ x = a) → l = [a].
Proof.
  intros Hnd Hl. destruct l as [|x [|y l]].
  - assert (a ∈ @nil A) as H by (by apply Hl). by apply elem_of_nil in H.
  - f_equal. apply Hl. by left.
  - assert (x = a) as -> by (apply Hl; by left).
    assert (y = a) as -> by (apply Hl; right; by left).
    apply NoDup_cons in Hnd as [Hnotin _]. destruct Hnotin. by left.
Qed.

Lemma draws_giving_eq s :
  draws_giving s = if bool_decide (1024 ≤ s ≤ 5120) then [s - 1024] else [].
Proof.
  unfold draws_giving, range. case_bool_decide as Hs.
  - apply NoDup_singleton_list; [apply NoDup_filter, NoDup_seqZ|].
    intros d. rewrite list_elem_of_filter, elem_of_seqZ. lia.
  - apply elem_of_nil_inv. intros d.
    rewrite list_elem_of_filter, elem_of_seqZ. lia.
Qed.

(** C4. After a run that returns, with [random.randint] answering inside
    its bounds, every payload file is as long as 1024 plus the answer
    drawn for it, between 1024 and 5120 bytes.  Each length in that range
    comes from exactly one of the 4097 possible answers and no other
    length from any, so a uniform answer gives a uniform length; and each
    length in the range is reached by a run with a suitable source. *)
Theorem payload_length_uniform E N M w w' i j :
  fs_wf (w_fs w) →
  entropy_ok E →
  generate_test_data E N M w = (Returned tt, w') →
  1 ≤ i ≤ N → 1 ≤ j ≤ M →
  (∃ bytes draw,
     w_fs w' !! resolve (file_path i j) = Some (File bytes) ∧
     draw = randint_src E (w_randint_calls w + payload_index M i j) 0 4096 ∧
     0 ≤ draw ≤ 4096 ∧
     Z.of_nat (String.length bytes) = 1024 + draw ∧
     1024 ≤ Z.of_nat (String.length bytes) ≤ 5120) ∧
  (∀ s, length (draws_giving s) = if bool_decide (1024 ≤ s ≤ 5120) then 1%nat else 0%nat) ∧
  (∀ s, 1024 ≤ s ≤ 5120 →
     ∃ E' w'' bytes,
       entropy_ok E' ∧
       generate_test_data E' N M w = (Returned tt, w'') ∧
       w_fs w'' !! resolve (file_path i j) = Some (File bytes) ∧
       Z.of_nat (String.length bytes) = s).
Proof.
  intros Hwf HE Hrun Hi Hj.
  pose proof (generate_test_data_pre _ _ _ _ _ Hwf Hrun) as Hcompat.
  apply generate_test_data_spec in Hrun
    as (_ & _ & _ & _ & _ & _ & _ & Hpk & _); [|done].
  destruct (Hpk i Hi) as (_ & _ & _ & Hpay). destruct (Hpay j Hj) as [Hfile _].
  split_and!.
  - eexists _, _. rewrite resolve_file_path. split; [exact Hfile|].
    split; [reflexivity|]. rewrite length_payload_bytes.
    pose proof (HE (w_randint_calls w + payload_index M i j)%nat 0 4096 ltac:(lia)).
    unfold payload_size. lia.
  - intros s. rewrite draws_giving_eq. by case_bool_decide.
  - intros s Hs.
    destruct (generate_test_data_returns (const_entropy (s - 1024) "x"%char)
                N M w (const_entropy_ok _ _) Hwf Hcompat) as [w'' Hrun''].
    apply generate_test_data_spec in Hrun'' as Hgen; [|done].
    destruct Hgen as (_ & _ & _ & _ & _ & _ & _ & Hpk'' & _).
    destruct (Hpk'' i Hi) as (_ & _ & _ & Hpay'').
    destruct (Hpay'' j Hj) as [Hfile'' _].
    eexists _, w'', _. split; [apply const_entropy_ok|]. split; [done|].
    rewrite resolve_file_path. split; [exact Hfile''|].
    rewrite length_payload_bytes. unfold payload_size. simpl. lia.
Qed.

Lemma payload_length_uniform_witness :
  let run := generate_test_data (const_entropy 5 "x"%char) 1 1 (start ∅) in
  run.1 = Returned tt ∧
  ∃ bytes,
    w_fs run.2 !! resolve (file_path 1 1) = Some (File bytes) ∧
    Z.of_nat (String.length bytes) = 1029.
Proof.
  intros run.
  assert (run.1 = Returned tt) as Hrun by (vm_compute; reflexivity).
  split; [exact Hrun|].
  destruct (payload_length_uniform (const_entropy 5 "x"%char) 1 1 (start ∅) run.2
              1 1 fs_wf_empty (const_entropy_ok _ _) (returned_eq _ Hrun)
              ltac:(lia) ltac:(lia)) as ((bytes & draw & Hb & -> & _ & Hlen & _) & _).
  exists bytes. split; [exact Hb|exact Hlen].
Defined.
End claims_sizes.

Section claims_listing.
Implicit Types (w : world) (p : list string) (E : entropy) (i j M N : Z).

Lemma path_eq_second (a b x y : string) (l l' : list string) :
  a :: x :: l = b :: y :: l' → x = y ∧ l = l'.
Proof.
  intros H. split.
  - exact (f_equal (λ q, nth 1 q "") H).
  - exact (f_equal (drop 2) H).
Qed.

Lemma created_paths_pkg N M name :
  ["pkgs"; name] ∈ created_paths N M → ∃ i, 1 ≤ i ≤ N ∧ name = pkg_name i.
Proof.
  rewrite created_paths_elem. intros [? | [? | (i & Hi & Hp)]]; [done..|].
  exists i. split; [done|].
  apply package_paths_elem in Hp as [Hp | [Hp | [Hp | (j & _ & Hp)]]];
    try done. by apply path_eq_second in Hp as [-> _].
Qed.

Lemma created_paths_in_pkg N M i x :
  0 ≤ i → ["pkgs"; pkg_name i; x] ∈ created_paths N M →
  1 ≤ i ≤ N ∧ (x = "files" ∨ x = "manifest.json").
Proof.
  intros Hi0. rewrite created_paths_elem.
  intros [? | [? | (i' & Hi & Hp)]]; [done..|].
  apply package_paths_elem in Hp as [Hp | [Hp | [Hp | (j & _ & Hp)]]];
    try done; apply path_eq_second in Hp as [Hname Hx];
    apply pkg_name_inj in Hname as ->; try lia;
    apply (f_equal (λ q, nth 0 q "")) in Hx; simpl in Hx; auto.
Qed.

Lemma created_paths_payload N M i x :
  0 ≤ i → ["pkgs"; pkg_name i; "files"; x] ∈ created_paths N M →
  1 ≤ i ≤ N ∧ ∃ j, 1 ≤ j ≤ M ∧ x = file_name j.
Proof.
  intros Hi0. rewrite created_paths_elem.
  intros [? | [? | (i' & Hi & Hp)]]; [done..|].
  apply package_paths_elem in Hp as [Hp | [Hp | [Hp | (j & Hj & Hp)]]];
    try done. apply path_eq_second in Hp as [Hname Hx].
  apply pkg_name_inj in Hname as ->; [|lia..]. split; [done|].
  apply (f_equal (λ q, nth 1 q "")) in Hx. simpl in Hx. by exists j.
Qed.

Lemma NoDup_pkg_names N : NoDup (pkg_name <$> range 1 (N + 1)).
Proof.
  apply NoDup_fmap_2_strong; [|apply NoDup_seqZ].
  intros i i' Hi Hi' Heq. unfold range in Hi, Hi'.
  apply elem_of_seqZ in Hi, Hi'. apply pkg_name_inj; [lia|lia|done].
Qed.

Lemma NoDup_file_names M : NoDup (file_name <$> range 1 (M + 1)).
Proof.
  apply NoDup_fmap_2_strong; [|apply NoDup_seqZ].
  intros j j' _ _ Heq. by apply file_name_inj.
Qed.

Lemma elem_of_range lo hi x : x ∈ range lo hi ↔ lo ≤ x < hi.
Proof. unfold range. rewrite elem_of_seqZ. lia. Qed.

(** C1, amended. After a run that returns, started on a file system with
    nothing below [pkgs] but what the run itself writes (an empty
    directory, say, or what an equal run left), exactly [N] package
    directories lie below [pkgs]; each holds one manifest file and the
    directory [files], which holds exactly [M] payload files. *)
Theorem packages_exactly_when_fresh E N M w w' :
  fs_wf (w_fs w) →
  stale_free N M (w_fs w) →
  generate_test_data E N M w = (Returned tt, w') →
  packages_exactly N M (w_fs w').
Proof.
  intros Hwf Hfresh Hrun.
  apply generate_test_data_spec in Hrun
    as (_ & _ & _ & _ & _ & _ & _ & Hpk & Hframe); [|done].
  assert (∀ p, is_Some (w_fs w' !! p) → (2 ≤ length p)%nat →
               p !! 0%nat = Some "pkgs" → p ∈ created_paths N M) as Hin.
  { intros p Hp Hlen Hhead.
    destruct (decide (p ∈ created_paths N M)) as [|Hout]; [done|].
    apply Hfresh; [|done|done]. by rewrite <-Hframe. }
  assert (os_listdir (w_fs w') pkgs_p = list_to_set (pkg_name <$> range 1 (N + 1)))
    as Hroot.
  { apply set_eq. intros name.
    rewrite elem_of_os_listdir, elem_of_list_to_set, list_elem_of_fmap.
    setoid_rewrite elem_of_range. split.
    - intros Hname. apply Hin in Hname; [|simpl; lia|done].
      apply created_paths_pkg in Hname as (i & Hi & ->). exists i. split; [done|lia].
    - intros (i & -> & Hi). destruct (Hpk i ltac:(lia)) as (H1 & _).
      change (pkgs_p ++ [pkg_name i]) with (pkg_p i). by rewrite H1. }
  split.
  - rewrite Hroot, size_list_to_set by apply NoDup_pkg_names.
    rewrite length_fmap, length_range. f_equal. lia.
  - intros name. rewrite Hroot, elem_of_list_to_set, list_elem_of_fmap.
    setoid_rewrite elem_of_range. intros (i & -> & Hi).
    destruct (Hpk i ltac:(lia)) as (H1 & H2 & H3 & H4).
    assert (os_listdir (w_fs w') ["pkgs"; pkg_name i; "files"]
            = list_to_set (file_name <$> range 1 (M + 1))) as Hfiles.
    { apply set_eq. intros x.
      rewrite elem_of_os_listdir, elem_of_list_to_set, list_elem_of_fmap.
      setoid_rewrite elem_of_range. split.
      - intros Hx. apply Hin in Hx; [|simpl; lia|done].
        apply created_paths_payload in Hx as (_ & j & Hj & ->); [|lia].
        exists j. split; [done|lia].
      - intros (j & -> & Hj). destruct (H4 j ltac:(lia)) as [Hf _].
        change (["pkgs"; pkg_name i; "files"] ++ [file_name j])
          with (payload_p i j). by rewrite Hf. }
    split_and!.
    + exact H1.
    + apply set_eq. intros x. rewrite elem_of_os_listdir.
      rewrite elem_of_union, !elem_of_singleton. split.
      * intros Hx. apply Hin in Hx; [|simpl; lia|done].
        apply created_paths_in_pkg in Hx as (_ & [-> | ->]); [auto..|lia].
      * intros [-> | ->].
        -- change (["pkgs"; pkg_name i] ++ ["manifest.json"])
             with (manifest_p i). by rewrite H3.
        -- change (["pkgs"; pkg_name i] ++ ["files"]) with (files_p i).
           by rewrite H2.
    + change (["pkgs"; pkg_name i; "manifest.json"]) with (manifest_p i).
      by rewrite H3.
    + exact H2.
    + rewrite Hfiles, size_list_to_set by apply NoDup_file_names.
      rewrite length_fmap, length_range. f_equal. lia.
    + intros f. rewrite Hfiles, elem_of_list_to_set, list_elem_of_fmap.
      setoid_rewrite elem_of_range. intros (j & -> & Hj).
      destruct (H4 j ltac:(lia)) as [Hf _].
      change (["pkgs"; pkg_name i; "files"; file_name j]) with (payload_p i j).
      by rewrite Hf.
Qed.

Lemma stale_free_empty N M : stale_free N M ∅.
Proof. intros p [n Hn]. by rewrite lookup_empty in Hn. Qed.

Lemma packages_exactly_when_fresh_witness :
  let run := generate_test_data (const_entropy 0 "x"%char) 2 1 (start ∅) in
  run.1 = Returned tt ∧ packages_exactly 2 1 (w_fs run.2).
Proof.
  intros run.
  assert (run.1 = Returned tt) as Hrun by (vm_compute; reflexivity).
  split; [exact Hrun|].
  exact (packages_exactly_when_fresh (const_entropy 0 "x"%char) 2 1 (start ∅) run.2
           fs_wf_empty (stale_free_empty 2 1) (returned_eq _ Hrun)).
Defined.

(** C1 as it is written fails: a run for three packages, then a run for
    two on what it left.  Both return, on well-formed file systems, with
    counts the claim allows; three package directories lie below [pkgs]
    after the second. *)
Lemma packages_exactly_counterexample :
  let first := generate_test_data (const_entropy 0 "x"%char) 3 0 (start ∅) in
  let second := generate_test_data (const_entropy 0 "x"%char) 2 0
                  (World (w_fs first.2) 0 0) in
  first.1 = Returned tt ∧ second.1 = Returned tt ∧
  fs_wf (w_fs first.2) ∧ entropy_ok (const_entropy 0 "x"%char) ∧
  1 ≤ 2 ∧ 0 ≤ 0 ∧
  size (os_listdir (w_fs second.2) pkgs_p) = 3%nat ∧
  ¬ packages_exactly 2 0 (w_fs second.2).
Proof.
  intros first second.
  assert (first.1 = Returned tt) as H1 by (vm_compute; reflexivity).
  assert (second.1 = Returned tt) as H2 by (vm_compute; reflexivity).
  assert (size (os_listdir (w_fs second.2) pkgs_p) = 3%nat) as Hsize
    by (vm_compute; reflexivity).
  split_and!; [exact H1|exact H2| |apply const_entropy_ok|lia|lia|exact Hsize|].
  - pose proof (generate_test_data_spec (const_entropy 0 "x"%char) 3 0 (start ∅)
                  first.2 fs_wf_empty (returned_eq _ H1)) as (_ & _ & Hwf & _).
    exact Hwf.
  - intros [Hsize' _]. rewrite Hsize in Hsize'. discriminate.
Qed.
End claims_listing.

Section claims_script.
Implicit Types (w : world) (p : list string) (E : entropy) (i j M N : Z).

Lemma pkg_p_not_created N M i : N < i → 0 ≤ i → pkg_p i ∉ created_paths N M.
Proof.
  intros HN Hi Hin. apply created_paths_pkg in Hin as (i' & Hi' & Heq).
  apply pkg_name_inj in Heq; lia.
Qed.

Lemma payload_p_not_created N M i j : M < j → payload_p i j ∉ created_paths N M.
Proof.
  intros HM. rewrite created_paths_elem.
  intros [? | [? | (i' & Hi & Hp)]]; [done..|].
  apply package_paths_elem in Hp as [Hp | [Hp | [Hp | (j' & Hj & Hp)]]];
    try done.
  apply path_eq_second in Hp as [_ Hp].
  apply (f_equal (λ q, nth 1 q "")) in Hp. simpl in Hp.
  apply file_name_inj in Hp. lia.
Qed.

(** C8. Run as a script, the module calls [generate_test_data(100, 20)];
    imported under another name it does nothing.  So the script returns
    on a file system with nothing in its way, and when it has returned
    the index has 100 lines, the packages 1 to 100 have their payload
    files 1 to 20, and no package beyond 100 and no payload file beyond
    20 has been touched. *)
Theorem script_defaults E w :
  fs_wf (w_fs w) →
  script E "__main__" w = generate_test_data E 100 20 w ∧
  (∀ other, other ≠ "__main__" → script E other w = (Returned tt, w)) ∧
  (entropy_ok E → compatible 100 20 (w_fs w) →
     ∃ w', script E "__main__" w = (Returned tt, w')) ∧
  (∀ w', script E "__main__" w = (Returned tt, w') →
     (∃ text, w_fs w' !! resolve "packages.txt" = Some (File text)
              ∧ length (splitlines text) = 100%nat) ∧
     (∀ i j, 1 ≤ i ≤ 100 → 1 ≤ j ≤ 20 →
        is_file (w_fs w' !! resolve (file_path i j)) = true) ∧
     (∀ i, 100 < i →
        w_fs w' !! resolve (pkg_dir i) = w_fs w !! resolve (pkg_dir i)) ∧
     (∀ i j, 20 < j →
        w_fs w' !! resolve (file_path i j) = w_fs w !! resolve (file_path i j))).
Proof.
  intros Hwf. split_and!.
  - done.
  - intros other Hother. unfold script. by rewrite bool_decide_eq_false_2.
  - intros HE Hcompat. by apply generate_test_data_returns.
  - intros w' Hrun. change (script E "__main__" w)
      with (generate_test_data E 100 20 w) in Hrun.
    apply generate_test_data_spec in Hrun
      as (_ & _ & _ & Hidx & _ & _ & _ & Hpk & Hframe); [|done].
    split_and!.
    + exists (index_text 100). split; [exact Hidx|].
      rewrite splitlines_index_text, length_fmap, length_range. done.
    + intros i j Hi Hj. rewrite resolve_file_path.
      destruct (Hpk i Hi) as (_ & _ & _ & Hpay).
      by destruct (Hpay j Hj) as [-> _].
    + intros i Hi. rewrite resolve_pkg_dir. apply Hframe.
      apply pkg_p_not_created; lia.
    + intros i j Hj. rewrite resolve_file_path. apply Hframe.
      by apply payload_p_not_created.
Qed.

Lemma script_defaults_witness :
  script (const_entropy 0 "x"%char) "__main__" (start ∅)
  = generate_test_data (const_entropy 0 "x"%char) 100 20 (start ∅)
  ∧ ∃ w', script (const_entropy 0 "x"%char) "__main__" (start ∅) = (Returned tt, w').
Proof.
  destruct (script_defaults (const_entropy 0 "x"%char) (start ∅) fs_wf_empty)
    as (Heq & _ & Hreturns & _).
  split; [exact Heq|].
  exact (Hreturns (const_entropy_ok _ _) (compatible_empty 100 20)).
Defined.
End claims_script.

(** * Further properties of the script *)

Section further.
Implicit Types (w : world) (p : list string) (E : entropy) (i j M N : Z).

(** X1. The script returns only if nothing of the wrong kind stands on one
    of its paths.  When at the start [packages.txt] is a directory, or,
    with a package to write, [pkgs] is a regular file, or for a package [1]
    to [N] the package directory or its [files] directory is a regular file
    or the manifest or one of the payloads [1] to [M] is a directory, the
    run does not return: it raises. *)
Theorem returns_only_if_compatible E N M w :
  fs_wf (w_fs w) →
  (∀ w', generate_test_data E N M w = (Returned tt, w') → compatible N M (w_fs w)) ∧
  (¬ compatible N M (w_fs w) →
     ∃ e w', generate_test_data E N M w = (Raised e, w')).
Proof.
  intros Hwf. split.
  - intros w' Hrun. by eapply generate_test_data_pre.
  - intros Hc. destruct (generate_test_data E N M w) as [[[]|e] w'] eqn:Hrun.
    + destruct Hc. by eapply generate_test_data_pre.
    + by exists e, w'.
Qed.

Lemma returns_only_if_compatible_witness :
  ∃ e w', generate_test_data (const_entropy 9 "x"%char) 3 2
            (start {[ ["pkgs"] := File "x" ]}) = (Raised e, w').
Proof.
  assert (fs_wf {[ ["pkgs"] := File "x" ]}) as Hwf.
  { apply (fs_wf_insert_new ∅); [apply fs_wf_empty|done|done|done]. }
  destruct (returns_only_if_compatible (const_entropy 9 "x"%char) 3 2
              (start {[ ["pkgs"] := File "x" ]}) Hwf) as [_ Hraises].
  apply Hraises. intros (_ & Hroot & _). specialize (Hroot ltac:(lia)).
  vm_compute in Hroot. discriminate Hroot.
Defined.

(** X2. When [packages.txt] is a directory the script raises
    [IsADirectoryError], whatever the counts; by then it has made [pkgs] if
    that was missing, and it has done nothing else. *)
Theorem index_is_a_directory E N M w :
  is_dir (w_fs w !! resolve "packages.txt") = true →
  generate_test_data E N M w
  = (Raised IsADirectoryError,
     if bool_decide (is_Some (w_fs w !! resolve "pkgs")) then w
     else World (<[resolve "pkgs" := Dir]> (w_fs w))
                (w_randint_calls w) (w_urandom_calls w)).
Proof.
  intros Hidx. rewrite generate_test_data_eq. simpl.
  rewrite resolve_index in Hidx. by rewrite Hidx.
Qed.

Lemma index_is_a_directory_witness :
  generate_test_data empty_payload_entropy 5 5 (start {[ ["packages.txt"] := Dir ]})
  = (Raised IsADirectoryError,
     World (<[ ["pkgs"] := Dir ]> {[ ["packages.txt"] := Dir ]}) 0 0).
Proof.
  rewrite (index_is_a_directory empty_payload_entropy 5 5
             (start {[ ["packages.txt"] := Dir ]})); reflexivity.
Defined.

Lemma payload_index_bound N M i j :
  1 ≤ i ≤ N → 1 ≤ j ≤ M →
  (payload_index M i j < Z.to_nat N * Z.to_nat M)%nat.
Proof.
  intros Hi Hj. unfold payload_index.
  assert (Z.to_nat (i - 1) + 1 ≤ Z.to_nat N)%nat as Hle by lia.
  assert (Z.to_nat (j - 1) < Z.to_nat M)%nat as Hlt by lia.
  nia.
Qed.

Lemma payload_index_inj M i j i' j' :
  1 ≤ i → 1 ≤ i' → 1 ≤ j ≤ M → 1 ≤ j' ≤ M →
  payload_index M i j = payload_index M i' j' → i = i' ∧ j = j'.
Proof.
  intros Hi Hi' Hj Hj'. unfold payload_index. intros Heq.
  assert (Z.to_nat (j - 1) < Z.to_nat M)%nat by lia.
  assert (Z.to_nat (j' - 1) < Z.to_nat M)%nat by lia.
  assert (Z.to_nat (i - 1) = Z.to_nat (i' - 1)) as Ha by nia.
  split; [lia|]. rewrite Ha in Heq. lia.
Qed.

(** X3. A run that returns has asked [random.randint] and [os.urandom]
    exactly [N * M] times each.  Payload [j] of package [i] holds, unchanged,
    the bytes of the [os.urandom] call number [(i-1) * M + (j-1)] of the
    run, as many as 1024 plus the [random.randint] answer of the same
    number; two different payload files never share a call. *)
Theorem randomness_accounting E N M w w' :
  fs_wf (w_fs w) →
  generate_test_data E N M w = (Returned tt, w') →
  w_randint_calls w' = (w_randint_calls w + Z.to_nat N * Z.to_nat M)%nat ∧
  w_urandom_calls w' = (w_urandom_calls w + Z.to_nat N * Z.to_nat M)%nat ∧
  (∀ i j, 1 ≤ i ≤ N → 1 ≤ j ≤ M →
     (payload_index M i j < Z.to_nat N * Z.to_nat M)%nat ∧
     w_fs w' !! resolve (file_path i j)
     = Some (File (string_of_list_ascii
                     (urandom_src E (w_urandom_calls w + payload_index M i j)
                      <$> seq 0 (Z.to_nat
                                   (1024 + randint_src E
                                      (w_randint_calls w + payload_index M i j)
                                      0 4096)))))) ∧
  (∀ i j i' j', 1 ≤ i ≤ N → 1 ≤ i' ≤ N → 1 ≤ j ≤ M → 1 ≤ j' ≤ M →
     payload_index M i j = payload_index M i' j' → i = i' ∧ j = j').
Proof.
  intros Hwf Hrun.
  apply generate_test_data_spec in Hrun
    as (Hr & Hu & _ & _ & _ & _ & _ & Hpk & _); [|done].
  split_and!; [done|done| |].
  - intros i j Hi Hj. split; [by apply payload_index_bound|].
    rewrite resolve_file_path. destruct (Hpk i Hi) as (_ & _ & _ & Hpay).
    by destruct (Hpay j Hj) as [-> _].
  - intros i j i' j' Hi Hi' Hj Hj'. apply payload_index_inj; lia.
Qed.

Lemma randomness_accounting_witness :
  let run := generate_test_data empty_payload_entropy 3 2 (start ∅) in
  run.1 = Returned tt ∧
  w_randint_calls run.2 = 6%nat ∧ w_urandom_calls run.2 = 6%nat.
Proof.
  intros run.
  assert (run.1 = Returned tt) as Hrun by (vm_compute; reflexivity).
  split; [exact Hrun|].
  destruct (randomness_accounting empty_payload_entropy 3 2 (start ∅) run.2
              fs_wf_empty (returned_eq _ Hrun)) as (Hr & Hu & _).
  split; [exact Hr|exact Hu].
Defined.

Lemma path_of_package_not_created N M i rest :
  N < i → 0 ≤ i → pkg_p i ++ rest ∉ created_paths N M.
Proof.
  intros HN Hi. rewrite created_paths_elem.
  intros [Hp | [Hp | (i' & Hi' & Hp)]]; [by destruct rest..|].
  apply package_paths_second in Hp.
  change ((pkg_p i ++ rest) !! 1%nat) with (Some (pkg_name i)) in Hp.
  apply (inj Some) in Hp. apply pkg_name_inj in Hp; lia.
Qed.

End further.

(** * What the script leaves alone, on either way out *)

Section confinement.
Context {A B : Type}.
Implicit Types (w : world) (p q : list string) (S : list string → Prop).

Lemma keeps_entries_refl fs : keeps_entries fs fs.
Proof. intros p n H. by exists n. Qed.

Lemma keeps_entries_trans fs1 fs2 fs3 :
  keeps_entries fs1 fs2 → keeps_entries fs2 fs3 → keeps_entries fs1 fs3.
Proof.
  intros H12 H23 p n H. destruct (H12 p n H) as (n2 & H2 & Hk2).
  destruct (H23 p n2 H2) as (n3 & H3 & Hk3). exists n3. split; [done|congruence].
Qed.

Lemma keeps_entries_insert_new fs p n :
  fs !! p = None → keeps_entries fs (<[p := n]> fs).
Proof.
  intros Hnone q m Hq. exists m. split; [|done].
  rewrite lookup_insert_ne; [done|]. intros ->. congruence.
Qed.

Lemma keeps_entries_insert_file fs p d d' :
  fs !! p = Some (File d) → keeps_entries fs (<[p := File d']> fs).
Proof.
  intros Hp q m Hq. destruct (decide (p = q)) as [<-|Hne].
  - exists (File d'). rewrite lookup_insert_eq. split; [done|].
    rewrite Hp in Hq. by injection Hq as <-.
  - exists m. by rewrite lookup_insert_ne.
Qed.

Lemma confined_unchanged S (m : py A) :
  (∀ w r w', m w = (r, w') → w_fs w' = w_fs w) → confined S m.
Proof.
  intros H w r w' Hwf Hrun. rewrite (H _ _ _ Hrun).
  split_and!; [done|apply keeps_entries_refl|done].
Qed.

Lemma confined_mono S S' (m : py A) :
  (∀ p, S p → S' p) → confined S m → confined S' m.
Proof.
  intros HS Hm w r w' Hwf Hrun. destruct (Hm _ _ _ Hwf Hrun) as (? & ? & Hf).
  split_and!; [done|done|]. intros p Hp. apply Hf. intros ?. apply Hp. by apply HS.
Qed.

Lemma confined_ret S (a : A) : confined S (ret a).
Proof. apply confined_unchanged. by intros w r w' [= <- <-]. Qed.

Lemma confined_raise S e : confined S (@raise A e).
Proof. apply confined_unchanged. by intros w r w' [= <- <-]. Qed.

(** Sequencing, with what is known of the value handed on. *)
Lemma confined_bind_val S (Q : A → Prop) (m : py A) (k : A → py B) :
  confined S m →
  (∀ w a w', m w = (Returned a, w') → Q a) →
  (∀ a, Q a → confined S (k a)) →
  confined S (bind m k).
Proof.
  intros Hm HQ Hk w r w' Hwf Hrun.
  apply bind_inv in Hrun as [(a & w1 & Ha & Hrun)|(e & He & ->)].
  - destruct (Hm _ _ _ Hwf Ha) as (Hwf1 & Hk1 & Hf1).
    destruct (Hk a (HQ _ _ _ Ha) _ _ _ Hwf1 Hrun) as (Hwf2 & Hk2 & Hf2).
    split_and!; [done|by eapply keeps_entries_trans|].
    intros p Hp. by rewrite Hf2, Hf1.
  - by apply (Hm _ _ _ Hwf He).
Qed.

Lemma confined_bind S (m : py A) (k : A → py B) :
  confined S m → (∀ a, confined S (k a)) → confined S (bind m k).
Proof.
  intros Hm Hk. apply (confined_bind_val S (λ _, True)); [done|done|].
  intros a _. apply Hk.
Qed.

Lemma confined_try_except S (m : py A) handled (h : exn → py A) :
  confined S m → (∀ e, confined S (h e)) → confined S (try_except m handled h).
Proof.
  intros Hm Hh w r w' Hwf. unfold try_except.
  destruct (m w) as [[a|e] w1] eqn:Hm1.
  - intros [= <- <-]. by apply (Hm _ _ _ Hwf Hm1).
  - destruct (Hm _ _ _ Hwf Hm1) as (Hwf1 & Hk1 & Hf1).
    destruct (handled e); [|by intros [= <- <-]].
    intros Hrun. destruct (Hh e _ _ _ Hwf1 Hrun) as (Hwf2 & Hk2 & Hf2).
    split_and!; [done|by eapply keeps_entries_trans|].
    intros p Hp. by rewrite Hf2, Hf1.
Qed.
End confinement.

Section confinement_calls.
Implicit Types (w : world) (p q : list string) (S : list string → Prop)
  (E : entropy) (i j M N : Z).

Lemma confined_for_each {A} S (l : list A) (body : A → py unit) :
  (∀ x, x ∈ l → confined S (body x)) → confined S (for_each l body).
Proof.
  induction l as [|x l IH]; intros Hbody.
  - apply confined_ret.
  - rewrite for_each_cons. apply confined_bind.
    + apply Hbody. by left.
    + intros _. apply IH. intros y Hy. apply Hbody. by right.
Qed.

Lemma confined_os_path_exists S s : confined S (os_path_exists s).
Proof. apply confined_unchanged. by intros w r w' [= <- <-]. Qed.

Lemma confined_os_path_isdir_at S p : confined S (os_path_isdir_at p).
Proof. apply confined_unchanged. by intros w r w' [= <- <-]. Qed.

Lemma confined_mkdir_at p : confined (λ q, q = p) (mkdir_at p).
Proof.
  intros w r w' Hwf. unfold mkdir_at, bind, get_fs, put_fs, raise.
  destruct (node_at (w_fs w) p) as [n|] eqn:Hp.
  { intros [= <- <-]. split_and!; [done|apply keeps_entries_refl|done]. }
  assert (p ≠ []) as Hne by (by intros ->).
  rewrite node_at_nonempty in Hp by done.
  destruct (node_at (w_fs w) (parent p)) as [[|d]|] eqn:Hpar; intros [= <- <-];
    simpl; [|split_and!; [done|apply keeps_entries_refl|done]..].
  split_and!.
  - by apply fs_wf_insert_new.
  - by apply keeps_entries_insert_new.
  - intros q Hq. by rewrite lookup_insert_ne.
Qed.

Lemma confined_makedirs_leaf name exist_ok :
  confined (λ q, q = name)
    (try_except (mkdir_at name) is_OSError
       (λ e, let* d := os_path_isdir_at name in
             if negb exist_ok || negb d then raise e else ret tt)).
Proof.
  apply confined_try_except; [apply confined_mkdir_at|].
  intros e. apply confined_bind; [apply confined_os_path_isdir_at|].
  intros d. destruct (negb exist_ok || negb d);
    [apply confined_raise|apply confined_ret].
Qed.

Lemma makedirs_chain_unfold name head hs exist_ok :
  makedirs_chain name (head :: hs) exist_ok =
  ((let* fs := get_fs in
    if bool_decide (is_Some (node_at fs head)) then ret tt
    else try_except (makedirs_chain head hs exist_ok)
           (λ e, bool_decide (e = FileExistsError)) (λ _, ret tt)) ;;
   try_except (mkdir_at name) is_OSError
     (λ e, let* d := os_path_isdir_at name in
           if negb exist_ok || negb d then raise e else ret tt)).
Proof. done. Qed.

(** [os.makedirs] changes nothing but its leaf and the heads it was given. *)
Lemma confined_makedirs_chain hs : ∀ name exist_ok,
  confined (λ q, q = name ∨ q ∈ hs) (makedirs_chain name hs exist_ok).
Proof.
  induction hs as [|head hs IH]; intros name exist_ok.
  - apply confined_bind; [apply confined_ret|]. intros _.
    eapply confined_mono; [|apply confined_makedirs_leaf]. intros p ->. by left.
  - rewrite makedirs_chain_unfold. apply confined_bind.
    + intros w r w' Hwf. unfold bind at 1, get_fs at 1.
      destruct (bool_decide (is_Some (node_at (w_fs w) head))).
      * by apply confined_ret.
      * apply confined_try_except; [|intros _; apply confined_ret|done].
        eapply confined_mono; [|apply IH].
        intros p [-> | Hp]; right; [by left|by right].
    + intros _. eapply confined_mono; [|apply confined_makedirs_leaf].
      intros p ->. by left.
Qed.

Lemma confined_open_w name : confined (λ q, q = resolve name) (open_w name).
Proof.
  intros w r w' Hwf. unfold open_w, bind, get_fs, put_fs, ret, raise.
  destruct (node_at (w_fs w) (resolve name)) as [[|d]|] eqn:Hp.
  - intros [= <- <-]. split_and!; [done|apply keeps_entries_refl|done].
  - assert (resolve name ≠ []) as Hne by (intros Hnil; by rewrite Hnil in Hp).
    rewrite node_at_nonempty in Hp by done.
    intros [= <- <-]. simpl. split_and!.
    + by eapply fs_wf_insert_file.
    + by eapply keeps_entries_insert_file.
    + intros q Hq. by rewrite lookup_insert_ne.
  - assert (resolve name ≠ []) as Hne by (intros Hnil; by rewrite Hnil in Hp).
    rewrite node_at_nonempty in Hp by done.
    destruct (node_at (w_fs w) (parent (resolve name))) as [[|d]|] eqn:Hpar;
      intros [= <- <-]; simpl;
      [|split_and!; [done|apply keeps_entries_refl|done]..].
    split_and!.
    + by apply fs_wf_insert_new.
    + by apply keeps_entries_insert_new.
    + intros q Hq. by rewrite lookup_insert_ne.
Qed.

Lemma open_w_handle name w h w' :
  open_w name w = (Returned h, w') → h = resolve name.
Proof.
  unfold open_w, bind, get_fs, put_fs, ret, raise.
  destruct (node_at (w_fs w) (resolve name)) as [[|d]|]; [done|by intros [= <- _]|].
  destruct (node_at (w_fs w) (parent (resolve name))) as [[|d]|];
    [by intros [= <- _]|done|done].
Qed.

Lemma confined_file_write h data : confined (λ q, q = h) (file_write h data).
Proof.
  intros w r w' Hwf. rewrite file_write_eq.
  destruct (w_fs w !! h) as [[|old]|] eqn:Hh; intros [= <- <-]; simpl;
    [split_and!; [done|apply keeps_entries_refl|done]|
    |split_and!; [done|apply keeps_entries_refl|done]].
  split_and!.
  - by eapply fs_wf_insert_file.
  - by eapply keeps_entries_insert_file.
  - intros q Hq. by rewrite lookup_insert_ne.
Qed.

Lemma confined_random_randint S E a b : confined S (random_randint E a b).
Proof.
  apply confined_unchanged. intros w r w'. unfold random_randint.
  destruct (b <? a); by intros [= <- <-].
Qed.

Lemma confined_os_urandom S E size : confined S (os_urandom E size).
Proof.
  apply confined_unchanged. intros w r w'. unfold os_urandom.
  destruct (size <? 0); by intros [= <- <-].
Qed.

Lemma confined_with_open_w {A} S name (body : list string → py A) :
  S (resolve name) →
  confined S (body (resolve name)) →
  confined S (with_open_w name body).
Proof.
  intros HS Hbody. unfold with_open_w.
  apply (confined_bind_val S (λ h, h = resolve name)).
  - eapply confined_mono; [|apply confined_open_w]. by intros p ->.
  - intros w a w'. apply open_w_handle.
  - by intros a ->.
Qed.

Lemma confined_write_payload E i j :
  confined (λ q, q = payload_p i j) (write_payload E i j).
Proof.
  unfold write_payload. apply confined_with_open_w; [apply resolve_file_path|].
  apply confined_bind; [apply confined_random_randint|]. intros r.
  apply confined_bind; [apply confined_os_urandom|]. intros bytes.
  rewrite resolve_file_path. apply confined_file_write.
Qed.

Lemma heads_files_p i : heads (files_p i) = [pkg_p i; pkgs_p].
Proof. done. Qed.

(** A package up to its payloads: lines 10 to 23. *)
Lemma confined_package_files E M i :
  confined (λ q, q ∈ package_paths M i ∨ q = pkgs_p)
    (os_makedirs (files_dir i) true ;;
     with_open_w (manifest_path i) (λ manifest,
       file_write manifest (manifest_text i)) ;;
     for_each (range 1 (M + 1)) (write_payload E i)).
Proof.
  apply confined_bind; [|intros _; apply confined_bind; [|intros _]].
  - unfold os_makedirs. rewrite resolve_files_dir, heads_files_p.
    eapply confined_mono; [|apply confined_makedirs_chain].
    intros p [-> | [-> | [-> | []%elem_of_nil]%elem_of_cons]%elem_of_cons];
      [left|left|by right]; apply package_paths_elem; auto.
  - apply confined_with_open_w.
    + left. rewrite resolve_manifest_path. apply package_paths_elem. auto.
    + eapply confined_mono; [|apply confined_file_write].
      intros p ->. left. rewrite resolve_manifest_path.
      apply package_paths_elem. auto.
  - apply confined_for_each. intros j Hj%elem_of_range.
    eapply confined_mono; [|apply confined_write_payload].
    intros p ->. left. apply package_paths_elem.
    right. right. right. exists j. split; [lia|done].
Qed.

Lemma write_package_assoc E M f i w :
  write_package E M f i w =
  bind (os_makedirs (files_dir i) true ;;
        with_open_w (manifest_path i) (λ manifest,
          file_write manifest (manifest_text i)) ;;
        for_each (range 1 (M + 1)) (write_payload E i))
       (λ _, file_write f (index_line i)) w.
Proof.
  unfold write_package, bind.
  destruct (os_makedirs (files_dir i) true w) as [[[]|e] w1]; [|done].
  destruct (with_open_w (manifest_path i) _ w1) as [[[]|e] w2]; [|done].
  by destruct (for_each (range 1 (M + 1)) (write_payload E i) w2) as [[[]|e] w3].
Qed.

Lemma confined_write_package E M i :
  confined (λ q, q ∈ package_paths M i ∨ q = pkgs_p ∨ q = index_p)
    (write_package E M index_p i).
Proof.
  intros w r w' Hwf. rewrite write_package_assoc. revert w r w' Hwf.
  apply confined_bind.
  - eapply confined_mono; [|apply confined_package_files].
    intros p [?| ->]; auto.
  - intros _. eapply confined_mono; [|apply confined_file_write].
    intros p ->. auto.
Qed.

Lemma confined_generate_test_data E N M :
  confined (λ q, q ∈ created_paths N M) (generate_test_data E N M).
Proof.
  unfold generate_test_data.
  apply confined_bind; [apply confined_os_path_exists|]. intros present.
  apply confined_bind.
  - destruct present; simpl; [apply confined_ret|].
    unfold os_makedirs. rewrite resolve_pkgs.
    eapply confined_mono; [|apply confined_makedirs_chain].
    intros p [-> | []%elem_of_nil]. apply created_paths_elem. auto.
  - intros _. apply confined_with_open_w.
    + rewrite resolve_index. apply created_paths_elem. auto.
    + rewrite resolve_index. apply confined_for_each. intros i Hi%elem_of_range.
      eapply confined_mono; [|apply confined_write_package].
      intros p Hp. apply created_paths_elem.
      destruct Hp as [Hp | [-> | ->]]; [|by auto..].
      right. right. exists i. split; [lia|done].
Qed.

(** X4. Whether it returns or raises, the script deletes nothing, never
    puts a file where a directory was or a directory where a file was, and
    changes no path but [pkgs], [packages.txt] and, for the packages [1] to
    [N], the package directory, its [files] directory, its manifest and
    its payloads [1] to [M].  Nothing at or below the directory of a
    package beyond [N] is touched, so what a larger run left stays. *)
Theorem changes_only_its_paths E N M w r w' :
  fs_wf (w_fs w) →
  generate_test_data E N M w = (r, w') →
  (∀ p n, w_fs w !! p = Some n →
     ∃ n', w_fs w' !! p = Some n' ∧ is_dir (Some n') = is_dir (Some n)) ∧
  (∀ p, p ≠ resolve "pkgs" → p ≠ resolve "packages.txt" →
        (∀ i, 1 ≤ i ≤ N →
           p ≠ resolve (pkg_dir i) ∧ p ≠ resolve (files_dir i) ∧
           p ≠ resolve (manifest_path i) ∧
           ∀ j, 1 ≤ j ≤ M → p ≠ resolve (file_path i j)) →
        w_fs w' !! p = w_fs w !! p) ∧
  (∀ i rest, N < i → 0 ≤ i →
     w_fs w' !! (resolve (pkg_dir i) ++ rest) = w_fs w !! (resolve (pkg_dir i) ++ rest)).
Proof.
  intros Hwf Hrun.
  destruct (confined_generate_test_data E N M w r w' Hwf Hrun)
    as (_ & Hkeeps & Hframe).
  split_and!; [done| |].
  - intros p Hroot Hidx Hpk. apply Hframe. rewrite created_paths_elem.
    intros [-> | [-> | (i & Hi & Hp)]]; [done..|].
    destruct (Hpk i Hi) as (H1 & H2 & H3 & H4).
    rewrite resolve_pkg_dir in H1. rewrite resolve_files_dir in H2.
    rewrite resolve_manifest_path in H3.
    apply package_paths_elem in Hp as [-> | [-> | [-> | (j & Hj & ->)]]];
      [done..|].
    specialize (H4 j Hj). by rewrite resolve_file_path in H4.
  - intros i rest HN Hi. rewrite resolve_pkg_dir. apply Hframe.
    by apply path_of_package_not_created.
Qed.

Lemma changes_only_its_paths_witness :
  let fs := <[ ["pkgs"; "pkg007"] := Dir ]> (<[ ["pkgs"] := Dir ]> ∅) in
  let run := generate_test_data empty_payload_entropy 2 1 (start fs) in
  w_fs run.2 !! (resolve (pkg_dir 7) ++ []) = Some Dir.
Proof.
  intros fs run.
  assert (fs_wf fs) as Hwf.
  { apply fs_wf_insert_new; [|done|done|done].
    apply fs_wf_insert_new; [apply fs_wf_empty|done|done|done]. }
  destruct (changes_only_its_paths empty_payload_entropy 2 1 (start fs) run.1 run.2
              Hwf (surjective_pairing run)) as (_ & _ & Hbeyond).
  rewrite (Hbeyond 7 []) by lia. reflexivity.
Defined.
End confinement_calls.

Section failures.
Implicit Types (w : world) (p q : list string) (E : entropy) (i j M N : Z).

Lemma under_file_absent fs q x d :
  fs_wf fs → q ≠ [] → fs !! q = Some (File d) → fs !! (q ++ [x]) = None.
Proof.
  intros Hwf Hq Hfile. destruct (fs !! (q ++ [x])) as [n|] eqn:Hx; [|done].
  apply fs_wf_parent in Hx; [|done]. rewrite node_at_nonempty in Hx by done.
  congruence.
Qed.

Lemma os_makedirs_under_file i w d :
  fs_wf (w_fs w) → w_fs w !! pkgs_p = Some (File d) →
  os_makedirs (files_dir i) true w = (Raised NotADirectoryError, w).
Proof.
  intros Hwf Hroot.
  assert (w_fs w !! (pkgs_p ++ [pkg_name i]) = None) as Hpkg
    by (by eapply under_file_absent).
  assert (makedirs_chain (pkg_p i) [pkgs_p] true w = (Raised NotADirectoryError, w))
    as Hinner.
  { rewrite makedirs_chain_cons. unfold bind at 1. unfold bind at 1, get_fs at 1.
    change (node_at (w_fs w) pkgs_p) with (w_fs w !! pkgs_p). rewrite Hroot.
    simpl. unfold makedirs_leaf, try_except.
    change (pkg_p i) with (pkgs_p ++ [pkg_name i]). rewrite mkdir_at_eq, Hpkg.
    change (node_at (w_fs w) pkgs_p) with (w_fs w !! pkgs_p). rewrite Hroot.
    simpl. unfold bind, os_path_isdir_at, get_fs, ret, raise. simpl.
    change (w_fs w !! ["pkgs"; pkg_name i])
      with (w_fs w !! (pkgs_p ++ [pkg_name i])).
    by rewrite Hpkg. }
  assert (w_fs w !! (pkg_p i ++ ["files"]) = None) as Hfiles.
  { destruct (w_fs w !! (pkg_p i ++ ["files"])) as [n|] eqn:Hx; [|done].
    apply fs_wf_parent in Hx; [|done].
    change (node_at (w_fs w) (pkg_p i)) with (w_fs w !! (pkgs_p ++ [pkg_name i])) in Hx.
    congruence. }
  rewrite os_makedirs_files_dir.
  change (heads (pkg_p i ++ ["files"])) with [pkg_p i; pkgs_p].
  rewrite makedirs_chain_cons. unfold bind at 1. unfold bind at 1, get_fs at 1.
  change (node_at (w_fs w) (pkg_p i)) with (w_fs w !! (pkgs_p ++ [pkg_name i])).
  rewrite Hpkg, bool_decide_eq_false_2 by apply is_Some_None.
  unfold try_except at 1. by rewrite Hinner.
Qed.

(** X5. When [pkgs] is a regular file, the check of line 5 passes and
    [packages.txt] is opened and emptied; then, with a package to write,
    the first [os.makedirs] raises [NotADirectoryError] and nothing else
    has changed.  With no package to write the run returns. *)
Theorem pkgs_is_a_file E N M w d :
  fs_wf (w_fs w) →
  w_fs w !! resolve "pkgs" = Some (File d) →
  is_dir (w_fs w !! resolve "packages.txt") = false →
  generate_test_data E N M w
  = (if bool_decide (1 ≤ N) then Raised NotADirectoryError else Returned tt,
     World (<[resolve "packages.txt" := File ""]> (w_fs w))
           (w_randint_calls w) (w_urandom_calls w)).
Proof.
  rewrite resolve_pkgs, resolve_index. intros Hwf Hroot Hidx.
  rewrite generate_test_data_eq. simpl. rewrite Hidx.
  assert (opened (w_fs w) = <[index_p := File ""]> (w_fs w)) as Hopen.
  { unfold opened. rewrite Hroot. by rewrite bool_decide_eq_true_2 by by eexists. }
  rewrite Hopen. case_bool_decide as HN.
  - unfold range. rewrite seqZ_cons by lia. rewrite for_each_cons.
    apply bind_raised. unfold write_package. apply bind_raised.
    apply (os_makedirs_under_file _ _ d); simpl.
    + apply fs_wf_insert_leaf; [done|done|done|done].
    + by rewrite lookup_insert_ne.
  - unfold range. by rewrite seqZ_nil by lia.
Qed.

Lemma pkgs_is_a_file_witness :
  generate_test_data empty_payload_entropy 3 2 (start {[ ["pkgs"] := File "x" ]})
  = (Raised NotADirectoryError,
     World (<[ ["packages.txt"] := File "" ]> {[ ["pkgs"] := File "x" ]}) 0 0).
Proof.
  assert (fs_wf {[ ["pkgs"] := File "x" ]}) as Hwf.
  { apply (fs_wf_insert_new ∅); [apply fs_wf_empty|done|done|done]. }
  rewrite (pkgs_is_a_file empty_payload_entropy 3 2
             (start {[ ["pkgs"] := File "x" ]}) "x" Hwf); reflexivity.
Defined.
End failures.

Section partial_runs.
Implicit Types (w : world) (p q : list string) (E : entropy) (i j M N : Z).




Lemma take_range (k : nat) N :
  (k ≤ Z.to_nat N)%nat → take k (range 1 (N + 1)) = range 1 (Z.of_nat k + 1).
Proof.
  intros Hk. destruct (decide (0 ≤ N)) as [HN|HN].
  2:{ by replace k with O by lia. }
  unfold range.
  replace (N + 1 - 1) with (Z.of_nat k + (N - Z.of_nat k)) by lia.
  rewrite seqZ_app by lia. replace (Z.of_nat k + 1 - 1) with (Z.of_nat k) by lia.
  rewrite take_app_length'; [done|]. rewrite length_seqZ. lia.
Qed.



End partial_runs.

Section distinct_paths.
Implicit Types (p q : list string) (i j M N : Z).

Lemma NoDup_mjoin_fmap {A B} (f : A → list B) (l : list A) :
  NoDup l →
  (∀ x, x ∈ l → NoDup (f x)) →
  (∀ x y b, x ∈ l → y ∈ l → b ∈ f x → b ∈ f y → x = y) →
  NoDup (mjoin (f <$> l)).
Proof.
  induction l as [|x l IH]; intros Hl Hf Hdisj; [constructor|].
  apply NoDup_cons in Hl as [Hx Hl]. simpl. apply NoDup_app. split_and!.
  - apply Hf. by left.
  - intros b Hb (l' & Hl' & Hb')%list_elem_of_join.
    apply list_elem_of_fmap in Hb' as (y & -> & Hy).
    apply Hx. rewrite (Hdisj x y b); [done|by left|by right|done|done].
  - apply IH; [done|..].
    + intros y Hy. apply Hf. by right.
    + intros y z b Hy Hz. apply Hdisj; by right.
Qed.

Lemma NoDup_package_paths M i : NoDup (package_paths M i).
Proof.
  assert (∀ j, pkg_p i ≠ payload_p i j ∧ files_p i ≠ payload_p i j
               ∧ manifest_p i ≠ payload_p i j) as Hpay.
  { intros j. split_and!; intros H; apply (f_equal length) in H; done. }
  unfold package_paths. simpl. repeat (apply NoDup_cons; split).
  - rewrite !elem_of_cons, list_elem_of_fmap.
    intros [H | [H | (j & H & _)]]; [by apply (f_equal length) in H..|].
    by apply (Hpay j).
  - rewrite !elem_of_cons, list_elem_of_fmap.
    intros [H | (j & H & _)]; [by apply (f_equal (λ q, nth 2 q "")) in H|].
    by apply (Hpay j).
  - rewrite list_elem_of_fmap. intros (j & H & _). by apply (Hpay j).
  - apply NoDup_fmap_2_strong; [|apply NoDup_seqZ].
    intros j j' _ _. apply payload_p_inj.
Qed.

Lemma NoDup_created_paths N M : NoDup (created_paths N M).
Proof.
  unfold created_paths.
  assert (∀ p, p ∈ mjoin (package_paths M <$> range 1 (N + 1)) →
               ∃ name, p !! 1%nat = Some name) as Hsecond.
  { intros p (l & Hl & (i & -> & _)%list_elem_of_fmap)%list_elem_of_join.
    exists (pkg_name i). by eapply package_paths_second. }
  repeat (apply NoDup_cons; split).
  - rewrite elem_of_cons. intros [H | H]; [done|].
    by destruct (Hsecond _ H).
  - intros H. by destruct (Hsecond _ H).
  - apply NoDup_mjoin_fmap.
    + apply NoDup_seqZ.
    + intros i _. apply NoDup_package_paths.
    + intros i i' p Hi%elem_of_range Hi'%elem_of_range.
      apply package_paths_disjoint; lia.
Qed.

(** X7. The paths one run writes are pairwise different: [pkgs],
    [packages.txt] and, package by package, the package directory, its
    [files] directory, its manifest and its payloads.  No package and no
    payload is written over by another. *)
Theorem written_paths_distinct N M :
  NoDup (resolve "pkgs" :: resolve "packages.txt"
         :: mjoin ((λ i, [resolve (pkg_dir i); resolve (files_dir i);
                          resolve (manifest_path i)]
                         ++ ((λ j, resolve (file_path i j)) <$> range 1 (M + 1)))
                   <$> range 1 (N + 1))).
Proof.
  rewrite resolve_pkgs, resolve_index.
  replace (mjoin _) with (mjoin (package_paths M <$> range 1 (N + 1)));
    [apply NoDup_created_paths|].
  f_equal. apply list_fmap_ext. intros _ i _. unfold package_paths.
  rewrite resolve_pkg_dir, resolve_files_dir, resolve_manifest_path.
  f_equal. apply list_fmap_ext. intros _ j _. by rewrite resolve_file_path.
Qed.
End distinct_paths.

Section directory_conflicts.
Implicit Types (w : world) (p q : list string) (x : string) (E : entropy)
  (i j M N : Z).

Lemma pkgs_above_pkg fs i n :
  fs_wf fs → fs !! pkg_p i = Some n → fs !! pkgs_p = Some Dir.
Proof.
  intros Hwf H. change (pkg_p i) with (pkgs_p ++ [pkg_name i]) in H.
  by apply fs_wf_parent in H.
Qed.

(** A regular file where the package directory goes: [os.makedirs] finds
    the head there, tries the leaf below it and raises. *)
Lemma os_makedirs_pkg_is_file i w d :
  fs_wf (w_fs w) → w_fs w !! pkg_p i = Some (File d) →
  os_makedirs (files_dir i) true w = (Raised NotADirectoryError, w).
Proof.
  intros Hwf Hpkg.
  assert (w_fs w !! (pkg_p i ++ ["files"]) = None) as Hfiles
    by (by eapply under_file_absent).
  rewrite os_makedirs_files_dir.
  change (heads (pkg_p i ++ ["files"])) with [pkg_p i; pkgs_p].
  rewrite makedirs_chain_cons. unfold bind at 1. unfold bind at 1, get_fs at 1.
  change (node_at (w_fs w) (pkg_p i)) with (w_fs w !! pkg_p i).
  rewrite Hpkg, bool_decide_eq_true_2 by (by eexists).
  unfold ret at 1. unfold makedirs_leaf, try_except.
  rewrite mkdir_at_eq, Hfiles.
  change (node_at (w_fs w) (pkg_p i)) with (w_fs w !! pkg_p i). rewrite Hpkg.
  simpl. unfold bind, os_path_isdir_at, get_fs, ret, raise. simpl.
  change (w_fs w !! ["pkgs"; pkg_name i; "files"])
    with (w_fs w !! (pkg_p i ++ ["files"])).
  by rewrite Hfiles.
Qed.

(** A regular file where the [files] directory goes: [exist_ok=True] passes
    over a directory that is there, not over a file. *)
Lemma os_makedirs_files_is_file i w d :
  fs_wf (w_fs w) → w_fs w !! files_p i = Some (File d) →
  os_makedirs (files_dir i) true w = (Raised FileExistsError, w).
Proof.
  intros Hwf Hfiles.
  assert (w_fs w !! pkg_p i = Some Dir) as Hpkg.
  { change (files_p i) with (pkg_p i ++ ["files"]) in Hfiles.
    by apply fs_wf_parent in Hfiles. }
  change (files_p i) with (pkg_p i ++ ["files"]) in Hfiles.
  rewrite os_makedirs_files_dir.
  change (heads (pkg_p i ++ ["files"])) with [pkg_p i; pkgs_p].
  rewrite makedirs_chain_cons. unfold bind at 1. unfold bind at 1, get_fs at 1.
  change (node_at (w_fs w) (pkg_p i)) with (w_fs w !! pkg_p i).
  rewrite Hpkg, bool_decide_eq_true_2 by (by eexists).
  unfold ret at 1. unfold makedirs_leaf, try_except.
  rewrite mkdir_at_eq, Hfiles.
  simpl. unfold bind, os_path_isdir_at, get_fs, ret, raise. simpl.
  change (w_fs w !! ["pkgs"; pkg_name i; "files"])
    with (w_fs w !! (pkg_p i ++ ["files"])).
  by rewrite Hfiles.
Qed.

(** X8. A regular file where a directory of the first package goes makes
    the [os.makedirs] of line 13 raise, [exist_ok=True] notwithstanding:
    [NotADirectoryError] when the file stands at the package directory,
    [FileExistsError] when it stands at the [files] directory.  By then
    [packages.txt] has been opened and emptied, and nothing else has
    changed. *)
Theorem file_where_a_directory_goes E N M w d :
  fs_wf (w_fs w) →
  1 ≤ N →
  is_dir (w_fs w !! resolve "packages.txt") = false →
  (w_fs w !! resolve (pkg_dir 1) = Some (File d) →
     generate_test_data E N M w
     = (Raised NotADirectoryError,
        World (<[resolve "packages.txt" := File ""]> (w_fs w))
              (w_randint_calls w) (w_urandom_calls w))) ∧
  (w_fs w !! resolve (files_dir 1) = Some (File d) →
     generate_test_data E N M w
     = (Raised FileExistsError,
        World (<[resolve "packages.txt" := File ""]> (w_fs w))
              (w_randint_calls w) (w_urandom_calls w))).
Proof.
  rewrite resolve_index, resolve_pkg_dir, resolve_files_dir. intros Hwf HN Hidx.
  assert (∀ e,
    os_makedirs (files_dir 1) true
      (World (<[index_p := File ""]> (w_fs w)) (w_randint_calls w) (w_urandom_calls w))
    = (Raised e, World (<[index_p := File ""]> (w_fs w))
                       (w_randint_calls w) (w_urandom_calls w)) →
    is_Some (w_fs w !! pkgs_p) →
    generate_test_data E N M w
    = (Raised e, World (<[index_p := File ""]> (w_fs w))
                       (w_randint_calls w) (w_urandom_calls w))) as Hfirst.
  { intros e Hdirs Hroot. rewrite generate_test_data_eq. simpl. rewrite Hidx.
    unfold opened. rewrite bool_decide_eq_true_2 by done.
    unfold range. rewrite seqZ_cons by lia. rewrite for_each_cons.
    apply bind_raised. unfold write_package. by apply bind_raised. }
  assert (fs_wf (<[index_p := File ""]> (w_fs w))) as Hwf1
    by (by apply fs_wf_insert_leaf).
  split; intros Hfile; apply Hfirst.
  - apply (os_makedirs_pkg_is_file _ _ d); [done|]. simpl.
    by rewrite lookup_insert_ne.
  - exists Dir. by eapply pkgs_above_pkg.
  - apply (os_makedirs_files_is_file _ _ d); [done|]. simpl.
    by rewrite lookup_insert_ne.
  - exists Dir. change (files_p 1) with (pkg_p 1 ++ ["files"]) in Hfile.
    apply fs_wf_parent in Hfile; [|done].
    change (node_at (w_fs w) (pkg_p 1)) with (w_fs w !! pkg_p 1) in Hfile.
    by eapply pkgs_above_pkg.
Qed.

Lemma file_where_a_directory_goes_witness :
  let fs := <[ ["pkgs"; "pkg001"; "files"] := File "x" ]>
              (<[ ["pkgs"; "pkg001"] := Dir ]> (<[ ["pkgs"] := Dir ]> ∅)) in
  generate_test_data empty_payload_entropy 3 2 (start fs)
  = (Raised FileExistsError,
     World (<[resolve "packages.txt" := File ""]> fs) 0 0).
Proof.
  intros fs.
  assert (fs_wf fs) as Hwf.
  { apply fs_wf_insert_new; [|done|done|done].
    apply fs_wf_insert_new; [|done|done|done].
    apply fs_wf_insert_new; [apply fs_wf_empty|done|done|done]. }
  destruct (file_where_a_directory_goes empty_payload_entropy 3 2 (start fs) "x"
              Hwf ltac:(lia) eq_refl) as [_ Hfiles].
  apply Hfiles. reflexivity.
Defined.
End directory_conflicts.

Section smaller_runs.
Implicit Types (w : world) (p q : list string) (E : entropy) (i j M N : Z).

Lemma for_each_take_returns {A} (l : list A) (body : A → py unit) w w' (k : nat) :
  for_each l body w = (Returned tt, w') →
  ∃ w1, for_each (take k l) body w = (Returned tt, w1).
Proof.
  revert w k. induction l as [|x l IH]; intros w k Hrun.
  - rewrite take_nil. by exists w.
  - destruct k as [|k]; [by exists w|].
    rewrite for_each_cons in Hrun.
    apply bind_inv in Hrun as [([] & w1 & Hx & Hrest)|(e & _ & ?)]; [|done].
    destruct (IH _ k Hrest) as (w2 & H2). exists w2.
    change (take (S k) (x :: l)) with (x :: take k l).
    rewrite for_each_cons. by rewrite (bind_returned _ _ _ _ _ Hx).
Qed.

Lemma index_lines_app (l1 l2 : list Z) :
  foldr (λ i acc, index_line i +:+ acc) "" (l1 ++ l2)
  = foldr (λ i acc, index_line i +:+ acc) "" l1
    +:+ foldr (λ i acc, index_line i +:+ acc) "" l2.
Proof.
  induction l1 as [|i l1 IH]; [by rewrite append_nil_l|].
  simpl. by rewrite IH, append_assoc.
Qed.

Lemma index_text_app k N :
  0 ≤ k ≤ N →
  index_text N
  = index_text k +:+ foldr (λ i acc, index_line i +:+ acc) "" (range (k + 1) (N + 1)).
Proof.
  intros Hk. unfold index_text, range. rewrite <-index_lines_app.
  replace (N + 1 - 1) with ((k + 1 - 1) + (N + 1 - (k + 1))) by lia.
  rewrite seqZ_app by lia. do 3 f_equal. lia.
Qed.

(** X9. A run for [N] packages that returns goes through what the run for
    [k] packages leaves, for every [k] up to [N]: that smaller run returns
    on the same start too, both leave the same directories, manifests and
    payload bytes for the packages [1] to [k], and the index file of the
    larger run is the index file of the smaller one with lines added. *)
Theorem larger_run_extends_smaller E N M k w w' :
  fs_wf (w_fs w) →
  0 ≤ k ≤ N →
  generate_test_data E N M w = (Returned tt, w') →
  ∃ w1, generate_test_data E k M w = (Returned tt, w1) ∧
    (∀ i, 1 ≤ i ≤ k →
       w_fs w' !! resolve (pkg_dir i) = w_fs w1 !! resolve (pkg_dir i) ∧
       w_fs w' !! resolve (files_dir i) = w_fs w1 !! resolve (files_dir i) ∧
       w_fs w' !! resolve (manifest_path i) = w_fs w1 !! resolve (manifest_path i) ∧
       ∀ j, 1 ≤ j ≤ M →
         is_file (w_fs w1 !! resolve (file_path i j)) = true ∧
         w_fs w' !! resolve (file_path i j) = w_fs w1 !! resolve (file_path i j)) ∧
    ∃ text rest,
      w_fs w1 !! resolve "packages.txt" = Some (File text) ∧
      w_fs w' !! resolve "packages.txt" = Some (File (text +:+ rest)).
Proof.
  intros Hwf Hk Hrun.
  assert (∃ w1, generate_test_data E k M w = (Returned tt, w1)) as (w1 & Hrun1).
  { pose proof (generate_test_data_eq E N M w) as HeqN. simpl in HeqN.
    rewrite Hrun in HeqN. symmetry in HeqN.
    rewrite generate_test_data_eq. simpl.
    destruct (is_dir (w_fs w !! index_p)); [done|].
    apply (for_each_take_returns _ _ _ _ (Z.to_nat k)) in HeqN as (w1 & H1).
    exists w1. rewrite take_range in H1 by lia. by rewrite Z2Nat.id in H1 by lia. }
  exists w1. split; [done|].
  apply generate_test_data_spec in Hrun
    as (_ & _ & _ & Hindex & _ & _ & _ & Hpk & _); [|done].
  apply generate_test_data_spec in Hrun1
    as (_ & _ & _ & Hindex1 & _ & _ & _ & Hpk1 & _); [|done].
  split.
  - intros i Hi.
    destruct (Hpk i ltac:(lia)) as (Hd & Hf & Hm & Hpay).
    destruct (Hpk1 i Hi) as (Hd1 & Hf1 & Hm1 & Hpay1).
    rewrite resolve_pkg_dir, resolve_files_dir, resolve_manifest_path.
    split_and!; [congruence..|].
    intros j Hj. rewrite resolve_file_path.
    destruct (Hpay j Hj) as [-> _]. by destruct (Hpay1 j Hj) as [-> _].
  - exists (index_text k), (foldr (λ i acc, index_line i +:+ acc) ""
                              (range (k + 1) (N + 1))).
    rewrite resolve_index. split; [done|]. by rewrite <-index_text_app.
Qed.

Lemma larger_run_extends_smaller_witness :
  let run := generate_test_data empty_payload_entropy 3 1 (start ∅) in
  run.1 = Returned tt ∧
  ∃ w1, generate_test_data empty_payload_entropy 2 1 (start ∅) = (Returned tt, w1) ∧
        w_fs run.2 !! resolve (manifest_path 2) = w_fs w1 !! resolve (manifest_path 2).
Proof.
  intros run.
  assert (run.1 = Returned tt) as Hrun by (vm_compute; reflexivity).
  split; [exact Hrun|].
  destruct (larger_run_extends_smaller empty_payload_entropy 3 1 2 (start ∅) run.2
              fs_wf_empty ltac:(lia) (returned_eq _ Hrun)) as (w1 & Hrun1 & Hpk & _).
  exists w1. split; [exact Hrun1|].
  destruct (Hpk 2 ltac:(lia)) as (_ & _ & Hm & _). exact Hm.
Defined.
End smaller_runs.
